(** * quran_tafsir_api: the altafsir crawl-and-import pipeline

    A shallow embedding of the verse-reference validators
    ([config_utils.py], [scrape_altafsir_com.py]), of the crawler
    ([scrape_altafsir_com.py]) and of the importer
    ([import_altafsir_data.py]), with the properties of the pipeline
    stated and settled on the embedding.

    Conventions.
    - Python [int] is [Z]; Python [str] is a list of Unicode code points
      ([pystr]); string literals of the program are written [py "..."].
    - A Python [dict] used as a table with a primary key is a [gmap]; a
      [dict] that is iterated ([vs.items()]) is an association list in
      insertion order.
    - A call that may raise returns [res A]; every exception modelled is a
      subclass of Python's [Exception], so [except Exception] catches it.
    - Logging, sleeping and network requests are recorded as events of a
      trace. *)

From Stdlib Require Import ZArith NArith String Ascii DecimalString.
From stdpp Require Import base option list gmap.

Open Scope Z_scope.

(** ** Python values *)

Module Py.

(** A Python [str]: its code points. *)
Definition pystr := list N.

(** An ASCII literal of the program as a Python [str]. *)
Definition py (s : string) : pystr :=
  map N_of_ascii (list_ascii_of_string s).
Arguments py s%_string.

(** [str.isspace] on one code point: the characters that [str.strip()]
    removes when called without argument. *)
Definition is_space (c : N) : bool :=
  ((0x09 <=? c) && (c <=? 0x0D) ||
   (0x1C <=? c) && (c <=? 0x20) ||
   (c =? 0x85) || (c =? 0xA0) || (c =? 0x1680) ||
   (0x2000 <=? c) && (c <=? 0x200A) ||
   (c =? 0x2028) || (c =? 0x2029) || (c =? 0x202F) ||
   (c =? 0x205F) || (c =? 0x3000))%N.

Fixpoint lstrip (s : pystr) : pystr :=
  match s with
  | [] => []
  | c :: s' => if is_space c then lstrip s' else s
  end.

Definition rstrip (s : pystr) : pystr := rev (lstrip (rev s)).

(** [s.strip()] *)
Definition strip (s : pystr) : pystr := rstrip (lstrip s).

(** Truth value of a [str]: non-empty. *)
Definition truthy (s : pystr) : bool :=
  match s with [] => false | _ :: _ => true end.

(** The result of [json.load]: numbers are integers, objects keep the
    order of their keys. *)
#[local] Set Warnings "-register-all".
Inductive json :=
  | JNull
  | JBool (b : bool)
  | JInt (z : Z)
  | JStr (s : pystr)
  | JArr (l : list json)
  | JObj (fields : list (pystr * json)).

(** Exceptions raised by the modelled calls; all are subclasses of
    [Exception]. [DatabaseError] stands for the exceptions of the
    [sqlite3] module ([sqlite3.Error] and its subclasses). *)
Inductive exn :=
  | AttributeError
  | TypeError
  | KeyError
  | OSError
  | JSONDecodeError
  | UnicodeDecodeError
  | DatabaseError
  | ZeroDivisionError
  | OverflowError
  | UnicodeEncodeError.

(** Outcome of a call: a value, or an exception on its way up. *)
Inductive res (A : Type) :=
  | Ret (a : A)
  | Raise (e : exn).
Arguments Ret {A} a.
Arguments Raise {A} e.

Definition bind {A B} (r : res A) (k : A -> res B) : res B :=
  match r with
  | Ret a => k a
  | Raise e => Raise e
  end.

(** [try: body except Exception: handler] *)
Definition try_except {A} (body : res A) (handler : exn -> res A) : res A :=
  match body with
  | Ret a => Ret a
  | Raise e => handler e
  end.

Definition raises {A} (r : res A) : bool :=
  match r with Ret _ => false | Raise _ => true end.

Fixpoint assoc_get (k : pystr) (fields : list (pystr * json)) : option json :=
  match fields with
  | [] => None
  | (k', v) :: rest => if decide (k' = k) then Some v else assoc_get k rest
  end.

(** [d.get(key, default)]: only a [dict] has the method. *)
Definition dict_get (d : json) (key : pystr) (dflt : json) : res json :=
  match d with
  | JObj fields => Ret (default dflt (assoc_get key fields))
  | _ => Raise AttributeError
  end.

(** One file on disk holding JSON of shape [A]. [Unreadable e]: the file
    exists but [open] or [json.load] raises [e] (no permission, bad
    encoding, invalid JSON). *)
Inductive file_state (A : Type) :=
  | Absent
  | Unreadable (e : exn)
  | Content (a : A).
Arguments Absent {A}.
Arguments Unreadable {A} e.
Arguments Content {A} a.

(** What [open(path, 'w')] followed by [json.dump] does on this disk:
    succeed, raise in [open] (file untouched), or raise in [json.dump]
    (file already truncated). *)
Inductive write_behaviour :=
  | Writes
  | OpenRaises (e : exn)
  | DumpRaises (e : exn).

Record disk (A : Type) := Disk {
  file : file_state A;
  on_write : write_behaviour }.
Arguments Disk {A} file on_write.
Arguments file {A} d.
Arguments on_write {A} d.

(** [if os.path.exists(path): with open(path) as f: return json.load(f)] *)
Definition read_if_exists {A} (d : disk A) : res (option A) :=
  match file d with
  | Absent => Ret None
  | Unreadable e => Raise e
  | Content a => Ret (Some a)
  end.

(** [with open(path, 'w') as f: json.dump(a, f)] *)
Definition write_json {A} (d : disk A) (a : A) : res unit * disk A :=
  match on_write d with
  | Writes => (Ret tt, Disk (Content a) (on_write d))
  | OpenRaises e => (Raise e, d)
  | DumpRaises e => (Raise e, Disk (Unreadable JSONDecodeError) (on_write d))
  end.

(** A surrogate code point, U+D800 to U+DFFF. A [str] can hold one,
    [json.load] makes one of an escape such as [\ud800]. *)
Definition surrogate (c : N) : bool := ((0xD800 <=? c) && (c <=? 0xDFFF))%N.

(** [s.encode('utf-8')] succeeds: [s] holds no surrogate. Otherwise it
    raises [UnicodeEncodeError]. *)
Definition encodable (s : pystr) : bool :=
  forallb (fun c => negb (surrogate c)) s.

(** [a % b] on [int]: the sign of the result is that of [b]. *)
Definition py_mod (a b : Z) : res Z :=
  if b =? 0 then Raise ZeroDivisionError else Ret (a mod b).

(** [str(z)] *)
Definition str_of_int (z : Z) : pystr :=
  py (NilZero.string_of_int (Z.to_int z)).

(** [d[key] = value] on a [dict] kept in insertion order. *)
Fixpoint dict_set {V} (d : list (pystr * V)) (key : pystr) (value : V)
  : list (pystr * V) :=
  match d with
  | [] => [(key, value)]
  | (k, v) :: rest =>
      if decide (k = key) then (k, value) :: rest
      else (k, v) :: dict_set rest key value
  end.

(** [d.update(other)] *)
Definition dict_update {V} (d other : list (pystr * V)) : list (pystr * V) :=
  fold_left (fun acc kv => dict_set acc (fst kv) (snd kv)) other d.

End Py.

(** ** config_utils.py *)

Module Config.

(** [VERSE_COUNTS], the table local to [validate_verse_reference]. *)
Definition VERSE_COUNTS : gmap Z Z := list_to_map [
    (1, 7); (2, 286); (3, 200); (4, 176); (5, 120); (6, 165); (7, 206); (8, 75); (9, 129); (10, 109);
    (11, 123); (12, 111); (13, 43); (14, 52); (15, 99); (16, 128); (17, 111); (18, 110); (19, 98); (20, 135);
    (21, 112); (22, 78); (23, 118); (24, 64); (25, 77); (26, 227); (27, 93); (28, 88); (29, 69); (30, 60);
    (31, 34); (32, 30); (33, 73); (34, 54); (35, 45); (36, 83); (37, 182); (38, 88); (39, 75); (40, 85);
    (41, 54); (42, 53); (43, 89); (44, 59); (45, 37); (46, 35); (47, 38); (48, 29); (49, 18); (50, 45);
    (51, 60); (52, 49); (53, 62); (54, 55); (55, 78); (56, 96); (57, 29); (58, 22); (59, 24); (60, 13);
    (61, 14); (62, 11); (63, 11); (64, 18); (65, 12); (66, 12); (67, 30); (68, 52); (69, 52); (70, 44);
    (71, 28); (72, 28); (73, 20); (74, 56); (75, 40); (76, 31); (77, 50); (78, 40); (79, 46); (80, 42);
    (81, 29); (82, 19); (83, 36); (84, 25); (85, 22); (86, 17); (87, 19); (88, 26); (89, 30); (90, 20);
    (91, 15); (92, 21); (93, 11); (94, 8); (95, 8); (96, 19); (97, 5); (98, 8); (99, 8); (100, 11);
    (101, 11); (102, 8); (103, 3); (104, 9); (105, 5); (106, 4); (107, 7); (108, 3); (109, 6); (110, 3);
    (111, 5); (112, 4); (113, 5); (114, 6) ].

(** [validate_verse_reference(chapter, verse)] of [config_utils.py]. *)
Definition validate_verse_reference (chapter verse : Z) : bool :=
  if (chapter <? 1) || (chapter >? 114) then false
  else
    match VERSE_COUNTS !! chapter with
    | None => false
    | Some max_verses => (1 <=? verse) && (verse <=? max_verses)
    end.

End Config.

(** ** scrape_altafsir_com.py *)

Module Scraper.
Import Py.

(** [AltafsirScraper.QURAN_CHAPTERS]: chapter number to (name, verse
    count). *)
Definition QURAN_CHAPTERS : gmap Z (string * Z) := list_to_map [
    (1, ("Al-Fatihah"%string, 7)); (2, ("Al-Baqarah"%string, 286)); (3, ("Ali 'Imran"%string, 200));
    (4, ("An-Nisa"%string, 176)); (5, ("Al-Ma'idah"%string, 120)); (6, ("Al-An'am"%string, 165));
    (7, ("Al-A'raf"%string, 206)); (8, ("Al-Anfal"%string, 75)); (9, ("At-Tawbah"%string, 129));
    (10, ("Yunus"%string, 109)); (11, ("Hud"%string, 123)); (12, ("Yusuf"%string, 111));
    (13, ("Ar-Ra'd"%string, 43)); (14, ("Ibrahim"%string, 52)); (15, ("Al-Hijr"%string, 99));
    (16, ("An-Nahl"%string, 128)); (17, ("Al-Isra"%string, 111)); (18, ("Al-Kahf"%string, 110));
    (19, ("Maryam"%string, 98)); (20, ("Taha"%string, 135)); (21, ("Al-Anbya"%string, 112));
    (22, ("Al-Hajj"%string, 78)); (23, ("Al-Mu'minun"%string, 118)); (24, ("An-Nur"%string, 64));
    (25, ("Al-Furqan"%string, 77)); (26, ("Ash-Shu'ara"%string, 227)); (27, ("An-Naml"%string, 93));
    (28, ("Al-Qasas"%string, 88)); (29, ("Al-'Ankabut"%string, 69)); (30, ("Ar-Rum"%string, 60));
    (31, ("Luqman"%string, 34)); (32, ("As-Sajdah"%string, 30)); (33, ("Al-Ahzab"%string, 73));
    (34, ("Saba"%string, 54)); (35, ("Fatir"%string, 45)); (36, ("Ya-Sin"%string, 83));
    (37, ("As-Saffat"%string, 182)); (38, ("Sad"%string, 88)); (39, ("Az-Zumar"%string, 75));
    (40, ("Ghafir"%string, 85)); (41, ("Fussilat"%string, 54)); (42, ("Ash-Shuraa"%string, 53));
    (43, ("Az-Zukhruf"%string, 89)); (44, ("Ad-Dukhan"%string, 59)); (45, ("Al-Jathiyah"%string, 37));
    (46, ("Al-Ahqaf"%string, 35)); (47, ("Muhammad"%string, 38)); (48, ("Al-Fath"%string, 29));
    (49, ("Al-Hujurat"%string, 18)); (50, ("Qaf"%string, 45)); (51, ("Adh-Dhariyat"%string, 60));
    (52, ("At-Tur"%string, 49)); (53, ("An-Najm"%string, 62)); (54, ("Al-Qamar"%string, 55));
    (55, ("Ar-Rahman"%string, 78)); (56, ("Al-Waqi'ah"%string, 96)); (57, ("Al-Hadid"%string, 29));
    (58, ("Al-Mujadila"%string, 22)); (59, ("Al-Hashr"%string, 24)); (60, ("Al-Mumtahanah"%string, 13));
    (61, ("As-Saf"%string, 14)); (62, ("Al-Jumu'ah"%string, 11)); (63, ("Al-Munafiqun"%string, 11));
    (64, ("At-Taghabun"%string, 18)); (65, ("At-Talaq"%string, 12)); (66, ("At-Tahrim"%string, 12));
    (67, ("Al-Mulk"%string, 30)); (68, ("Al-Qalam"%string, 52)); (69, ("Al-Haqqah"%string, 52));
    (70, ("Al-Ma'arij"%string, 44)); (71, ("Nuh"%string, 28)); (72, ("Al-Jinn"%string, 28));
    (73, ("Al-Muzzammil"%string, 20)); (74, ("Al-Muddaththir"%string, 56)); (75, ("Al-Qiyamah"%string, 40));
    (76, ("Al-Insan"%string, 31)); (77, ("Al-Mursalat"%string, 50)); (78, ("An-Naba"%string, 40));
    (79, ("An-Nazi'at"%string, 46)); (80, ("'Abasa"%string, 42)); (81, ("At-Takwir"%string, 29));
    (82, ("Al-Infitar"%string, 19)); (83, ("Al-Mutaffifin"%string, 36)); (84, ("Al-Inshiqaq"%string, 25));
    (85, ("Al-Buruj"%string, 22)); (86, ("At-Tariq"%string, 17)); (87, ("Al-A'la"%string, 19));
    (88, ("Al-Ghashiyah"%string, 26)); (89, ("Al-Fajr"%string, 30)); (90, ("Al-Balad"%string, 20));
    (91, ("Ash-Shams"%string, 15)); (92, ("Al-Layl"%string, 21)); (93, ("Ad-Duhaa"%string, 11));
    (94, ("Ash-Sharh"%string, 8)); (95, ("At-Tin"%string, 8)); (96, ("Al-'Alaq"%string, 19));
    (97, ("Al-Qadr"%string, 5)); (98, ("Al-Bayyinah"%string, 8)); (99, ("Az-Zalzalah"%string, 8));
    (100, ("Al-'Adiyat"%string, 11)); (101, ("Al-Qari'ah"%string, 11)); (102, ("At-Takathur"%string, 8));
    (103, ("Al-'Asr"%string, 3)); (104, ("Al-Humazah"%string, 9)); (105, ("Al-Fil"%string, 5));
    (106, ("Quraysh"%string, 4)); (107, ("Al-Ma'un"%string, 7)); (108, ("Al-Kawthar"%string, 3));
    (109, ("Al-Kafirun"%string, 6)); (110, ("An-Nasr"%string, 3)); (111, ("Al-Masad"%string, 5));
    (112, ("Al-Ikhlas"%string, 4)); (113, ("Al-Falaq"%string, 5)); (114, ("An-Nas"%string, 6)) ].

(** [AltafsirScraper.validate_verse_reference(chapter, verse)]. *)
Definition validate_verse_reference (chapter verse : Z) : bool :=
  if (chapter <? 1) || (chapter >? 114) then false
  else
    match QURAN_CHAPTERS !! chapter with
    | None => false
    | Some (_, max_verses) => (1 <=? verse) && (verse <=? max_verses)
    end.

(** A [tafsir_info] dict as [get_available_tafasir] builds it. *)
Record tafsir_info := TafsirInfo {
  ti_id : Z;
  ti_name : pystr;
  ti_url : pystr;
  ti_language : pystr;
  ti_author : pystr }.

(** The URL handed to [session.get]: the main page, or
    [f"{tafsir_info['url']}/chapter/{chapter}/verse/{verse}"]. *)
Inductive target :=
  | MainPage (base_url : pystr)
  | VerseUrl (tafsir_url : pystr) (chapter verse : Z).

(** What one [session.get] yields: a response with a status, whose
    [text()] may itself raise; [asyncio.TimeoutError]; another error. *)
Inductive response :=
  | Http (status : Z) (text : res pystr)
  | Timeout
  | Failure.

Inductive level := INFO | WARNING | ERROR.

Inductive message :=
  | UrlNotFound (u : target)
  | HttpStatus (status : Z) (u : target)
  | TimeoutFor (u : target) (attempt : Z)
  | ErrorFetching (u : target) (attempt : Z)
  | FailedToFetch (u : target) (max_retries : Z)
  | InvalidVerseReference (chapter verse : Z)
  | ErrorParsingVerse (chapter verse : Z)
  | InvalidChapterNumber (chapter : Z)
  | SkippingCompletedChapter (chapter : Z)
  | SkippingCompletedTafsir (name : pystr)
  | CouldNotFetchMainPage
  | NoTafsirBooksFound
  | CouldNotLoadProgress (e : exn)
  | CouldNotSaveProgress (e : exn).

(** Observable effects, in the order of a sequential schedule of the
    tasks. *)
Inductive event :=
  | Sleep
  | Backoff (seconds : Z)
  | Get (u : target)
  | Log (l : level) (m : message).

(** The remote origin and the site-specific parsers, which the scraper
    calls but does not implement. [respond u attempt] is the answer to
    the request of the given attempt of one [fetch_with_retry] call. *)
Record origin := Origin {
  respond : target -> Z -> response;
  tafsir_div_text : pystr -> res pystr;
  tafsir_links : pystr -> list tafsir_info }.

(** The body of [for attempt in range(max_retries)] from [attempt] on,
    with [remaining] iterations left, then the statements after the
    loop. *)
Fixpoint fetch_attempts (o : origin) (u : target) (max_retries attempt : Z)
    (remaining : nat) : option pystr * list event :=
  match remaining with
  | O => (None, [Log ERROR (FailedToFetch u max_retries)])
  | S remaining' =>
      let backoff :=
        if attempt <? max_retries - 1 then [Backoff (2 ^ attempt)] else [] in
      let rest := fetch_attempts o u max_retries (attempt + 1) remaining' in
      let again (logged : event) :=
        (fst rest, [Sleep; Get u; logged] ++ backoff ++ snd rest) in
      match respond o u attempt with
      | Http status text =>
          if status =? 200 then
            match text with
            | Ret content => (Some content, [Sleep; Get u])
            | Raise _ => again (Log ERROR (ErrorFetching u (attempt + 1)))
            end
          else if status =? 404 then
            (None, [Sleep; Get u; Log WARNING (UrlNotFound u)])
          else again (Log WARNING (HttpStatus status u))
      | Timeout => again (Log WARNING (TimeoutFor u (attempt + 1)))
      | Failure => again (Log ERROR (ErrorFetching u (attempt + 1)))
      end
  end.

(** [fetch_with_retry(url, max_retries)]: [Optional[str]] and the effects
    performed. *)
Definition fetch_with_retry (o : origin) (u : target) (max_retries : Z)
  : option pystr * list event :=
  fetch_attempts o u max_retries 0 (Z.to_nat max_retries).

(** [f"{chapter}:{verse}"] *)
Definition verse_key_of (chapter verse : Z) : pystr :=
  str_of_int chapter ++ py ":" ++ str_of_int verse.

(** [asdict(VerseData(v, c, n, tf={"t","r","id"}, tr=[]))] *)
Definition verse_dict (tafsir_info : tafsir_info) (chapter verse : Z)
    (tafsir_text : pystr) : json :=
  JObj [ (py "v", JStr (verse_key_of chapter verse));
         (py "c", JInt chapter);
         (py "n", JInt verse);
         (py "tf", JObj [ (py "t", JStr tafsir_text);
                          (py "r", JStr []);
                          (py "id", JInt (ti_id tafsir_info)) ]);
         (py "tr", JArr []) ].

(** [scrape_verse_tafsir(tafsir_info, chapter, verse)] *)
Definition scrape_verse_tafsir (o : origin) (tafsir_info : tafsir_info)
    (chapter verse : Z) : option json * list event :=
  if negb (validate_verse_reference chapter verse) then
    (None, [Log WARNING (InvalidVerseReference chapter verse)])
  else
    let verse_url := VerseUrl (ti_url tafsir_info) chapter verse in
    let fetched := fetch_with_retry o verse_url 3 in
    match fst fetched with
    | None => (None, snd fetched)
    | Some content =>
        if negb (truthy content) then (None, snd fetched)
        else
          match tafsir_div_text o content with
          | Raise _ =>
              (None, snd fetched ++ [Log ERROR (ErrorParsingVerse chapter verse)])
          | Ret tafsir_text =>
              if truthy tafsir_text
              then (Some (verse_dict tafsir_info chapter verse tafsir_text),
                    snd fetched)
              else (None, snd fetched)
          end
    end.

(** [scrape_chapter(tafsir_info, chapter)]: the tasks of the verses
    [1..verse_count], gathered; a task cannot raise here, every
    exception of a fetch or of a parse being caught inside it. *)
Definition scrape_chapter (o : origin) (tafsir_info : tafsir_info)
    (chapter : Z) : list (pystr * json) * list event :=
  match QURAN_CHAPTERS !! chapter with
  | None => ([], [Log ERROR (InvalidChapterNumber chapter)])
  | Some (_, verse_count) =>
      let results :=
        map (fun verse => (verse, scrape_verse_tafsir o tafsir_info chapter verse))
            (seqZ 1 verse_count) in
      let verses_data :=
        fold_left
          (fun d r =>
             match fst (snd r) with
             | Some result => dict_set d (verse_key_of chapter (fst r)) result
             | None => d
             end)
          results [] in
      (verses_data, concat (map (fun r => snd (snd r)) results))
  end.

(** [self.progress_data]: a [dict] whose keys may be missing ([None]);
    [current_tafsir] is [None] for a missing key and for [null]. *)
Record progress := Progress {
  completed_tafasir : option (list Z);
  current_tafsir : option tafsir_info;
  current_chapter : option Z;
  completed_chapters : option (list Z) }.

Definition default_progress : progress :=
  Progress (Some []) None (Some 1) None.

(** [asdict(TafsirMeta(...))], the fields that depend on the run. *)
Record tafsir_meta := TafsirMeta {
  tid : Z;
  tn : pystr;
  au : pystr;
  lang : pystr;
  arabic : bool;
  coverage_verses : Z }.

Record chapter_info := ChapterInfo {
  ch_id : Z;
  ch_n : string;
  ch_vc : Z }.

Record document := Document {
  doc_meta : tafsir_meta;
  doc_chs : list (pystr * chapter_info);
  doc_vs : list (pystr * json) }.

(** The scraper object: progress in memory, the progress file, the
    effects so far, and the documents handed to [save_tafsir_data]. *)
Record scraper := ScraperState {
  progress_data : progress;
  progress_file : disk progress;
  trace : list event;
  saved : list document }.

Definition emit (s : scraper) (evs : list event) : scraper :=
  ScraperState (progress_data s) (progress_file s) (trace s ++ evs) (saved s).

Definition set_progress (s : scraper) (p : progress) : scraper :=
  ScraperState p (progress_file s) (trace s) (saved s).

(** [load_progress()] *)
Definition load_progress (d : disk progress) : res progress * list event :=
  match read_if_exists d with
  | Ret (Some p) => (Ret p, [])
  | Ret None => (Ret default_progress, [])
  | Raise e => (Ret default_progress, [Log WARNING (CouldNotLoadProgress e)])
  end.

(** [save_progress()] *)
Definition save_progress (s : scraper) : res unit * scraper :=
  let written := write_json (progress_file s) (progress_data s) in
  let s' := ScraperState (progress_data s) (snd written) (trace s) (saved s) in
  match fst written with
  | Ret _ => (Ret tt, s')
  | Raise e => (Ret tt, emit s' [Log ERROR (CouldNotSaveProgress e)])
  end.

(** [__init__]: the progress is loaded from the file. *)
Definition init (d : disk progress) : scraper :=
  let loaded := load_progress d in
  ScraperState
    (match fst loaded with Ret p => p | Raise _ => default_progress end)
    d (snd loaded) [].

(** One iteration of [for chapter in range(start_chapter, end_chapter + 1)]
    of [scrape_complete_tafsir]. *)
Definition scrape_chapter_step (o : origin) (tafsir_info : tafsir_info)
    (acc : scraper * list (pystr * json)) (chapter : Z)
  : scraper * list (pystr * json) :=
  let s := fst acc in
  let all_verses := snd acc in
  let p := progress_data s in
  if bool_decide (chapter ∈ default [] (completed_chapters p)) then
    (emit s [Log INFO (SkippingCompletedChapter chapter)], all_verses)
  else
    let s := set_progress s
      (Progress (completed_tafasir p) (current_tafsir p) (Some chapter)
                (completed_chapters p)) in
    let s := snd (save_progress s) in
    let scraped := scrape_chapter o tafsir_info chapter in
    let s := emit s (snd scraped) in
    let all_verses := dict_update all_verses (fst scraped) in
    let p := progress_data s in
    let s := set_progress s
      (Progress (completed_tafasir p) (current_tafsir p) (current_chapter p)
                (Some (default [] (completed_chapters p) ++ [chapter]))) in
    let s := snd (save_progress s) in
    (s, all_verses).

Definition chapters_table : list (pystr * chapter_info) :=
  map (fun ch_num =>
         let entry := QURAN_CHAPTERS !!! ch_num in
         (str_of_int ch_num, ChapterInfo ch_num (fst entry) (snd entry)))
      (seqZ 1 114).

(** [scrape_complete_tafsir(tafsir_info, start_chapter, end_chapter)] *)
Definition scrape_complete_tafsir (o : origin) (s : scraper)
    (tafsir_info : tafsir_info) (start_chapter end_chapter : Z)
  : document * scraper :=
  let done :=
    fold_left (scrape_chapter_step o tafsir_info)
              (seqZ start_chapter (end_chapter + 1 - start_chapter)) (s, []) in
  let all_verses := snd done in
  let meta :=
    TafsirMeta (ti_id tafsir_info) (ti_name tafsir_info) (ti_author tafsir_info)
               (ti_language tafsir_info)
               (bool_decide (ti_language tafsir_info = py "arabic"))
               (Z.of_nat (length all_verses)) in
  (Document meta chapters_table all_verses, fst done).

(** One iteration of [for tafsir_info in available_tafasir] of
    [run_scraper]. *)
Definition run_tafsir (o : origin) (s : scraper) (tafsir_info : tafsir_info)
  : scraper :=
  let p := progress_data s in
  if bool_decide (ti_id tafsir_info ∈ default [] (completed_tafasir p)) then
    emit s [Log INFO (SkippingCompletedTafsir (ti_name tafsir_info))]
  else
    let s := set_progress s
      (Progress (completed_tafasir p) (Some tafsir_info) (current_chapter p)
                (completed_chapters p)) in
    let s := snd (save_progress s) in
    let scraped := scrape_complete_tafsir o s tafsir_info 1 114 in
    let s := snd scraped in
    let s := ScraperState (progress_data s) (progress_file s) (trace s)
                          (saved s ++ [fst scraped]) in
    let p := progress_data s in
    let s := set_progress s
      (Progress (Some (default [] (completed_tafasir p) ++ [ti_id tafsir_info]))
                (current_tafsir p) (current_chapter p) (Some [])) in
    snd (save_progress s).

(** [get_available_tafasir()] *)
Definition get_available_tafasir (o : origin) (base_url : pystr)
  : list tafsir_info * list event :=
  let fetched := fetch_with_retry o (MainPage base_url) 3 in
  match fst fetched with
  | Some content =>
      if truthy content then (tafsir_links o content, snd fetched)
      else ([], snd fetched ++ [Log ERROR CouldNotFetchMainPage])
  | None => ([], snd fetched ++ [Log ERROR CouldNotFetchMainPage])
  end.

(** [run_scraper(output_dir, tafsir_ids, languages)]; an empty or missing
    filter list selects everything. No call inside its [try] blocks
    raises here, [save_progress] and [save_tafsir_data] catching their
    own exceptions. *)
Definition run_scraper (o : origin) (s : scraper) (base_url : pystr)
    (tafsir_ids : list Z) (languages : list pystr) : scraper :=
  let found := get_available_tafasir o base_url in
  let s := emit s (snd found) in
  match fst found with
  | [] => emit s [Log ERROR NoTafsirBooksFound]
  | _ :: _ =>
      let available :=
        match tafsir_ids with
        | [] => fst found
        | _ :: _ => filter (fun t => ti_id t ∈ tafsir_ids) (fst found)
        end in
      let available :=
        match languages with
        | [] => available
        | _ :: _ => filter (fun t => ti_language t ∈ languages) available
        end in
      fold_left (run_tafsir o) available s
  end.

End Scraper.

(** ** import_altafsir_data.py *)

Module Importer.
Import Py.

(** The [meta] object of a document: a [dict] whose keys may be
    missing. The fields have the types of the [TafsirMeta] dataclass of
    the scraper, which writes these files; a file whose [meta] is not an
    object, or holds values of other types, is outside the model. *)
Record meta_json := MetaJson {
  m_tid : option Z;
  m_tn : option pystr;
  m_lang : option pystr;
  m_au : option pystr;
  m_source_url : option pystr }.

(** The top-level object of a document file. *)
Record file_json := FileJson {
  j_meta : option meta_json;
  j_chs : option json;
  j_vs : option json }.

(** A document that passed [validate_tafsir_file]: the required keys are
    there and [vs] is a [dict], here its items in order. *)
Record tafsir_meta := TafsirMeta {
  tid : Z;
  tn : pystr;
  lang : pystr;
  au : option pystr;
  source_url : option pystr }.

Record tafsir_data := TafsirData {
  meta : tafsir_meta;
  vs : list (pystr * json) }.

(** *** The tables *)

(** A value of [CURRENT_TIMESTAMP]. *)
Definition timestamp := Z.

(** The ten values that [import_tafsir_verses] supplies for a row of
    [quran_translations], the [verse_tuple] of the source. The chapter
    and verse numbers are whatever the document holds under ["c"] and
    ["n"]; a row keeps them as they were bound (the conversion that the
    column affinity of SQLite applies to a text that reads as a number
    is not modelled). *)
Record verse_values := VerseValues {
  verse_key : pystr;
  chapter_number : json;
  verse_number : json;
  translation_id : Z;
  translation_name : pystr;
  author_name : pystr;
  language_code : pystr;
  text : pystr;
  resource_type : pystr;
  data_hash : pystr }.

(** A row of [quran_translations]: the values supplied, and the columns
    that the store fills in, [id INTEGER PRIMARY KEY AUTOINCREMENT] and
    the two timestamps [DEFAULT CURRENT_TIMESTAMP]. *)
Record row := Row {
  id : Z;
  columns : verse_values;
  created_at : timestamp;
  updated_at : timestamp }.

(** A row of [tafsir_metadata], whose key [translation_id] is kept
    apart; [import_date] is filled in by the store. *)
Record metadata_row := MetadataRow {
  md_name : pystr;
  md_author : pystr;
  md_language_code : pystr;
  md_description : pystr;
  md_source_url : pystr;
  md_total_verses : Z;
  md_file_path : pystr;
  md_data_checksum : pystr;
  import_date : timestamp }.

(** The values that [log_import_result] supplies for a row of
    [import_log], [duration_seconds] (a float) left out. The store adds
    an [id] and an [import_date] to them; the rows are only ever
    appended, and the list keeps them in the order of their ids. *)
Record log_entry := LogEntry {
  log_file_path : pystr;
  log_translation_id : Z;
  verses_imported : Z;
  verses_skipped : Z;
  status : pystr;
  error_message : option pystr }.

(** The three tables of [create_tables]. [quran_translations] is
    [UNIQUE(verse_key, translation_id) ON CONFLICT REPLACE], and
    [quran_translations_seq] is its entry in [sqlite_sequence], the
    largest [id] given so far; [tafsir_metadata] has [translation_id] as
    primary key. *)
Record tables := Tables {
  quran_translations : gmap (pystr * Z) row;
  quran_translations_seq : Z;
  tafsir_metadata : gmap Z metadata_row;
  import_log : list log_entry }.

(** *** The connection *)

(** A store operation is one call of [cursor.execute] or
    [cursor.executemany] together with the [commit] that follows it, if
    any. A store error of an operation: the statement raises when it
    reaches the given row of its parameters (row 0 for [execute]), or
    the statement goes through and the [commit] raises. *)
Inductive store_fault :=
  | ExecuteRaises (at_row : nat)
  | CommitRaises.

(** The [sqlite3] connection: the committed state, the state inside the
    open transaction, the number of store operations made so far, the
    store errors of this connection, [fault n] being the one that hits
    operation [n], and the clock, [clock n j] being [CURRENT_TIMESTAMP]
    when row [j] of operation [n] is written. *)
Record connection := Connection {
  committed : tables;
  working : tables;
  calls : nat;
  fault : nat -> option store_fault;
  clock : nat -> nat -> timestamp }.

Definition execute_stop (f : option store_fault) : option nat :=
  match f with
  | Some (ExecuteRaises k) => Some k
  | Some CommitRaises | None => None
  end.

Definition commit_raises (f : option store_fault) : bool :=
  match f with
  | Some CommitRaises => true
  | Some (ExecuteRaises _) | None => false
  end.

Definition commit (c : connection) : connection :=
  Connection (working c) (working c) (calls c) (fault c) (clock c).

Definition rollback (c : connection) : connection :=
  Connection (committed c) (committed c) (calls c) (fault c) (clock c).

(** The connection after a statement that leaves [w] in the open
    transaction. *)
Definition advance (c : connection) (w : tables) : connection :=
  Connection (committed c) w (S (calls c)) (fault c) (clock c).

(** [connection.commit()] after the statement of an operation hit by
    [f]. A [commit] that raises leaves the transaction open. *)
Definition commit_after (f : option store_fault) (c : connection)
  : res unit * connection :=
  if commit_raises f then (Raise DatabaseError, c) else (Ret tt, commit c).

(** *** Parameters of a statement *)

(** A Python [int] that fits the 64-bit INTEGER of SQLite. *)
Definition fits64 (z : Z) : bool := (- 2 ^ 63 <=? z) && (z <? 2 ^ 63).

(** Binding an [int]: [OverflowError] outside 64 bits. *)
Definition bind_int (z : Z) : res unit :=
  if fits64 z then Ret tt else Raise OverflowError.

(** Binding a [str], which is encoded as UTF-8. *)
Definition bind_str (s : pystr) : res unit :=
  if encodable s then Ret tt else Raise UnicodeEncodeError.

(** Binding a value of a document: [None] is bound as NULL, a [bool] as
    an integer, and a [list] or [dict] is refused. *)
Definition bind_json (v : json) : res unit :=
  match v with
  | JNull | JBool _ => Ret tt
  | JInt z => bind_int z
  | JStr s => bind_str s
  | JArr _ | JObj _ => Raise DatabaseError
  end.

(** A [NOT NULL] column without default refuses NULL, also under
    [OR REPLACE]. *)
Definition not_null (v : json) : res unit :=
  match v with
  | JNull => Raise DatabaseError
  | _ => Ret tt
  end.

(** The code's environment: [hashlib.md5] of a text that can be encoded
    and of a file's bytes, both as [hexdigest] gives them, the files on
    disk, and [str(e)] of an exception. A digest and the text of an
    exception are ASCII: they are bound without check. *)
Record env := Env {
  md5_text : pystr -> pystr;
  md5_file : pystr -> pystr;
  files : pystr -> file_state file_json;
  exn_text : exn -> pystr }.

(** *** quran_translations *)

(** The ten parameters of the [INSERT] of [import_verses_batch], bound
    in their order; the first that cannot be bound raises. *)
Definition bind_verse_values (v : verse_values) : res unit :=
  bind (bind_str (verse_key v)) (fun _ =>
  bind (bind_json (chapter_number v)) (fun _ =>
  bind (bind_json (verse_number v)) (fun _ =>
  bind (bind_int (translation_id v)) (fun _ =>
  bind (bind_str (translation_name v)) (fun _ =>
  bind (bind_str (author_name v)) (fun _ =>
  bind (bind_str (language_code v)) (fun _ =>
  bind (bind_str (text v)) (fun _ =>
  bind_str (resource_type v))))))))).

(** The largest [id] of the table, if it has a row. *)
Definition max_rowid (m : gmap (pystr * Z) row) : option Z :=
  map_fold (fun _ r acc =>
              Some (match acc with
                    | None => id r
                    | Some a => Z.max a (id r)
                    end))
           None m.

(** The [id] that [AUTOINCREMENT] gives to a new row: one more than the
    largest [id] of the table and than the largest [id] ever given. *)
Definition next_id (t : tables) : Z :=
  Z.max (match max_rowid (quran_translations t) with
         | None => 1
         | Some a => a + 1
         end)
        (quran_translations_seq t + 1).

(** [INSERT OR REPLACE INTO quran_translations (...) VALUES (...)] for
    one row at the time [now]: the row that has the same
    [(verse_key, translation_id)], if any, is replaced by a new row with
    a new [id] and new timestamps. The store is full when no [id] is
    left. *)
Definition insert_or_replace (t : tables) (now : timestamp) (v : verse_values)
  : res tables :=
  bind (not_null (chapter_number v)) (fun _ =>
  bind (not_null (verse_number v)) (fun _ =>
  let new_id := next_id t in
  if fits64 new_id then
    Ret (Tables (<[(verse_key v, translation_id v) := Row new_id v now now]>
                   (quran_translations t))
                new_id (tafsir_metadata t) (import_log t))
  else Raise DatabaseError)).

(** The rows of one [executemany], from row [index] on; [stop] is the row
    at which the store fails and [now j] the time at row [j]. A raise
    leaves the rows written so far in the open transaction. *)
Fixpoint insert_rows (stop : option nat) (now : nat -> timestamp) (index : nat)
    (t : tables) (rows : list verse_values) : res unit * tables :=
  match rows with
  | [] => (Ret tt, t)
  | v :: rest =>
      match bind_verse_values v with
      | Raise ex => (Raise ex, t)
      | Ret _ =>
          if bool_decide (stop = Some index) then (Raise DatabaseError, t)
          else
            match insert_or_replace t (now index) v with
            | Raise ex => (Raise ex, t)
            | Ret t' => insert_rows stop now (S index) t' rest
            end
      end
  end.

(** [cursor.executemany(INSERT OR REPLACE ..., verses_batch)], and
    [cursor.rowcount] after it. *)
Definition executemany (c : connection) (verses_batch : list verse_values)
  : res Z * connection :=
  let done :=
    insert_rows (execute_stop (fault c (calls c))) (clock c (calls c)) 0
                (working c) verses_batch in
  let c' := advance c (snd done) in
  match fst done with
  | Ret _ => (Ret (Z.of_nat (length verses_batch)), c')
  | Raise ex => (Raise ex, c')
  end.

(** [import_verses_batch(verses_batch, translation_id)]: the connection
    after it, and [(imported, skipped)]. [imported] is assigned between
    [executemany] and [commit]; the handler of the [try] rolls back and
    sets [skipped]. *)
Definition import_verses_batch (c : connection)
    (verses_batch : list verse_values) : connection * (Z * Z) :=
  let executed := executemany c verses_batch in
  match fst executed with
  | Ret rowcount =>
      let done := commit_after (fault c (calls c)) (snd executed) in
      match fst done with
      | Ret _ => (snd done, (rowcount, 0))
      | Raise _ =>
          (rollback (snd done), (rowcount, Z.of_nat (length verses_batch)))
      end
  | Raise _ => (rollback (snd executed), (0, Z.of_nat (length verses_batch)))
  end.

(** [calculate_data_hash(text)]: the text is encoded first. *)
Definition calculate_data_hash (e : env) (text : pystr) : res pystr :=
  if encodable text then Ret (md5_text e text) else Raise UnicodeEncodeError.

(** [verse_data.get('tf', {}).get('t', '')] *)
Definition tafsir_field (verse_data : json) : res json :=
  bind (dict_get verse_data (py "tf") (JObj [])) (fun tf =>
  dict_get tf (py "t") (JStr [])).

(** What the body of the loop of [import_tafsir_verses] makes of one
    item before batching: the text is blank ([continue]), or the tuple
    to append. A raise is caught by the loop's [except Exception]. *)
Definition verse_tuple (e : env) (meta : tafsir_meta) (verse_key : pystr)
    (verse_data : json) : res (option verse_values) :=
  bind (tafsir_field verse_data) (fun t =>
  match t with
  | JStr tafsir_text =>
      if negb (truthy (strip tafsir_text)) then Ret None
      else
        bind (calculate_data_hash e tafsir_text) (fun data_hash =>
        bind (dict_get verse_data (py "c") (JInt 0)) (fun c =>
        bind (dict_get verse_data (py "n") (JInt 0)) (fun n =>
        Ret (Some (VerseValues verse_key c n (tid meta) (tn meta)
                               (default (py "Unknown") (au meta)) (lang meta)
                               tafsir_text (py "tafsir") data_hash)))))
  | _ => Raise AttributeError
  end).

(** The variables of the loop of [import_tafsir_verses]. *)
Record loop := Loop {
  l_conn : connection;
  verses_batch : list verse_values;
  total_imported : Z;
  total_skipped : Z }.

(** One iteration of [for verse_key, verse_data in verses.items()]. The
    progress check after a batch, [total_imported % (batch_size * 5)], is
    inside the [try]: when it raises, the handler counts one more
    skipped verse; the batch was imported and emptied before. *)
Definition verse_step (e : env) (batch_size : Z) (meta : tafsir_meta)
    (st : loop) (item : pystr * json) : loop :=
  match verse_tuple e meta (fst item) (snd item) with
  | Raise _ =>
      Loop (l_conn st) (verses_batch st) (total_imported st)
           (total_skipped st + 1)
  | Ret None =>
      Loop (l_conn st) (verses_batch st) (total_imported st)
           (total_skipped st + 1)
  | Ret (Some t) =>
      let batch := verses_batch st ++ [t] in
      if Z.of_nat (length batch) >=? batch_size then
        let done := import_verses_batch (l_conn st) batch in
        let total_imported := total_imported st + fst (snd done) in
        let total_skipped := total_skipped st + snd (snd done) in
        match py_mod total_imported (batch_size * 5) with
        | Ret _ => Loop (fst done) [] total_imported total_skipped
        | Raise _ => Loop (fst done) [] total_imported (total_skipped + 1)
        end
      else Loop (l_conn st) batch (total_imported st) (total_skipped st)
  end.

(** [import_tafsir_verses(tafsir_data)]: the connection after it, and
    [(total_imported, total_skipped)]. *)
Definition import_tafsir_verses (e : env) (batch_size : Z) (c : connection)
    (tafsir_data : tafsir_data) : connection * (Z * Z) :=
  let st :=
    fold_left (verse_step e batch_size (meta tafsir_data)) (vs tafsir_data)
              (Loop c [] 0 0) in
  match verses_batch st with
  | [] => (l_conn st, (total_imported st, total_skipped st))
  | _ :: _ =>
      let done := import_verses_batch (l_conn st) (verses_batch st) in
      (fst done,
       (total_imported st + fst (snd done), total_skipped st + snd (snd done)))
  end.

(** *** Files, metadata, log *)

(** [validate_tafsir_file(file_path)]: [(is_valid, data)] as an option. *)
Definition validate_tafsir_file (e : env) (file_path : pystr)
  : option tafsir_data :=
  match files e file_path with
  | Content data =>
      match j_meta data, j_chs data, j_vs data with
      | Some m, Some _, Some verses =>
          match m_tid m, m_tn m, m_lang m with
          | Some tid, Some tn, Some lang =>
              match verses with
              | JObj items =>
                  Some (TafsirData
                          (TafsirMeta tid tn lang (m_au m) (m_source_url m))
                          items)
              | _ => None
              end
          | _, _, _ => None
          end
      | _, _, _ => None
      end
  | Absent | Unreadable _ => None
  end.

(** One [cursor.execute] of a statement that writes, and the [commit]
    after it, as one store operation: the parameters are bound, the
    statement runs at the time of the clock, and the transaction is
    committed. [calls] is advanced whatever happens. *)
Definition execute_and_commit (c : connection) (params : res unit)
    (statement : timestamp -> tables -> tables) : res unit * connection :=
  let f := fault c (calls c) in
  match params with
  | Raise ex => (Raise ex, advance c (working c))
  | Ret _ =>
      if bool_decide (execute_stop f = Some 0%nat)
      then (Raise DatabaseError, advance c (working c))
      else
        commit_after f
          (advance c (statement (clock c (calls c) 0%nat) (working c)))
  end.

(** [check_existing_tafsir(translation_id)]: one [SELECT COUNT( * )], made
    inside the open transaction. *)
Definition check_existing_tafsir (c : connection) (translation_id : Z)
  : res bool * connection :=
  match bind_int translation_id with
  | Raise ex => (Raise ex, advance c (working c))
  | Ret _ =>
      if bool_decide (execute_stop (fault c (calls c)) = Some 0%nat)
      then (Raise DatabaseError, advance c (working c))
      else
        (Ret (bool_decide
                (is_Some (tafsir_metadata (working c) !! translation_id))),
         advance c (working c))
  end.

(** [import_tafsir_metadata(tafsir_data, file_path)]: the file is read
    for its checksum, then one [INSERT OR REPLACE] and [commit]. *)
Definition import_tafsir_metadata (e : env) (c : connection)
    (tafsir_data : tafsir_data) (file_path : pystr) : res unit * connection :=
  let m := meta tafsir_data in
  let author := default (py "Unknown") (au m) in
  let description := py "Imported from altafsir.com - " ++ tn m in
  let url := default (py "https://www.altafsir.com") (source_url m) in
  let params :=
    bind (bind_int (tid m)) (fun _ =>
    bind (bind_str (tn m)) (fun _ =>
    bind (bind_str author) (fun _ =>
    bind (bind_str (lang m)) (fun _ =>
    bind (bind_str description) (fun _ =>
    bind (bind_str url) (fun _ =>
    bind_str file_path)))))) in
  execute_and_commit c params
    (fun now w =>
       Tables (quran_translations w) (quran_translations_seq w)
              (<[tid m :=
                   MetadataRow (tn m) author (lang m) description url
                               (Z.of_nat (length (vs tafsir_data)))
                               file_path (md5_file e file_path) now]>
                 (tafsir_metadata w))
              (import_log w)).

(** [log_import_result(file_path, translation_id, imported, skipped,
    status, error_message)]: one [INSERT] and [commit]. The two counts
    are numbers of verses, which fit 64 bits. *)
Definition log_import_result (c : connection) (file_path : pystr)
    (translation_id imported skipped : Z) (status : pystr)
    (error_message : option pystr) : res unit * connection :=
  let params :=
    bind (bind_str file_path) (fun _ =>
    bind (bind_int translation_id) (fun _ =>
    bind_str status)) in
  execute_and_commit c params
    (fun _ w =>
       Tables (quran_translations w) (quran_translations_seq w)
              (tafsir_metadata w)
              (import_log w ++
               [LogEntry file_path translation_id imported skipped
                         status error_message])).

(** *** The importer *)

(** [ImportStats], the counters that [import_tafsir_file] updates. *)
Record import_stats := ImportStats {
  total_verses : Z;
  imported_verses : Z;
  skipped_verses : Z;
  errors : Z }.

(** [self.progress_data] of the importer. *)
Record progress := Progress {
  processed_files : option (list pystr);
  failed_files : option (list pystr);
  last_file : option pystr }.

Definition default_progress : progress := Progress (Some []) (Some []) None.

Inductive message :=
  | CouldNotLoadProgress (e : exn)
  | CouldNotSaveProgress (e : exn).

(** The importer object. *)
Record importer := ImporterState {
  connection_ : connection;
  batch_size : Z;
  stats : import_stats;
  progress_data : progress;
  progress_file : disk progress;
  warnings : list message }.

(** [load_progress()] *)
Definition load_progress (d : disk progress) : res progress * list message :=
  match read_if_exists d with
  | Ret (Some p) => (Ret p, [])
  | Ret None => (Ret default_progress, [])
  | Raise e => (Ret default_progress, [CouldNotLoadProgress e])
  end.

(** [save_progress()] *)
Definition save_progress (i : importer) : res unit * importer :=
  let written := write_json (progress_file i) (progress_data i) in
  match fst written with
  | Ret _ =>
      (Ret tt,
       ImporterState (connection_ i) (batch_size i) (stats i) (progress_data i)
                     (snd written) (warnings i))
  | Raise e =>
      (Ret tt,
       ImporterState (connection_ i) (batch_size i) (stats i) (progress_data i)
                     (snd written) (warnings i ++ [CouldNotSaveProgress e]))
  end.

Definition set_connection (i : importer) (c : connection) : importer :=
  ImporterState c (batch_size i) (stats i) (progress_data i) (progress_file i)
                (warnings i).

Definition set_stats (i : importer) (st : import_stats) : importer :=
  ImporterState (connection_ i) (batch_size i) st (progress_data i)
                (progress_file i) (warnings i).

(** A method of the importer: it returns or raises, and leaves the
    importer in a new state either way. *)
Definition action (A : Type) : Type := importer -> res A * importer.

Definition ret {A} (a : A) : action A := fun i => (Ret a, i).

(** [m] and then [k]; a raise of [m] ends the sequence. *)
Definition and_then {A B} (m : action A) (k : A -> action B) : action B :=
  fun i =>
    let r := m i in
    match fst r with
    | Ret a => k a (snd r)
    | Raise ex => (Raise ex, snd r)
    end.

(** [try: body except Exception as e: handler(e)] *)
Definition attempt {A} (body : action A) (handler : exn -> action A)
  : action A :=
  fun i =>
    let r := body i in
    match fst r with
    | Ret a => (Ret a, snd r)
    | Raise ex => handler ex (snd r)
    end.

(** A call on [self.connection]. *)
Definition on_store {A} (op : connection -> res A * connection) : action A :=
  fun i =>
    let r := op (connection_ i) in
    (fst r, set_connection i (snd r)).

(** The three statistics that [import_tafsir_file] adds to. *)
Definition add_to_stats (verses imported skipped : Z) : action unit :=
  fun i =>
    let st := stats i in
    (Ret tt,
     set_stats i (ImportStats (total_verses st + verses)
                              (imported_verses st + imported)
                              (skipped_verses st + skipped)
                              (errors st))).

(** [self.stats.errors += 1] *)
Definition count_error : action unit :=
  fun i =>
    let st := stats i in
    (Ret tt,
     set_stats i (ImportStats (total_verses st) (imported_verses st)
                              (skipped_verses st) (errors st + 1))).

Declare Scope action_scope.
Delimit Scope action_scope with action.
Notation "x <- m ;; k" := (and_then m (fun x => k))
  (at level 100, m at next level, k at level 200, right associativity)
  : action_scope.

(** The body of the [try] of [import_tafsir_file]: the metadata, the
    verses, the statistics, the log entry. *)
Definition import_document (e : env) (tafsir_data : tafsir_data)
    (file_path : pystr) : action bool :=
  (_ <- on_store (fun c => import_tafsir_metadata e c tafsir_data file_path) ;;
   counts <- (fun i =>
                on_store (fun c =>
                  let done :=
                    import_tafsir_verses e (batch_size i) c tafsir_data in
                  (Ret (snd done), fst done)) i) ;;
   _ <- add_to_stats (Z.of_nat (length (vs tafsir_data)))
                     (fst counts) (snd counts) ;;
   _ <- on_store (fun c =>
          log_import_result c file_path (tid (meta tafsir_data))
                            (fst counts) (snd counts) (py "completed") None) ;;
   ret true)%action.

(** The handler of that [try]: the failure is logged, then counted. *)
Definition log_failure (e : env) (file_path : pystr) (translation_id : Z)
    (ex : exn) : action bool :=
  (_ <- on_store (fun c =>
          log_import_result c file_path translation_id 0 0 (py "failed")
                            (Some (exn_text e ex))) ;;
   _ <- count_error ;;
   ret false)%action.

(** [import_tafsir_file(file_path, force_reimport)]: what it returns or
    raises, and the importer after it. The validation and the check of
    an existing edition come before the [try]; an exception there, or in
    the handler, leaves the method. *)
Definition import_tafsir_file (e : env) (i : importer) (file_path : pystr)
    (force_reimport : bool) : res bool * importer :=
  (match validate_tafsir_file e file_path with
   | None =>
       _ <- on_store (fun c =>
              log_import_result c file_path 0 0 0 (py "failed")
                                (Some (py "File validation failed"))) ;;
       ret false
   | Some tafsir_data =>
       let translation_id := tid (meta tafsir_data) in
       existing <- (if force_reimport then ret false
                    else on_store (fun c =>
                           check_existing_tafsir c translation_id)) ;;
       if (existing : bool) then
         _ <- on_store (fun c =>
                log_import_result c file_path translation_id 0 0
                                  (py "skipped") (Some (py "Already imported"))) ;;
         ret true
       else
         attempt (import_document e tafsir_data file_path)
                 (log_failure e file_path translation_id)
   end%action) i.

End Importer.

(** ** import_altafsir_data.py: the run *)

Module ImportRun.
Import Py Importer.

(** The importer during [run_import], with the two counters of
    [ImportStats] that the run itself updates and the warnings of
    [cleanup_progress]. *)
Record run := Run {
  importer_ : importer;
  total_files : Z;
  processed_files_count : Z;
  cleanup_warnings : list exn }.

Definition set_importer (st : run) (i : importer) : run :=
  Run i (total_files st) (processed_files_count st) (cleanup_warnings st).

(** [cleanup_progress()]: the progress file is removed when it exists;
    [on_remove] is the exception that [os.remove] raises, if any. *)
Definition cleanup_progress (on_remove : option exn) (st : run) : run :=
  let i := importer_ st in
  let d := progress_file i in
  match file d with
  | Absent => st
  | Unreadable _ | Content _ =>
      match on_remove with
      | None =>
          Run (ImporterState (connection_ i) (batch_size i) (stats i)
                             (progress_data i) (Disk Absent (on_write d))
                             (warnings i))
              (total_files st) (processed_files_count st) (cleanup_warnings st)
      | Some ex =>
          Run i (total_files st) (processed_files_count st)
              (cleanup_warnings st ++ [ex])
      end
  end.

(** One iteration of [for file_path in tafsir_files]. An exception that
    leaves [import_tafsir_file] leaves the loop. *)
Definition file_step (e : env) (force_reimport : bool) (st : run)
    (file_path : pystr) : res unit * run :=
  let i := importer_ st in
  if bool_decide (file_path ∈ default [] (processed_files (progress_data i)))
     && negb force_reimport
  then (Ret tt,
        Run i (total_files st) (processed_files_count st + 1)
            (cleanup_warnings st))
  else
    let r := import_tafsir_file e i file_path force_reimport in
    match fst r with
    | Raise ex => (Raise ex, set_importer st (snd r))
    | Ret success =>
        let i := snd r in
        let p := progress_data i in
        let p :=
          if success
          then Progress (Some (default [] (processed_files p) ++ [file_path]))
                        (failed_files p) (last_file p)
          else Progress (processed_files p)
                        (Some (default [] (failed_files p) ++ [file_path]))
                        (last_file p) in
        let i := ImporterState (connection_ i) (batch_size i) (stats i) p
                               (progress_file i) (warnings i) in
        (Ret tt,
         Run (snd (save_progress i)) (total_files st)
             (processed_files_count st + 1) (cleanup_warnings st))
    end.

(** [for file_path in tafsir_files: ...] *)
Fixpoint file_loop (e : env) (force_reimport : bool) (st : run)
    (tafsir_files : list pystr) : res unit * run :=
  match tafsir_files with
  | [] => (Ret tt, st)
  | file_path :: rest =>
      let stepped := file_step e force_reimport st file_path in
      match fst stepped with
      | Ret _ => file_loop e force_reimport (snd stepped) rest
      | Raise ex => (Raise ex, snd stepped)
      end
  end.

(** One [SELECT] without parameters, as a store operation. *)
Definition select (c : connection) : res unit * connection :=
  if bool_decide (execute_stop (fault c (calls c)) = Some 0%nat)
  then (Raise DatabaseError, advance c (working c))
  else (Ret tt, advance c (working c)).

(** [get_database_stats()]: three [SELECT]s, whose results are only
    logged. *)
Definition get_database_stats (c : connection) : res unit * connection :=
  let first := select c in
  match fst first with
  | Raise ex => (Raise ex, snd first)
  | Ret _ =>
      let second := select (snd first) in
      match fst second with
      | Raise ex => (Raise ex, snd second)
      | Ret _ => select (snd second)
      end
  end.

(** The body of the [try] of [run_import] once the database is
    connected, [tafsir_files] being what [find_tafsir_files] returns. *)
Definition run_import_body (e : env) (i : importer) (tafsir_files : list pystr)
    (force_reimport cleanup : bool) (on_remove : option exn) : res bool * run :=
  match tafsir_files with
  | [] => (Ret false, Run i 0 0 [])
  | _ :: _ =>
      let looped :=
        file_loop e force_reimport
                  (Run i (Z.of_nat (length tafsir_files)) 0 []) tafsir_files in
      match fst looped with
      | Raise ex => (Raise ex, snd looped)
      | Ret _ =>
          let st := snd looped in
          let counted := get_database_stats (connection_ (importer_ st)) in
          let st := set_importer st (set_connection (importer_ st) (snd counted)) in
          match fst counted with
          | Raise ex => (Raise ex, st)
          | Ret _ =>
              (Ret true,
               if cleanup && (errors (stats (importer_ st)) =? 0)
               then cleanup_progress on_remove st
               else st)
          end
      end
  end.

(** [connection.close()]: what is not committed is lost. *)
Definition close (st : run) : run :=
  set_importer st
    (set_connection (importer_ st) (rollback (connection_ (importer_ st)))).

(** [run_import(input_path, force_reimport, cleanup)]: an exception of
    the body is logged and makes the run return [False]; the connection
    is closed in every case. *)
Definition run_import (e : env) (i : importer) (tafsir_files : list pystr)
    (force_reimport cleanup : bool) (on_remove : option exn) : bool * run :=
  let done :=
    run_import_body e i tafsir_files force_reimport cleanup on_remove in
  (match fst done with
   | Ret success => success
   | Raise _ => false
   end,
   close (snd done)).

End ImportRun.

(** ** config_utils.py and scrape_altafsir_com.py: texts *)

Module Text.
Import Py.

(** [s.split()] from the word [cur] being read: the maximal runs of
    characters that are not whitespace. *)
Fixpoint split_from (cur s : pystr) : list pystr :=
  match s with
  | [] => match cur with [] => [] | _ :: _ => [cur] end
  | c :: s' =>
      if is_space c then
        match cur with
        | [] => split_from [] s'
        | _ :: _ => cur :: split_from [] s'
        end
      else split_from (cur ++ [c]) s'
  end.

(** [s.split()] *)
Definition split (s : pystr) : list pystr := split_from [] s.

(** [sep.join(words)] *)
Fixpoint join (sep : pystr) (words : list pystr) : pystr :=
  match words with
  | [] => []
  | [w] => w
  | w :: rest => w ++ sep ++ join sep rest
  end.

(** [s[:n]] *)
Definition slice_to (s : pystr) (n : Z) : pystr :=
  if n <? 0 then take (Z.to_nat (Z.of_nat (length s) + n)) s
  else take (Z.to_nat n) s.

(** The part of [s] before its last space (U+0020), if it has one;
    [rev_s] is [s] reversed. *)
Fixpoint before_last_space_rev (rev_s : pystr) : option pystr :=
  match rev_s with
  | [] => None
  | c :: rest =>
      if (c =? 32)%N then Some rest
      else before_last_space_rev rest
  end.

(** [s.rsplit(sep, 1)[0]] for the separator of one space. *)
Definition before_last_space (s : pystr) : pystr :=
  match before_last_space_rev (rev s) with
  | Some rest => rev rest
  | None => s
  end.

(** [clean_text(text, max_length)] of [config_utils.py]; [None] for a
    missing argument. *)
Definition clean_text (text : option pystr) (max_length : option Z) : pystr :=
  match text with
  | None | Some [] => []
  | Some (c :: t) =>
      let cleaned := join (py " ") (split (c :: t)) in
      match max_length with
      | None => cleaned
      | Some n =>
          if negb (n =? 0) && (Z.of_nat (length cleaned) >? n)
          then before_last_space (slice_to cleaned n) ++ py "..."
          else cleaned
      end
  end.

Definition in_range (lo hi c : N) : bool := ((lo <=? c) && (c <=? hi))%N.

(** The class of the Arabic pattern: U+0600 to U+06FF and U+0750 to
    U+077F. *)
Definition arabic_char (c : N) : bool :=
  in_range 0x0600 0x06FF c || in_range 0x0750 0x077F c.

(** The class of the Bengali pattern: U+0980 to U+09FF. *)
Definition bengali_char (c : N) : bool := in_range 0x0980 0x09FF c.

(** The class of the Russian pattern: U+0400 to U+04FF. *)
Definition russian_char (c : N) : bool := in_range 0x0400 0x04FF c.

(** The class of the English pattern: the letters a to z and A to Z,
    whitespace, and the characters . , ; : ! ? apostrophe, double quote,
    parentheses and hyphen. *)
Definition english_char (c : N) : bool :=
  in_range 97 122 c || in_range 65 90 c || is_space c ||
  existsb (N.eqb c) [46; 44; 59; 58; 33; 63; 39; 34; 40; 41; 45]%N.

(** [pattern.search(s)] is not [None], for a pattern that is one or more
    characters of a class. *)
Definition search (class : N -> bool) (s : pystr) : bool := existsb class s.

(** [pattern.match(s)] is not [None], for a pattern that is one or more
    characters of a class between the anchors of start and end: [s] is
    not empty and all of it is in the class. The class holds the line
    feed, so the end anchor has nothing to skip. *)
Definition match_all (class : N -> bool) (s : pystr) : bool :=
  truthy s && forallb class s.

(** [text.strip()[:500]] *)
Definition text_sample (text : pystr) : pystr := take 500 (strip text).

(** [detect_language_simple(text)] of [config_utils.py] *)
Definition detect_language_simple (text : option pystr) : pystr :=
  match text with
  | None => py "unknown"
  | Some text =>
      if negb (truthy text) || negb (truthy (strip text)) then py "unknown"
      else if search arabic_char (text_sample text) then py "arabic"
      else if match_all english_char (text_sample text) then py "english"
      else if search bengali_char (text_sample text) then py "bengali"
      else if search russian_char (text_sample text) then py "russian"
      else py "unknown"
  end.

(** [AltafsirScraper.detect_language(text)] *)
Definition detect_language (text : option pystr) : pystr :=
  match text with
  | None => py "unknown"
  | Some text =>
      if negb (truthy text) || negb (truthy (strip text)) then py "unknown"
      else if search arabic_char (text_sample text) then py "arabic"
      else if match_all english_char (text_sample text) then py "english"
      else py "unknown"
  end.

End Text.

(** * Vocabulary of the properties *)

(** The two verse-count tables compared on the chapters [1..114]. *)
Definition tables_checked : bool :=
  forallb
    (fun c =>
       match Config.VERSE_COUNTS !! c, Scraper.QURAN_CHAPTERS !! c with
       | Some n, Some (_, m) => n =? m
       | _, _ => false
       end)
    (seqZ 1 114).

(** The record reaches a batch: the body of the loop of
    [import_tafsir_verses] builds a tuple for it. *)
Definition accepts (e : Importer.env) (meta : Importer.tafsir_meta)
    (verse_key : Py.pystr) (verse_data : Py.json) : bool :=
  match Importer.verse_tuple e meta verse_key verse_data with
  | Py.Ret (Some _) => true
  | _ => false
  end.

Definition is_get (ev : Scraper.event) : bool :=
  match ev with Scraper.Get _ => true | _ => false end.

(** Number of requests in a trace. *)
Fixpoint gets (tr : list Scraper.event) : Z :=
  match tr with
  | [] => 0
  | ev :: tr' => (if is_get ev then 1 else 0) + gets tr'
  end.

(** A response after which [fetch_with_retry] tries again: neither a
    readable 200 nor a 404. *)
Definition transient (r : Scraper.response) : bool :=
  match r with
  | Scraper.Http status text =>
      if status =? 200 then Py.raises text else negb (status =? 404)
  | Scraper.Timeout | Scraper.Failure => true
  end.

Definition not_found (r : Scraper.response) : bool :=
  match r with
  | Scraper.Http status _ => status =? 404
  | _ => false
  end.

(** The event is a request for a verse of the given chapter. *)
Definition fetches_chapter (chapter : Z) (ev : Scraper.event) : bool :=
  match ev with
  | Scraper.Get (Scraper.VerseUrl _ c _) => c =? chapter
  | _ => false
  end.

(** The unique key of a row of [quran_translations]. *)
Definition row_key (v : Importer.verse_values) : Py.pystr * Z :=
  (Importer.verse_key v, Importer.translation_id v).

(** The tuples that the loop of [import_tafsir_verses] appends to its
    batch, in the order of the items. *)
Fixpoint tuples (e : Importer.env) (meta : Importer.tafsir_meta)
    (items : list (Py.pystr * Py.json)) : list Importer.verse_values :=
  match items with
  | [] => []
  | item :: rest =>
      match Importer.verse_tuple e meta (fst item) (snd item) with
      | Py.Ret (Some t) => t :: tuples e meta rest
      | _ => tuples e meta rest
      end
  end.

(** The items that the loop skips by itself: blank text, or a raise
    while the item is processed. *)
Fixpoint rejected (e : Importer.env) (meta : Importer.tafsir_meta)
    (items : list (Py.pystr * Py.json)) : Z :=
  match items with
  | [] => 0
  | item :: rest =>
      match Importer.verse_tuple e meta (fst item) (snd item) with
      | Py.Ret (Some _) => rejected e meta rest
      | _ => 1 + rejected e meta rest
      end
  end.

(** The batches handed to [import_verses_batch] when the tuples [ts]
    arrive while [acc] is pending: a batch is flushed as soon as its
    length reaches [batch_size], the rest is flushed at the end. *)
Fixpoint batches_from (batch_size : Z) (acc ts : list Importer.verse_values)
  : list (list Importer.verse_values) :=
  match ts with
  | [] => match acc with [] => [] | _ :: _ => [acc] end
  | t :: rest =>
      let batch := acc ++ [t] in
      if Z.of_nat (length batch) >=? batch_size
      then batch :: batches_from batch_size [] rest
      else batches_from batch_size batch rest
  end.

Definition batches (batch_size : Z) (ts : list Importer.verse_values)
  : list (list Importer.verse_values) :=
  batches_from batch_size [] ts.

(** [executemany] raises on the batch, on the connection as it is when
    the batch arrives: a value cannot be bound, a column refuses NULL, no
    [id] is left, or the store fails at one of the rows. *)
Definition batch_fails (c : Importer.connection)
    (b : list Importer.verse_values) : bool :=
  Py.raises (fst (Importer.executemany c b)).

(** The [commit] of the operation that the connection makes next
    raises. *)
Definition commit_fails (c : Importer.connection) : bool :=
  Importer.commit_raises (Importer.fault c (Importer.calls c)).

(** The batch is rolled back: [executemany] raises, or its [commit]
    does. *)
Definition batch_lost (c : Importer.connection)
    (b : list Importer.verse_values) : bool :=
  batch_fails c b || commit_fails c.

(** The batch is inserted and its [commit] raises. *)
Definition commit_failed (c : Importer.connection)
    (b : list Importer.verse_values) : bool :=
  negb (batch_fails c b) && commit_fails c.

(** [import_verses_batch] on each batch in turn, the counts added up. *)
Fixpoint run_batches (c : Importer.connection)
    (bs : list (list Importer.verse_values)) : Importer.connection * (Z * Z) :=
  match bs with
  | [] => (c, (0, 0))
  | b :: rest =>
      let done := Importer.import_verses_batch c b in
      let more := run_batches (fst done) rest in
      (fst more,
       (fst (snd done) + fst (snd more), snd (snd done) + snd (snd more)))
  end.

(** The rows of the batches that are committed, of those that are rolled
    back, and of those whose [commit] raises, when the batches arrive one
    after the other on the connection [c]. *)
Fixpoint stored_rows (c : Importer.connection)
    (bs : list (list Importer.verse_values)) : list Importer.verse_values :=
  match bs with
  | [] => []
  | b :: rest =>
      (if batch_lost c b then [] else b) ++
      stored_rows (fst (Importer.import_verses_batch c b)) rest
  end.

Fixpoint lost_rows (c : Importer.connection)
    (bs : list (list Importer.verse_values)) : list Importer.verse_values :=
  match bs with
  | [] => []
  | b :: rest =>
      (if batch_lost c b then b else []) ++
      lost_rows (fst (Importer.import_verses_batch c b)) rest
  end.

Fixpoint uncommitted_rows (c : Importer.connection)
    (bs : list (list Importer.verse_values)) : list Importer.verse_values :=
  match bs with
  | [] => []
  | b :: rest =>
      (if commit_failed c b then b else []) ++
      uncommitted_rows (fst (Importer.import_verses_batch c b)) rest
  end.

(** One of the batches is rolled back. *)
Fixpoint any_batch_lost (c : Importer.connection)
    (bs : list (list Importer.verse_values)) : bool :=
  match bs with
  | [] => false
  | b :: rest =>
      batch_lost c b ||
      any_batch_lost (fst (Importer.import_verses_batch c b)) rest
  end.

(** The values supplied for the rows of [quran_translations], without
    the columns that the store fills in. *)
Definition supplied (t : Importer.tables)
  : gmap (Py.pystr * Z) Importer.verse_values :=
  Importer.columns <$> Importer.quran_translations t.

(** The supplied values after the rows are inserted, a later row
    replacing an earlier one with the same key. *)
Definition store_rows (m : gmap (Py.pystr * Z) Importer.verse_values)
    (rows : list Importer.verse_values)
  : gmap (Py.pystr * Z) Importer.verse_values :=
  fold_left (fun m v => <[row_key v := v]> m) rows m.

(** The verses that the progress check of [import_tafsir_verses] makes
    the loop count as skipped: with a batch size of 0 every tuple is a
    batch of its own, and the check raises [ZeroDivisionError] after
    each. *)
Definition zero_division_skips (batch_size : Z)
    (ts : list Importer.verse_values) : Z :=
  if batch_size =? 0 then Z.of_nat (length ts) else 0.

(** No store error hits the next [n] operations of the connection. *)
Definition store_works (c : Importer.connection) (n : nat) : Prop :=
  forall k : nat, (k < n)%nat ->
    Importer.fault c (Importer.calls c + k) = None.

(** Every item of the list is accepted. *)
Definition all_accepted (e : Importer.env) (meta : Importer.tafsir_meta)
    (items : list (Py.pystr * Py.json)) : bool :=
  forallb (fun item => accepts e meta (fst item) (snd item)) items.

(** The tafsir text of an entry is a string that is empty or whitespace
    only. *)
Definition blank_text (verse_data : Py.json) : Prop :=
  exists s, Importer.tafsir_field verse_data = Py.Ret (Py.JStr s) /\
            Forall (fun ch => Py.is_space ch = true) s.

(** The row stored under a verse key for an edition, in the committed
    state. *)
Definition stored (c : Importer.connection) (verse_key : Py.pystr)
    (translation_id : Z) : option Importer.row :=
  Importer.quran_translations (Importer.committed c) !! (verse_key, translation_id).

(** The two tables hold the same for an edition: its verse rows and its
    metadata row. *)
Definition same_edition (edition : Z) (t t' : Importer.tables) : Prop :=
  (forall key : Py.pystr,
     Importer.quran_translations t' !! (key, edition) =
     Importer.quran_translations t !! (key, edition)) /\
  Importer.tafsir_metadata t' !! edition = Importer.tafsir_metadata t !! edition.

(** The log entry that [import_tafsir_file] writes when it skips an
    edition. *)
Definition skipped_entry (file_path : Py.pystr) (translation_id : Z)
  : Importer.log_entry :=
  Importer.LogEntry file_path translation_id 0 0 (Py.py "skipped")
                    (Some (Py.py "Already imported")).

(** ** Sample inputs *)

Module Sample.
Import Py.

(** An environment whose digests and exception texts are stand-ins. *)
Definition env_of (files : pystr -> file_state Importer.file_json)
  : Importer.env :=
  Importer.Env (fun text => py "d41d8cd98f00b204e9800998ecf8427e")
               (fun path => py "9e107d9d372bb6826bd81d3542a419d6") files
               (fun ex => py "error").

Definition meta : Importer.tafsir_meta :=
  Importer.TafsirMeta 5000 (py "Test Tafsir") (py "english")
                      (Some (py "Test Author")) None.

(** A verse entry as the scraper writes it. *)
Definition entry (verse_key : pystr) (c n : Z) (text : pystr) : json :=
  JObj [ (py "v", JStr verse_key); (py "c", JInt c); (py "n", JInt n);
         (py "tf", JObj [ (py "t", JStr text); (py "r", JStr []);
                          (py "id", JInt 5000) ]);
         (py "tr", JArr []) ].

Definition no_files : pystr -> file_state Importer.file_json :=
  fun _ => Absent.

(** A disk on which the progress file cannot be opened for writing. *)
Definition read_only {A} : disk A := Disk Absent (OpenRaises OSError).

Definition stuck_scraper : Scraper.scraper :=
  Scraper.ScraperState Scraper.default_progress read_only [] [].

Definition empty_tables : Importer.tables := Importer.Tables ∅ 0 ∅ [].

(** A clock that tells the number of the operation. *)
Definition ticks : nat -> nat -> Importer.timestamp :=
  fun operation _ => Z.of_nat operation.

(** A new database on which no store error occurs. *)
Definition fresh_connection : Importer.connection :=
  Importer.Connection empty_tables empty_tables 0 (fun _ => None) ticks.

Definition stuck_importer : Importer.importer :=
  Importer.ImporterState fresh_connection 1000 (Importer.ImportStats 0 0 0 0)
    Importer.default_progress read_only [].

(** An origin that answers every request with the given status. *)
Definition always (status : Z) : Scraper.origin :=
  Scraper.Origin (fun _ _ => Scraper.Http status (Ret (py "<html/>")))
                 (fun _ => Ret []) (fun _ => []).

Definition some_url : Scraper.target :=
  Scraper.VerseUrl (py "https://www.altafsir.com/tafsir") 1 1.

(** Two editions found on the main page. *)
Definition edition_x : Scraper.tafsir_info :=
  Scraper.TafsirInfo 5000 (py "Tafsir X") (py "https://www.altafsir.com/tafsir/x")
                     (py "english") (py "Unknown").

Definition edition_y : Scraper.tafsir_info :=
  Scraper.TafsirInfo 5001 (py "Tafsir Y") (py "https://www.altafsir.com/tafsir/y")
                     (py "english") (py "Unknown").

(** An origin that serves the main page and the verses of the chapters
    1 to 3 of every edition, and answers 404 for the other chapters. *)
Definition small_site : Scraper.origin :=
  Scraper.Origin
    (fun u _ =>
       match u with
       | Scraper.MainPage _ => Scraper.Http 200 (Ret (py "index"))
       | Scraper.VerseUrl _ c _ =>
           if c <=? 3 then Scraper.Http 200 (Ret (py "page"))
           else Scraper.Http 404 (Ret [])
       end)
    (fun _ => Ret (py "commentary"))
    (fun _ => [edition_x; edition_y]).

(** The progress file left by a crawl of edition X that was interrupted
    after chapters 1 and 2. *)
Definition interrupted_progress : Scraper.progress :=
  Scraper.Progress (Some []) (Some edition_x) (Some 3) (Some [1; 2]).

(** The crawl restarted on that file, for edition Y only. *)
Definition restarted_for_y : Scraper.scraper :=
  Scraper.run_scraper small_site
    (Scraper.init (Disk (Content interrupted_progress) Writes))
    (py "https://www.altafsir.com") [5001] [].

(** The entries of the verses [1..n] of a chapter, all with text. *)
Definition verses_of (chapter n : Z) : list (pystr * json) :=
  map (fun v =>
         (Scraper.verse_key_of chapter v,
          entry (Scraper.verse_key_of chapter v) chapter v (py "Commentary")))
      (seqZ 1 n).

(** The three-verse document of chapter 1, its file and path. *)
Definition three_verses : list (pystr * json) := verses_of 1 3.

Definition path : pystr := py "tafsir_english_5000_Test_Tafsir.json".

Definition three_verse_file : Importer.file_json :=
  Importer.FileJson
    (Some (Importer.MetaJson (Some 5000) (Some (py "Test Tafsir"))
                             (Some (py "english")) (Some (py "Test Author"))
                             None))
    (Some (JObj [])) (Some (JObj three_verses)).

Definition env : Importer.env :=
  env_of (fun p => if decide (p = path) then Content three_verse_file else Absent).

Definition fresh_importer : Importer.importer :=
  Importer.ImporterState fresh_connection 1000 (Importer.ImportStats 0 0 0 0)
    Importer.default_progress (Disk Absent Writes) [].

(** The document imported once, then once more without force. *)
Definition first_run : res bool * Importer.importer :=
  Importer.import_tafsir_file env fresh_importer path false.

Definition second_run : res bool * Importer.importer :=
  Importer.import_tafsir_file env (snd first_run) path false.

(** Five verses, to be imported in batches of two. *)
Definition five_verses : Importer.tafsir_data :=
  Importer.TafsirData meta (verses_of 1 5).

(** A new database whose second operation fails in [executemany], at
    the first row. *)
Definition second_batch_fails : Importer.connection :=
  Importer.Connection empty_tables empty_tables 0
    (fun call =>
       if (call =? 1)%nat then Some (Importer.ExecuteRaises 0) else None)
    ticks.

(** A new database whose second operation fails in [commit]. *)
Definition second_commit_fails : Importer.connection :=
  Importer.Connection empty_tables empty_tables 0
    (fun call => if (call =? 1)%nat then Some Importer.CommitRaises else None)
    ticks.

Definition five_batches : list (list Importer.verse_values) :=
  batches 2 (tuples env meta (verses_of 1 5)).

(** Ten verses of chapter 2 and, among them, an entry whose key is not
    of the form chapter:verse. *)
Definition ten_and_one : Importer.tafsir_data :=
  Importer.TafsirData meta
    (take 4 (verses_of 2 10) ++
     [(py "two-five", entry (py "two-five") 2 5 (py "Commentary"))] ++
     drop 4 (verses_of 2 10)).

(** The same document with one more entry, whose text is blank. *)
Definition ten_and_two : Importer.tafsir_data :=
  Importer.TafsirData meta
    (Importer.vs ten_and_one ++
     [(py "2:11", entry (py "2:11") 2 11 (py "  "))]).

(** Three verses, the second with a text of spaces only. *)
Definition with_blank : Importer.tafsir_data :=
  Importer.TafsirData meta
    [ (py "1:1", entry (py "1:1") 1 1 (py "Commentary"));
      (py "1:2", entry (py "1:2") 1 2 (py "   "));
      (py "1:3", entry (py "1:3") 1 3 (py "Commentary")) ].

End Sample.

(** ** Vocabulary of the further properties *)

(** Every request of the trace comes right after the rate-limit sleep. *)
Fixpoint polite (tr : list Scraper.event) : bool :=
  match tr with
  | [] => true
  | Scraper.Sleep :: Scraper.Get _ :: rest => polite rest
  | Scraper.Get _ :: _ => false
  | _ :: rest => polite rest
  end.

(** The seconds of the backoff sleeps of a trace, in order. *)
Fixpoint backoffs (tr : list Scraper.event) : list Z :=
  match tr with
  | [] => []
  | Scraper.Backoff seconds :: rest => seconds :: backoffs rest
  | _ :: rest => backoffs rest
  end.

(** The body of a response that is a readable 200. *)
Definition readable (r : Scraper.response) : option Py.pystr :=
  match r with
  | Scraper.Http status (Py.Ret content) =>
      if status =? 200 then Some content else None
  | _ => None
  end.

(** An item of a scraped document: its key is [chapter:verse] for a
    reference that the validator accepts, inside the chapters asked for,
    and its value is the verse dict of that reference with a text that
    is not empty. *)
Definition scraped_item (t : Scraper.tafsir_info) (first last : Z)
    (item : Py.pystr * Py.json) : Prop :=
  exists chapter verse text,
    fst item = Scraper.verse_key_of chapter verse /\
    snd item = Scraper.verse_dict t chapter verse text /\
    Scraper.validate_verse_reference chapter verse = true /\
    text <> [] /\
    first <= chapter <= last.

(** A restart of the process would load the progress that the scraper
    holds in memory. *)
Definition synced (s : Scraper.scraper) : Prop :=
  fst (Scraper.load_progress (Scraper.progress_file s)) =
  Py.Ret (Scraper.progress_data s).

(** The event is a request for a verse page. *)
Definition verse_request (ev : Scraper.event) : bool :=
  match ev with
  | Scraper.Get (Scraper.VerseUrl _ _ _) => true
  | _ => false
  end.

(** The editions that [run_scraper] goes through: those found on the
    main page that pass the two filters. *)
Definition selected (o : Scraper.origin) (base_url : Py.pystr)
    (tafsir_ids : list Z) (languages : list Py.pystr)
  : list Scraper.tafsir_info :=
  let found := fst (Scraper.get_available_tafasir o base_url) in
  let by_id :=
    match tafsir_ids with
    | [] => found
    | _ :: _ => filter (fun t => Scraper.ti_id t ∈ tafsir_ids) found
    end in
  match languages with
  | [] => by_id
  | _ :: _ => filter (fun t => Scraper.ti_language t ∈ languages) by_id
  end.

(** The effects of [run_scraper] before its edition loop. *)
Definition discovery (o : Scraper.origin) (base_url : Py.pystr)
  : list Scraper.event :=
  snd (Scraper.get_available_tafasir o base_url) ++
  match fst (Scraper.get_available_tafasir o base_url) with
  | [] => [Scraper.Log Scraper.ERROR Scraper.NoTafsirBooksFound]
  | _ :: _ => []
  end.

(** A document file that [validate_tafsir_file] cannot accept: it is
    missing or unreadable, it lacks [meta], [chs] or [vs], its [meta]
    lacks [tid], [tn] or [lang], or its [vs] is not an object. *)
Definition defective (f : Py.file_state Importer.file_json) : Prop :=
  match f with
  | Py.Content data =>
      Importer.j_meta data = None \/
      Importer.j_chs data = None \/
      (exists m, Importer.j_meta data = Some m /\
                 (Importer.m_tid m = None \/ Importer.m_tn m = None \/
                  Importer.m_lang m = None)) \/
      match Importer.j_vs data with
      | Some (Py.JObj _) => False
      | _ => True
      end
  | Py.Absent | Py.Unreadable _ => True
  end.

(** A word: not empty, and without whitespace. *)
Definition word (w : Py.pystr) : Prop :=
  w <> [] /\ Forall (fun c => Py.is_space c = false) w.

(** Every whitespace character of the text is one space, U+0020,
    between two characters that are not whitespace. *)
Fixpoint single_spaced_after (previous_is_space : bool) (s : Py.pystr) : bool :=
  match s with
  | [] => negb previous_is_space
  | c :: rest =>
      if Py.is_space c
      then (c =? 32)%N && negb previous_is_space && single_spaced_after true rest
      else single_spaced_after false rest
  end.

Definition single_spaced (s : Py.pystr) : bool :=
  match s with
  | [] => true
  | _ :: _ => single_spaced_after true s
  end.

(** ** Further sample inputs *)

Module Cases.
Import Py.

(** An origin that answers 500 twice and then serves the page. *)
Definition flaky : Scraper.origin :=
  Scraper.Origin
    (fun _ attempt =>
       if attempt <? 2 then Scraper.Http 500 (Ret [])
       else Scraper.Http 200 (Ret (py "page")))
    (fun _ => Ret (py "commentary"))
    (fun _ => [Sample.edition_x]).

(** A document file without the key [vs]. *)
Definition no_verses_file : Importer.file_json :=
  Importer.FileJson (Importer.j_meta Sample.three_verse_file) (Some (JObj []))
                    None.

Definition env_no_verses : Importer.env :=
  Sample.env_of (fun _ => Content no_verses_file).

(** A new database on which the third operation, the [executemany] of
    the only batch of a first import, fails at its first row. *)
Definition store_down : Importer.connection :=
  Importer.Connection Sample.empty_tables Sample.empty_tables 0
    (fun call =>
       if (call =? 2)%nat then Some (Importer.ExecuteRaises 0) else None)
    Sample.ticks.

Definition importer_store_down : Importer.importer :=
  Importer.ImporterState store_down 1000 (Importer.ImportStats 0 0 0 0)
    Importer.default_progress (Disk Absent Writes) [].

(** A second document, of edition 5001, with two verses of chapter 2,
    and an environment that holds both documents. *)
Definition other_path : pystr := py "tafsir_english_5001_Other_Tafsir.json".

Definition other_file : Importer.file_json :=
  Importer.FileJson
    (Some (Importer.MetaJson (Some 5001) (Some (py "Other Tafsir"))
                             (Some (py "english")) None None))
    (Some (JObj [])) (Some (JObj (Sample.verses_of 2 2))).

Definition env_two : Importer.env :=
  Sample.env_of
    (fun p =>
       if decide (p = Sample.path) then Content Sample.three_verse_file
       else if decide (p = other_path) then Content other_file
       else Absent).

(** The importer after the three-verse document is imported into a new
    database. *)
Definition after_first_import : Importer.importer :=
  snd (Importer.import_tafsir_file env_two Sample.fresh_importer Sample.path
                                   false).

(** A directory listing with the three-verse file, a file that does
    not exist, and the three-verse file once more. *)
Definition listing : list pystr :=
  [Sample.path; py "tafsir_missing.json"; Sample.path].

End Cases.

(** * Properties *)

(** ** Blank texts *)

Section Strip.
Import Py.

Lemma lstrip_nil_iff (s : pystr) :
  lstrip s = [] <-> Forall (fun c => is_space c = true) s.
Proof.
  induction s as [|c s IH]; simpl.
  - split; [constructor | reflexivity].
  - destruct (is_space c) eqn:Hc.
    + rewrite IH. split.
      * intros H. constructor; assumption.
      * intros H. inversion H; assumption.
    + split; [discriminate |].
      intros H. inversion H; congruence.
Qed.

Lemma lstrip_head (s : pystr) (c : N) (l : pystr) :
  lstrip s = c :: l -> is_space c = false.
Proof.
  induction s as [|a s IH]; simpl; [discriminate |].
  destruct (is_space a) eqn:Ha; [exact IH |].
  intros H. injection H as -> _. exact Ha.
Qed.

(** [s.strip()] is empty exactly when [s] is empty or whitespace only. *)
Lemma strip_nil_iff (s : pystr) :
  strip s = [] <-> Forall (fun c => is_space c = true) s.
Proof.
  rewrite <- lstrip_nil_iff. unfold strip, rstrip. split.
  - intros H. destruct (lstrip s) as [|c l] eqn:Hl; [reflexivity |].
    exfalso. apply lstrip_head in Hl.
    apply (f_equal (@rev N)) in H. rewrite rev_involutive in H. simpl in H.
    apply lstrip_nil_iff in H. rewrite Forall_forall in H.
    assert (Hin : c ∈ rev (c :: l)).
    { apply list_elem_of_In. rewrite <- in_rev. left. reflexivity. }
    specialize (H c Hin). congruence.
  - intros ->. reflexivity.
Qed.

End Strip.

(** ** The verse-reference validators *)

Section Validators.

Lemma tables_checked_true : tables_checked = true.
Proof. vm_compute. reflexivity. Qed.

Lemma tables_agree (c : Z) :
  1 <= c <= 114 ->
  exists (n : Z) (name : string),
    Config.VERSE_COUNTS !! c = Some n /\
    Scraper.QURAN_CHAPTERS !! c = Some (name, n).
Proof.
  intros Hc.
  pose proof tables_checked_true as H. unfold tables_checked in H.
  rewrite forallb_forall in H.
  specialize (H c). 
  assert (Hin : In c (seqZ 1 114)).
  { apply list_elem_of_In, elem_of_seqZ. lia. }
  specialize (H Hin).
  destruct (Config.VERSE_COUNTS !! c) as [n|]; [| discriminate].
  destruct (Scraper.QURAN_CHAPTERS !! c) as [[name m]|]; [| discriminate].
  apply Z.eqb_eq in H. subst m. eauto.
Qed.

Lemma validators_agree (chapter verse : Z) :
  Scraper.validate_verse_reference chapter verse =
  Config.validate_verse_reference chapter verse.
Proof.
  unfold Scraper.validate_verse_reference, Config.validate_verse_reference.
  destruct ((chapter <? 1) || (chapter >? 114)) eqn:Hr; [reflexivity |].
  destruct (tables_agree chapter) as (n & name & -> & ->); [lia | reflexivity].
Qed.

Lemma config_validate_iff (chapter verse : Z) :
  Config.validate_verse_reference chapter verse = true <->
  1 <= chapter <= 114 /\ 1 <= verse <= Config.VERSE_COUNTS !!! chapter.
Proof.
  unfold Config.validate_verse_reference.
  destruct ((chapter <? 1) || (chapter >? 114)) eqn:Hr.
  - split; [discriminate | lia].
  - destruct (tables_agree chapter) as (n & name & Hn & _); [lia |].
    rewrite lookup_total_alt, Hn. simpl. lia.
Qed.

(** C6. For all integers [chapter] and [verse], both
    [validate_verse_reference] functions return [True] exactly when
    [1 <= chapter <= 114] and [1 <= verse <= VERSE_COUNT[chapter]] for the
    114-entry table, and [False] otherwise; in particular (1,7) and
    (114,6) are valid and (1,8), (115,1) and (0,1) are not. As functions
    of their two arguments they are pure and total. *)
Theorem validate_verse_reference_correct :
  (forall chapter verse : Z,
     (Config.validate_verse_reference chapter verse = true <->
      1 <= chapter <= 114 /\ 1 <= verse <= Config.VERSE_COUNTS !!! chapter) /\
     (Config.validate_verse_reference chapter verse = false <->
      ~ (1 <= chapter <= 114 /\ 1 <= verse <= Config.VERSE_COUNTS !!! chapter)) /\
     Scraper.validate_verse_reference chapter verse =
     Config.validate_verse_reference chapter verse) /\
  size Config.VERSE_COUNTS = 114%nat /\
  size Scraper.QURAN_CHAPTERS = 114%nat /\
  Config.validate_verse_reference 1 7 = true /\
  Config.validate_verse_reference 1 8 = false /\
  Config.validate_verse_reference 114 6 = true /\
  Config.validate_verse_reference 115 1 = false /\
  Config.validate_verse_reference 0 1 = false.
Proof.
  split.
  - intros chapter verse. split; [apply config_validate_iff |].
    split; [| apply validators_agree].
    split.
    + intros Hf Ht. apply config_validate_iff in Ht. congruence.
    + intros Hn.
      destruct (Config.validate_verse_reference chapter verse) eqn:E;
        [| reflexivity].
      exfalso. apply Hn, config_validate_iff, E.
  - repeat (split; [vm_compute; reflexivity |]). vm_compute. reflexivity.
Qed.

End Validators.

(** ** Progress files *)

Section ProgressFiles.
Import Py.

(** C10. [load_progress] never raises, in the crawler and in the importer:
    it returns the content of the progress file when the file exists and
    parses, and the default structure (empty completed lists, no current
    item) when the file is missing, unreadable or not valid JSON. *)
Theorem load_progress_never_raises :
  forall (d : disk Scraper.progress) (d' : disk Importer.progress),
    fst (Scraper.load_progress d) =
      Ret (match file d with
           | Content p => p
           | Absent | Unreadable _ => Scraper.default_progress
           end) /\
    fst (Importer.load_progress d') =
      Ret (match file d' with
           | Content p => p
           | Absent | Unreadable _ => Importer.default_progress
           end) /\
    Scraper.completed_tafasir Scraper.default_progress = Some [] /\
    Scraper.current_tafsir Scraper.default_progress = None /\
    Importer.processed_files Importer.default_progress = Some [] /\
    Importer.failed_files Importer.default_progress = Some [] /\
    Importer.last_file Importer.default_progress = None.
Proof.
  intros d d'. repeat split.
  - unfold Scraper.load_progress, read_if_exists.
    destruct (file d); reflexivity.
  - unfold Importer.load_progress, read_if_exists.
    destruct (file d'); reflexivity.
Qed.

(** C5, as the code has it. [save_progress] never raises, in the crawler
    and in the importer: when writing the progress file raises, the
    exception is caught, a "Could not save progress" error is logged and
    the call returns normally. *)
Theorem save_progress_swallows_errors :
  forall (s : Scraper.scraper) (i : Importer.importer),
    fst (Scraper.save_progress s) = Ret tt /\
    fst (Importer.save_progress i) = Ret tt /\
    Scraper.trace (snd (Scraper.save_progress s)) =
      Scraper.trace s ++
      match fst (write_json (Scraper.progress_file s) (Scraper.progress_data s)) with
      | Ret _ => []
      | Raise e => [Scraper.Log Scraper.ERROR (Scraper.CouldNotSaveProgress e)]
      end /\
    Importer.warnings (snd (Importer.save_progress i)) =
      Importer.warnings i ++
      match fst (write_json (Importer.progress_file i) (Importer.progress_data i)) with
      | Ret _ => []
      | Raise e => [Importer.CouldNotSaveProgress e]
      end.
Proof.
  intros s i. unfold Scraper.save_progress, Importer.save_progress.
  destruct (fst (write_json (Scraper.progress_file s) (Scraper.progress_data s)));
  destruct (fst (write_json (Importer.progress_file i) (Importer.progress_data i)));
  simpl; rewrite ?app_nil_r; repeat split; reflexivity.
Qed.

(** C5 as stated fails: on a disk where opening the progress file raises
    [OSError], neither [save_progress] propagates the exception. *)
Lemma save_progress_does_not_propagate :
  fst (write_json (Scraper.progress_file Sample.stuck_scraper)
                  (Scraper.progress_data Sample.stuck_scraper)) = Raise OSError /\
  fst (Scraper.save_progress Sample.stuck_scraper) <> Raise OSError /\
  fst (write_json (Importer.progress_file Sample.stuck_importer)
                  (Importer.progress_data Sample.stuck_importer)) = Raise OSError /\
  fst (Importer.save_progress Sample.stuck_importer) <> Raise OSError.
Proof. repeat split; discriminate. Qed.

End ProgressFiles.

(** ** The fetcher *)

Section Fetcher.
Import Py Scraper.

Lemma gets_app (tr1 tr2 : list event) : gets (tr1 ++ tr2) = gets tr1 + gets tr2.
Proof. induction tr1 as [|ev tr1 IH]; simpl; [reflexivity | lia]. Qed.

Lemma last_app_cons {A} (l1 l2 : list A) (x : A) :
  last (l1 ++ x :: l2) = last (x :: l2).
Proof.
  induction l1 as [|y l1 IH]; [reflexivity |].
  simpl. rewrite <- IH. destruct (l1 ++ x :: l2) eqn:E; [| reflexivity].
  destruct l1; discriminate.
Qed.

Lemma fetch_attempts_nonempty (o : origin) (u : target) (m a : Z) (n : nat) :
  exists ev tr, snd (fetch_attempts o u m a n) = ev :: tr.
Proof.
  destruct n as [|n]; simpl; [eauto |].
  destruct (respond o u a) as [status text| |]; simpl; eauto.
  destruct (status =? 200); [destruct text |]; simpl; eauto.
  destruct (status =? 404); simpl; eauto.
Qed.

(** After a transient answer the loop goes on with the next attempt. *)
Lemma fetch_attempts_transient (o : origin) (u : target) (m a : Z) (n : nat) :
  transient (respond o u a) = true ->
  exists logged backoff,
    fetch_attempts o u m a (S n) =
      (fst (fetch_attempts o u m (a + 1) n),
       [Sleep; Get u; Log (fst logged) (snd logged)] ++ backoff ++
       snd (fetch_attempts o u m (a + 1) n)) /\
    gets backoff = 0.
Proof.
  intros Ht. simpl. unfold transient in Ht.
  assert (Hb : gets (if a <? m - 1 then [Backoff (2 ^ a)] else []) = 0).
  { destruct (a <? m - 1); reflexivity. }
  destruct (respond o u a) as [status text| |].
  - destruct (status =? 200).
    + destruct text; [discriminate |].
      exists (ERROR, ErrorFetching u (a + 1)). eexists. split; [reflexivity | exact Hb].
    + destruct (status =? 404); [discriminate |].
      exists (WARNING, HttpStatus status u). eexists. split; [reflexivity | exact Hb].
  - exists (WARNING, TimeoutFor u (a + 1)). eexists. split; [reflexivity | exact Hb].
  - exists (ERROR, ErrorFetching u (a + 1)). eexists. split; [reflexivity | exact Hb].
Qed.

Lemma fetch_attempts_outcome (o : origin) (u : target) (m : Z) (k : nat) :
  forall (a : Z) (n : nat),
    (k <= n)%nat ->
    (forall j, a <= j < a + Z.of_nat k -> transient (respond o u j) = true) ->
    ((k < n)%nat -> not_found (respond o u (a + Z.of_nat k)) = true) ->
    let r := fetch_attempts o u m a n in
    fst r = None /\
    gets (snd r) = Z.min (Z.of_nat k + 1) (Z.of_nat n) /\
    last (snd r) =
      Some (if bool_decide (k < n)%nat then Log WARNING (UrlNotFound u)
            else Log ERROR (FailedToFetch u m)).
Proof.
  induction k as [|k IH]; intros a n Hkn Htr Hnf.
  - destruct n as [|n].
    + simpl. repeat split.
    + assert (H404 : not_found (respond o u a) = true).
      { rewrite <- (Z.add_0_r a). apply Hnf. lia. }
      simpl. unfold not_found in H404.
      destruct (respond o u a) as [status text| |]; try discriminate.
      apply Z.eqb_eq in H404. subst status. simpl.
      repeat split. simpl. lia.
  - destruct n as [|n]; [lia |].
    destruct (fetch_attempts_transient o u m a n) as (logged & backoff & Heq & Hb).
    { apply Htr. lia. }
    specialize (IH (a + 1) n).
    destruct IH as (Hres & Hgets & Hlast).
    { lia. }
    { intros j Hj. apply Htr. lia. }
    { intros Hlt. replace (a + 1 + Z.of_nat k) with (a + Z.of_nat (S k)) by lia.
      apply Hnf. lia. }
    cbv zeta. rewrite Heq. cbn [fst snd].
    split; [exact Hres |]. split.
    + rewrite !gets_app, Hb, Hgets. simpl. lia.
    + destruct (fetch_attempts_nonempty o u m (a + 1) n) as (ev & tr & Hne).
      rewrite Hne in Hlast |- *.
      rewrite app_assoc, last_app_cons, Hlast.
      repeat case_bool_decide; try reflexivity; lia.
Qed.

(** C7, as the code has it. A 404 answer is terminal: when the attempts
    before attempt [k] failed transiently and attempt [k] is answered
    404, [fetch_with_retry] makes exactly [k + 1] requests, logs "URL not
    found" and returns [None]. When all [max_retries] attempts fail
    transiently ([k = max_retries]) it makes [max_retries] requests, logs
    "Failed to fetch" and returns [None] as well: the two cases differ in
    the requests made and in the last log line, not in the value
    returned. *)
Theorem fetch_not_found_is_terminal :
  forall (o : origin) (u : target) (max_retries k : Z),
    0 <= k <= max_retries ->
    (forall j, 0 <= j < k -> transient (respond o u j) = true) ->
    (k < max_retries -> not_found (respond o u k) = true) ->
    let r := fetch_with_retry o u max_retries in
    fst r = None /\
    gets (snd r) = Z.min (k + 1) max_retries /\
    last (snd r) =
      Some (if k <? max_retries then Log WARNING (UrlNotFound u)
            else Log ERROR (FailedToFetch u max_retries)).
Proof.
  intros o u max_retries k Hk Htr Hnf.
  pose proof (fetch_attempts_outcome o u max_retries (Z.to_nat k) 0
                (Z.to_nat max_retries)) as H.
  rewrite !Z2Nat.id in H by lia.
  destruct H as (Hres & Hgets & Hlast).
  - lia.
  - intros j Hj. apply Htr. lia.
  - intros Hlt. apply Hnf. lia.
  - unfold fetch_with_retry. cbv zeta. split; [exact Hres |].
    split; [exact Hgets |]. rewrite Hlast.
    case_bool_decide; destruct (Z.ltb_spec k max_retries); try reflexivity; lia.
Qed.

(** The theorem at an origin that always answers 404 (one request) and at
    one that always answers 500 (three requests). *)
Lemma fetch_not_found_is_terminal_witness :
  (fst (fetch_with_retry (Sample.always 404) Sample.some_url 3) = None /\
   gets (snd (fetch_with_retry (Sample.always 404) Sample.some_url 3)) = 1 /\
   last (snd (fetch_with_retry (Sample.always 404) Sample.some_url 3)) =
     Some (Log WARNING (UrlNotFound Sample.some_url))) /\
  (fst (fetch_with_retry (Sample.always 500) Sample.some_url 3) = None /\
   gets (snd (fetch_with_retry (Sample.always 500) Sample.some_url 3)) = 3 /\
   last (snd (fetch_with_retry (Sample.always 500) Sample.some_url 3)) =
     Some (Log ERROR (FailedToFetch Sample.some_url 3))).
Proof.
  split.
  - apply (fetch_not_found_is_terminal (Sample.always 404) Sample.some_url 3 0).
    + lia.
    + intros j Hj. lia.
    + intros _. reflexivity.
  - apply (fetch_not_found_is_terminal (Sample.always 500) Sample.some_url 3 3).
    + lia.
    + intros j Hj. reflexivity.
    + intros Hlt. lia.
Defined.

(** C7 as stated fails: the result for a 404 answer and the result after
    three transient failures are the same value, [None]. *)
Lemma not_found_result_not_distinct :
  fst (fetch_with_retry (Sample.always 404) Sample.some_url 3) =
  fst (fetch_with_retry (Sample.always 500) Sample.some_url 3).
Proof. reflexivity. Qed.

End Fetcher.

(** ** Resuming a crawl *)

Section Resume.
Import Py Scraper.

Lemma fetch_attempts_other_chapter (o : origin) (base : pystr) (ch v c m : Z)
    (n : nat) :
  c <> ch ->
  forall a,
    Forall (fun ev => fetches_chapter c ev = false)
           (snd (fetch_attempts o (VerseUrl base ch v) m a n)).
Proof.
  intros Hne.
  assert (Hget : fetches_chapter c (Get (VerseUrl base ch v)) = false).
  { simpl. apply Z.eqb_neq. exact (fun H => Hne (eq_sym H)). }
  induction n as [|n IH]; intros a; simpl.
  - repeat constructor.
  - assert (Hb : Forall (fun ev => fetches_chapter c ev = false)
                   (if a <? m - 1 then [Backoff (2 ^ a)] else [])).
    { destruct (a <? m - 1); repeat constructor. }
    specialize (IH (a + 1)).
    destruct (respond o (VerseUrl base ch v) a) as [status text| |]; simpl.
    + destruct (status =? 200); [destruct text |]; simpl.
      * repeat constructor. exact Hget.
      * repeat (constructor; [first [exact Hget | reflexivity] |]).
        apply Forall_app. split; assumption.
      * destruct (status =? 404); simpl.
        -- repeat constructor. exact Hget.
        -- repeat (constructor; [first [exact Hget | reflexivity] |]).
           apply Forall_app. split; assumption.
    + repeat (constructor; [first [exact Hget | reflexivity] |]).
      apply Forall_app. split; assumption.
    + repeat (constructor; [first [exact Hget | reflexivity] |]).
      apply Forall_app. split; assumption.
Qed.

Lemma scrape_verse_other_chapter (o : origin) (t : tafsir_info) (ch v c : Z) :
  c <> ch ->
  Forall (fun ev => fetches_chapter c ev = false)
         (snd (scrape_verse_tafsir o t ch v)).
Proof.
  intros Hne. unfold scrape_verse_tafsir, fetch_with_retry.
  pose proof (fetch_attempts_other_chapter o (ti_url t) ch v c 3 (Z.to_nat 3)
                Hne 0) as Hf.
  destruct (negb (validate_verse_reference ch v)); [repeat constructor |].
  destruct (fst (fetch_attempts o (VerseUrl (ti_url t) ch v) 3 0 (Z.to_nat 3)))
    as [content|]; [| exact Hf].
  destruct (negb (truthy content)); [exact Hf |].
  destruct (tafsir_div_text o content) as [text|e]; simpl.
  - destruct (truthy text); exact Hf.
  - apply Forall_app. split; [exact Hf | repeat constructor].
Qed.

Lemma scrape_chapter_other_chapter (o : origin) (t : tafsir_info) (ch c : Z) :
  c <> ch ->
  Forall (fun ev => fetches_chapter c ev = false) (snd (scrape_chapter o t ch)).
Proof.
  intros Hne. unfold scrape_chapter.
  destruct (QURAN_CHAPTERS !! ch) as [[name verse_count]|]; simpl;
    [| repeat constructor].
  apply Forall_concat. rewrite map_map. apply Forall_map.
  apply Forall_forall. intros v _. simpl.
  apply scrape_verse_other_chapter. exact Hne.
Qed.

Lemma save_progress_trace (s : scraper) :
  exists logged,
    trace (snd (save_progress s)) = trace s ++ logged /\
    progress_data (snd (save_progress s)) = progress_data s /\
    Forall (fun ev => is_get ev = false) logged.
Proof.
  unfold save_progress.
  destruct (fst (write_json (progress_file s) (progress_data s))) as [u|e]; simpl.
  - exists []. rewrite app_nil_r. repeat split. constructor.
  - eexists. repeat split. repeat constructor.
Qed.

Lemma not_get_not_fetch (c : Z) (l : list event) :
  Forall (fun ev => is_get ev = false) l ->
  Forall (fun ev => fetches_chapter c ev = false) l.
Proof.
  intros H. eapply Forall_impl; [exact H |].
  intros [| |u|]; simpl; try reflexivity. discriminate.
Qed.

(** One iteration keeps a completed chapter completed and requests none
    of its verses. *)
Lemma scrape_chapter_step_skips (o : origin) (t : tafsir_info) (c chapter : Z)
    (s : scraper) (all_verses : list (pystr * json)) :
  c ∈ default [] (completed_chapters (progress_data s)) ->
  let s' := fst (scrape_chapter_step o t (s, all_verses) chapter) in
  c ∈ default [] (completed_chapters (progress_data s')) /\
  exists new,
    trace s' = trace s ++ new /\
    Forall (fun ev => fetches_chapter c ev = false) new.
Proof.
  intros Hc. unfold scrape_chapter_step. cbn [fst snd].
  case_bool_decide as Hin.
  - simpl. split; [exact Hc |]. eexists. split; [reflexivity |].
    repeat constructor.
  - assert (Hne : c <> chapter) by (intros ->; exact (Hin Hc)).
    set (s1 := set_progress s _).
    destruct (save_progress_trace s1) as (l1 & Ht1 & Hp1 & Hl1).
    set (s2 := snd (save_progress s1)) in *.
    set (s3 := emit s2 (snd (scrape_chapter o t chapter))).
    set (s4 := set_progress s3 _).
    destruct (save_progress_trace s4) as (l4 & Ht4 & Hp4 & Hl4).
    cbv zeta. cbn [fst]. split.
    + rewrite Hp4. subst s4 s3.
      cbn [progress_data set_progress emit completed_chapters default].
      rewrite Hp1. subst s1.
      cbn [progress_data set_progress completed_chapters default].
      apply elem_of_app. left. exact Hc.
    + exists (l1 ++ snd (scrape_chapter o t chapter) ++ l4). split.
      * rewrite Ht4. subst s4 s3. cbn [trace set_progress emit].
        rewrite Ht1. subst s1. cbn [trace set_progress].
        rewrite <- !app_assoc. reflexivity.
      * rewrite !Forall_app. repeat split.
        -- apply not_get_not_fetch, Hl1.
        -- apply scrape_chapter_other_chapter, Hne.
        -- apply not_get_not_fetch, Hl4.
Qed.

Lemma scrape_chapters_skip (o : origin) (t : tafsir_info) (c : Z)
    (chapters : list Z) :
  forall (s : scraper) (all_verses : list (pystr * json)),
    c ∈ default [] (completed_chapters (progress_data s)) ->
    exists new,
      trace (fst (fold_left (scrape_chapter_step o t) chapters (s, all_verses))) =
        trace s ++ new /\
      Forall (fun ev => fetches_chapter c ev = false) new.
Proof.
  induction chapters as [|chapter chapters IH]; intros s all_verses Hc; simpl.
  - exists []. rewrite app_nil_r. split; [reflexivity | constructor].
  - destruct (scrape_chapter_step_skips o t c chapter s all_verses Hc)
      as (Hc' & new1 & Ht1 & Hf1).
    destruct (scrape_chapter_step o t (s, all_verses) chapter) as [s1 vs1].
    simpl in *.
    destruct (IH s1 vs1 Hc') as (new2 & Ht2 & Hf2).
    exists (new1 ++ new2). split.
    + rewrite Ht2, Ht1, app_assoc. reflexivity.
    + apply Forall_app. split; assumption.
Qed.

(** A chapter listed in [completed_chapters] is skipped by
    [scrape_complete_tafsir] for whatever edition it is called: none of
    its verses is requested. The edition recorded in [current_tafsir]
    plays no part. *)
Lemma completed_chapters_skipped_for_any_edition
    (o : origin) (s : scraper) (t : tafsir_info) (start_chapter end_chapter c : Z) :
  c ∈ default [] (completed_chapters (progress_data s)) ->
  exists new,
    trace (snd (scrape_complete_tafsir o s t start_chapter end_chapter)) =
      trace s ++ new /\
    Forall (fun ev => fetches_chapter c ev = false) new.
Proof.
  intros Hc. unfold scrape_complete_tafsir. cbn [snd].
  apply scrape_chapters_skip. exact Hc.
Qed.

(** C2 at a failing input. The progress file records edition X as the
    current edition with chapters 1 and 2 completed; the crawl is
    restarted for edition Y only. The claim asks for a fresh start, since
    the recorded edition differs from the requested one. The code skips
    chapters 1 and 2 of edition Y: no verse of them is requested, the
    first chapter fetched is chapter 3, the document saved for Y holds
    the 200 verses of chapter 3 only, and Y is marked completed. *)
Theorem restart_for_other_edition_skips_chapters :
  current_tafsir Sample.interrupted_progress = Some Sample.edition_x /\
  ti_id Sample.edition_x <> ti_id Sample.edition_y /\
  forallb (fun ev => negb (fetches_chapter 1 ev || fetches_chapter 2 ev))
          (trace Sample.restarted_for_y) = true /\
  existsb (fetches_chapter 3) (trace Sample.restarted_for_y) = true /\
  map (fun d => (tid (doc_meta d), length (doc_vs d), map fst (take 1 (doc_vs d))))
      (saved Sample.restarted_for_y) = [(5001, 200%nat, [py "3:1"])] /\
  completed_tafasir (progress_data Sample.restarted_for_y) = Some [5001].
Proof.
  split; [reflexivity |]. split; [discriminate |].
  repeat (split; [vm_compute; reflexivity |]). vm_compute. reflexivity.
Qed.

End Resume.

(** ** The loader: batches *)

Section Batches.
Import Py Importer.

Lemma store_rows_app (m : gmap (pystr * Z) verse_values)
    (rows1 rows2 : list verse_values) :
  store_rows m (rows1 ++ rows2) = store_rows (store_rows m rows1) rows2.
Proof. unfold store_rows. apply fold_left_app. Qed.

(** A key that no inserted row carries keeps its values. *)
Lemma store_rows_lookup_other (k : pystr * Z) (rows : list verse_values) :
  forall m : gmap (pystr * Z) verse_values,
    k ∉ map row_key rows -> store_rows m rows !! k = m !! k.
Proof.
  induction rows as [|v rows IH]; intros m Hk; [reflexivity |].
  simpl in Hk. apply not_elem_of_cons in Hk as [Hne Hk].
  change (store_rows m (v :: rows)) with (store_rows (<[row_key v := v]> m) rows).
  rewrite IH by exact Hk. apply lookup_insert_ne. congruence.
Qed.

(** With distinct keys, every inserted row is found under its key. *)
Lemma store_rows_lookup (v : verse_values) (rows : list verse_values) :
  forall m : gmap (pystr * Z) verse_values,
    NoDup (map row_key rows) ->
    v ∈ rows ->
    store_rows m rows !! row_key v = Some v.
Proof.
  induction rows as [|v0 rows IH]; intros m Hnd Hv; [inversion Hv |].
  simpl in Hnd. apply NoDup_cons in Hnd as [Hfresh Hnd].
  change (store_rows m (v0 :: rows))
    with (store_rows (<[row_key v0 := v0]> m) rows).
  apply elem_of_cons in Hv as [-> | Hv].
  - rewrite store_rows_lookup_other by exact Hfresh. apply lookup_insert_eq.
  - apply IH; assumption.
Qed.

(** What one [INSERT OR REPLACE] that goes through leaves. *)
Lemma insert_or_replace_tables (t t' : tables) (now : timestamp)
    (v : verse_values) :
  insert_or_replace t now v = Ret t' ->
  quran_translations t' =
    <[row_key v := Row (next_id t) v now now]> (quran_translations t) /\
  quran_translations_seq t' = next_id t /\
  tafsir_metadata t' = tafsir_metadata t /\
  import_log t' = import_log t.
Proof.
  unfold insert_or_replace, bind.
  destruct (not_null (chapter_number v)); [| discriminate].
  destruct (not_null (verse_number v)); [| discriminate].
  destruct (fits64 (next_id t)); [| discriminate].
  intros H. injection H as <-. repeat split.
Qed.

(** The rows of an [executemany] touch the verse table at their keys
    only, and neither of the other tables, also when it raises. *)
Lemma insert_rows_elsewhere (stop : option nat) (now : nat -> timestamp)
    (rows : list verse_values) :
  forall (index : nat) (t : tables),
    let done := insert_rows stop now index t rows in
    tafsir_metadata (snd done) = tafsir_metadata t /\
    import_log (snd done) = import_log t /\
    forall k, k ∉ map row_key rows ->
      quran_translations (snd done) !! k = quran_translations t !! k.
Proof.
  induction rows as [|v rows IH]; intros index t; cbn [insert_rows].
  - repeat split.
  - destruct (bind_verse_values v); [| repeat split].
    case_bool_decide; [repeat split |].
    destruct (insert_or_replace t (now index) v) as [t'|ex] eqn:Hins;
      [| repeat split].
    destruct (insert_or_replace_tables _ _ _ _ Hins) as (Hq & _ & Hm & Hl).
    destruct (IH (S index) t') as (IHm & IHl & IHq). cbv zeta.
    rewrite IHm, IHl. repeat split; try assumption.
    intros k Hk. simpl in Hk. apply not_elem_of_cons in Hk as [Hne Hk].
    rewrite IHq by exact Hk. rewrite Hq. apply lookup_insert_ne. congruence.
Qed.

(** The values supplied, after an [executemany] that goes through. *)
Lemma insert_rows_supplied (stop : option nat) (now : nat -> timestamp)
    (rows : list verse_values) :
  forall (index : nat) (t : tables),
    fst (insert_rows stop now index t rows) = Ret tt ->
    supplied (snd (insert_rows stop now index t rows)) =
    store_rows (supplied t) rows.
Proof.
  induction rows as [|v rows IH]; intros index t; cbn [insert_rows].
  - reflexivity.
  - destruct (bind_verse_values v); [| discriminate].
    case_bool_decide; [discriminate |].
    destruct (insert_or_replace t (now index) v) as [t'|ex] eqn:Hins;
      [| discriminate].
    intros Hok. rewrite IH by exact Hok.
    destruct (insert_or_replace_tables _ _ _ _ Hins) as (Hq & _).
    change (store_rows (supplied t) (v :: rows))
      with (store_rows (<[row_key v := v]> (supplied t)) rows).
    f_equal. unfold supplied. rewrite Hq. apply fmap_insert.
Qed.

(** A batch that is rolled back: the connection is back at its committed
    state, and the whole batch is counted as skipped. When it is the
    [commit] that raised, [imported] was assigned before: the rows are
    counted as imported as well. *)
Lemma import_verses_batch_lost (c : connection) (b : list verse_values) :
  batch_lost c b = true ->
  import_verses_batch c b =
    (Connection (committed c) (committed c) (S (calls c)) (fault c) (clock c),
     (if batch_fails c b then 0 else Z.of_nat (length b),
      Z.of_nat (length b))).
Proof.
  unfold batch_lost, batch_fails, commit_fails, import_verses_batch,
    executemany, commit_after.
  destruct (fst (insert_rows (execute_stop (fault c (calls c)))
                             (clock c (calls c)) 0 (working c) b));
    cbn [fst snd raises orb].
  - intros ->. reflexivity.
  - intros _. reflexivity.
Qed.

(** A batch that is kept: its rows are committed and counted as
    imported. *)
Lemma import_verses_batch_kept (c : connection) (b : list verse_values) :
  batch_lost c b = false ->
  let t :=
    snd (insert_rows (execute_stop (fault c (calls c))) (clock c (calls c)) 0
                     (working c) b) in
  fst (insert_rows (execute_stop (fault c (calls c))) (clock c (calls c)) 0
                   (working c) b) = Ret tt /\
  import_verses_batch c b =
    (Connection t t (S (calls c)) (fault c) (clock c),
     (Z.of_nat (length b), 0)).
Proof.
  unfold batch_lost, batch_fails, commit_fails, import_verses_batch,
    executemany, commit_after.
  destruct (insert_rows (execute_stop (fault c (calls c)))
                        (clock c (calls c)) 0 (working c) b) as [[[]|ex] t];
    cbn [fst snd raises orb]; [| discriminate].
  intros ->. split; reflexivity.
Qed.

Lemma stored_lost_permutation (bs : list (list verse_values)) :
  forall c : connection, stored_rows c bs ++ lost_rows c bs ≡ₚ concat bs.
Proof.
  induction bs as [|b bs IH]; intros c; cbn [stored_rows lost_rows concat].
  - reflexivity.
  - specialize (IH (fst (import_verses_batch c b))).
    destruct (batch_lost c b); cbn [app].
    + rewrite <- IH.
      rewrite (Permutation_app_comm (stored_rows _ bs)), <- app_assoc.
      apply Permutation_app_head, Permutation_app_comm.
    + rewrite <- IH, <- app_assoc. reflexivity.
Qed.

(** The batches of a clean connection, one after the other: what is
    counted and what is in the store afterwards. *)
Lemma run_batches_result (bs : list (list verse_values)) :
  forall c : connection,
    working c = committed c ->
    let r := run_batches c bs in
    working (fst r) = committed (fst r) /\
    calls (fst r) = (calls c + length bs)%nat /\
    fault (fst r) = fault c /\
    clock (fst r) = clock c /\
    tafsir_metadata (committed (fst r)) = tafsir_metadata (committed c) /\
    import_log (committed (fst r)) = import_log (committed c) /\
    supplied (committed (fst r)) =
      store_rows (supplied (committed c)) (stored_rows c bs) /\
    (forall k, k ∉ map row_key (stored_rows c bs) ->
       quran_translations (committed (fst r)) !! k =
       quran_translations (committed c) !! k) /\
    fst (snd r) =
      Z.of_nat (length (stored_rows c bs)) +
      Z.of_nat (length (uncommitted_rows c bs)) /\
    snd (snd r) = Z.of_nat (length (lost_rows c bs)).
Proof.
  induction bs as [|b bs IH]; intros c Hclean; cbv zeta.
  - cbn [run_batches stored_rows lost_rows uncommitted_rows fst snd length].
    rewrite Nat.add_0_r. repeat split; try assumption; reflexivity.
  - cbn [run_batches stored_rows lost_rows uncommitted_rows fst snd].
    unfold commit_failed.
    destruct (batch_lost c b) eqn:Hlost.
    + rewrite (import_verses_batch_lost c b Hlost). cbn [fst snd app].
      specialize (IH (Connection (committed c) (committed c) (S (calls c))
                                 (fault c) (clock c)) eq_refl).
      cbv zeta in IH. cbn [committed calls fault clock] in IH.
      destruct IH as (H1 & H2 & H3 & H4 & H5 & H6 & H7 & H8 & H9 & H10).
      repeat split; try assumption.
      * rewrite H2. simpl. lia.
      * rewrite H9. unfold batch_lost in Hlost.
        destruct (batch_fails c b); cbn [negb andb orb] in *.
        -- cbn [app length]. lia.
        -- rewrite Hlost. rewrite length_app. lia.
      * rewrite H10, length_app. lia.
    + destruct (import_verses_batch_kept c b Hlost) as [Hok ->].
      set (t := snd (insert_rows (execute_stop (fault c (calls c)))
                                 (clock c (calls c)) 0 (working c) b)) in *.
      cbn [fst snd].
      specialize (IH (Connection t t (S (calls c)) (fault c) (clock c)) eq_refl).
      cbv zeta in IH. cbn [committed calls fault clock] in IH.
      destruct IH as (H1 & H2 & H3 & H4 & H5 & H6 & H7 & H8 & H9 & H10).
      destruct (insert_rows_elsewhere (execute_stop (fault c (calls c)))
                  (clock c (calls c)) b 0%nat (working c)) as (Hm & Hl & Hq).
      fold t in Hm, Hl, Hq. rewrite Hclean in Hm, Hl, Hq.
      unfold batch_lost in Hlost. apply orb_false_iff in Hlost as [-> ->].
      cbn [negb andb app].
      repeat split; try assumption.
      * rewrite H2. simpl. lia.
      * congruence.
      * congruence.
      * rewrite H7, store_rows_app. f_equal. subst t.
        rewrite insert_rows_supplied by exact Hok. rewrite Hclean. reflexivity.
      * intros k Hk. rewrite map_app in Hk.
        apply not_elem_of_app in Hk as [Hk1 Hk2].
        rewrite H8 by exact Hk2. apply Hq. exact Hk1.
      * rewrite H9, length_app. lia.
Qed.

Lemma run_batches_app (bs1 bs2 : list (list verse_values)) :
  forall c : connection,
    run_batches c (bs1 ++ bs2) =
      (fst (run_batches (fst (run_batches c bs1)) bs2),
       (fst (snd (run_batches c bs1)) +
          fst (snd (run_batches (fst (run_batches c bs1)) bs2)),
        snd (snd (run_batches c bs1)) +
          snd (snd (run_batches (fst (run_batches c bs1)) bs2)))).
Proof.
  induction bs1 as [|b bs1 IH]; intros c.
  - simpl. destruct (run_batches c bs2) as [c' [i s]]. reflexivity.
  - cbn [app run_batches fst snd]. rewrite IH. cbn [fst snd].
    f_equal. f_equal; lia.
Qed.

(** The progress check raises exactly for a batch size of 0. *)
Lemma progress_check_raises (total batch_size : Z) :
  raises (py_mod total (batch_size * 5)) = (batch_size =? 0).
Proof.
  unfold py_mod.
  destruct (Z.eqb_spec (batch_size * 5) 0) as [H | H];
    destruct (Z.eqb_spec batch_size 0) as [H' | H']; try reflexivity; lia.
Qed.

(** The loop of [import_tafsir_verses] hands over exactly [batches_from]
    of the tuples, except for the last, pending one; with a batch size
    of 0 it counts one more skipped verse for each batch. *)
Lemma verse_loop_batches (e : env) (batch_size : Z) (meta : tafsir_meta)
    (items : list (pystr * json)) :
  forall st : loop,
    let st' := fold_left (verse_step e batch_size meta) items st in
    let pending :=
      match verses_batch st' with
      | [] => []
      | _ :: _ => [verses_batch st']
      end in
    exists done : list (list verse_values),
      batches_from batch_size (verses_batch st) (tuples e meta items) =
        done ++ pending /\
      l_conn st' = fst (run_batches (l_conn st) done) /\
      total_imported st' =
        total_imported st + fst (snd (run_batches (l_conn st) done)) /\
      total_skipped st' =
        total_skipped st + rejected e meta items +
        snd (snd (run_batches (l_conn st) done)) +
        (if batch_size =? 0 then Z.of_nat (length done) else 0).
Proof.
  induction items as [|item items IH]; intros st.
  - simpl. exists []. simpl. repeat split; destruct (batch_size =? 0); lia.
  - cbn [fold_left tuples rejected].
    specialize (IH (verse_step e batch_size meta st item)).
    cbv zeta in IH |- *.
    set (run := fold_left (verse_step e batch_size meta) items) in *.
    destruct IH as (done & Hb & Hc & Hi & Hs).
    unfold verse_step in Hb, Hc, Hi, Hs |- *.
    destruct (verse_tuple e meta (fst item) (snd item)) as [[t|]|ex];
      cbn [l_conn verses_batch total_imported total_skipped] in *.
    + cbn [batches_from].
      destruct (Z.of_nat (length (verses_batch st ++ [t])) >=? batch_size);
        cbn [l_conn verses_batch total_imported total_skipped] in *.
      * pose proof (progress_check_raises
                      (total_imported st +
                       fst (snd (import_verses_batch (l_conn st)
                                   (verses_batch st ++ [t]))))
                      batch_size) as Hmod.
        destruct (py_mod _ (batch_size * 5)) as [m|ex];
          cbn [raises] in Hmod; rewrite <- Hmod in *;
          cbn [l_conn verses_batch total_imported total_skipped] in *;
          exists ((verses_batch st ++ [t]) :: done);
          rewrite Hb; cbn [run_batches fst snd app length];
          (repeat split; [exact Hc | lia | lia]).
      * exists done. repeat split; assumption.
    + exists done. repeat split; try assumption; lia.
    + exists done. repeat split; try assumption; lia.
Qed.

(** With a batch size of 0 or less no tuple is left pending. *)
Lemma no_pending_batch (e : env) (batch_size : Z) (meta : tafsir_meta)
    (items : list (pystr * json)) :
  forall st : loop,
    batch_size <= 0 ->
    verses_batch st = [] ->
    verses_batch (fold_left (verse_step e batch_size meta) items st) = [].
Proof.
  induction items as [|item items IH]; intros st Hsize Hempty; [exact Hempty |].
  cbn [fold_left]. apply IH; [exact Hsize |].
  unfold verse_step.
  destruct (verse_tuple e meta (fst item) (snd item)) as [[t|]|ex];
    cbn [verses_batch]; try exact Hempty.
  rewrite Hempty. cbn [app length].
  destruct (Z.geb_spec (Z.of_nat 1) batch_size) as [_ | H]; [| lia].
  destruct (py_mod _ _); reflexivity.
Qed.

Lemma batches_from_concat (batch_size : Z) (ts : list verse_values) :
  forall acc : list verse_values,
    concat (batches_from batch_size acc ts) = acc ++ ts.
Proof.
  induction ts as [|t ts IH]; intros acc; cbn [batches_from].
  - destruct acc; simpl; rewrite ?app_nil_r; reflexivity.
  - destruct (Z.of_nat (length (acc ++ [t])) >=? batch_size).
    + cbn [concat]. rewrite IH. simpl. rewrite <- app_assoc. reflexivity.
    + rewrite IH, <- app_assoc. reflexivity.
Qed.

(** With a batch size of 0 every tuple is a batch. *)
Lemma batches_at_zero (ts : list verse_values) :
  length (batches 0 ts) = length ts.
Proof.
  unfold batches. induction ts as [|t ts IH]; [reflexivity |].
  cbn [batches_from app length].
  destruct (Z.geb_spec (Z.of_nat 1) 0) as [_ | H]; [| lia].
  cbn [length]. rewrite IH. reflexivity.
Qed.

(** [import_tafsir_verses] is [import_verses_batch] on the batches of the
    accepted tuples; the rejected items are added to the skipped, and so
    is every tuple when the batch size is 0. *)
Lemma import_tafsir_verses_batches (e : env) (batch_size : Z) (c : connection)
    (data : tafsir_data) :
  import_tafsir_verses e batch_size c data =
    (let ts := tuples e (meta data) (vs data) in
     let r := run_batches c (batches batch_size ts) in
     (fst r,
      (fst (snd r),
       rejected e (meta data) (vs data) + snd (snd r) +
       zero_division_skips batch_size ts))).
Proof.
  unfold import_tafsir_verses, batches, zero_division_skips.
  destruct (verse_loop_batches e batch_size (meta data) (vs data) (Loop c [] 0 0))
    as (done & Hb & Hc & Hi & Hs).
  cbn [l_conn verses_batch total_imported total_skipped] in Hb, Hc, Hi, Hs.
  cbv zeta.
  pose proof (no_pending_batch e batch_size (meta data) (vs data) (Loop c [] 0 0))
    as Hpending.
  destruct (Z.eqb_spec batch_size 0) as [Hzero | Hnonzero].
  - rewrite Hpending in Hb |- * by (cbn [verses_batch]; first [lia | reflexivity]).
    rewrite app_nil_r in Hb. rewrite Hb, Hc, Hi, Hs.
    subst batch_size. rewrite <- (batches_at_zero (tuples e (meta data) (vs data))).
    unfold batches. rewrite Hb. f_equal; try (f_equal; lia).
  - rewrite Hb, run_batches_app.
    destruct (verses_batch
                (fold_left (verse_step e batch_size (meta data)) (vs data)
                           (Loop c [] 0 0))) as [|t pending].
    + cbn [run_batches fst snd]. rewrite Hc, Hi, Hs.
      f_equal. f_equal; lia.
    + cbn [run_batches fst snd]. rewrite Hc, Hi, Hs.
      f_equal. f_equal; lia.
Qed.

End Batches.

(** ** The loader: what reaches the store *)

Section Store.
Import Py Importer.

Lemma verse_tuple_key (e : env) (m : tafsir_meta) (k : pystr) (vd : json)
    (t : verse_values) :
  verse_tuple e m k vd = Ret (Some t) ->
  verse_key t = k /\ translation_id t = tid m.
Proof.
  unfold verse_tuple, bind.
  destruct (tafsir_field vd) as [[| | |s| |]|]; try discriminate.
  destruct (negb (truthy (strip s))); [discriminate |].
  destruct (calculate_data_hash e s); [| discriminate].
  destruct (dict_get vd (py "c") (JInt 0)); [| discriminate].
  destruct (dict_get vd (py "n") (JInt 0)); [| discriminate].
  intros H. injection H as <-. split; reflexivity.
Qed.

Lemma tuples_from_items (e : env) (m : tafsir_meta) (items : list (pystr * json))
    (t : verse_values) :
  t ∈ tuples e m items ->
  exists vd, (verse_key t, vd) ∈ items /\
             verse_tuple e m (verse_key t) vd = Ret (Some t) /\
             translation_id t = tid m.
Proof.
  induction items as [|[k vd] items IH]; simpl; [intros H; inversion H |].
  destruct (verse_tuple e m k vd) as [[t0|]|ex] eqn:Ht.
  - intros H. apply elem_of_cons in H as [-> | H].
    + destruct (verse_tuple_key e m k vd t0 Ht) as [Hk Hid]. subst k.
      exists vd. repeat split; [left | exact Ht | exact Hid].
    + destruct (IH H) as (vd' & Hin & Hv & Hid).
      exists vd'. repeat split; [right; exact Hin | exact Hv | exact Hid].
  - intros H. destruct (IH H) as (vd' & Hin & Hv & Hid).
    exists vd'. repeat split; [right; exact Hin | exact Hv | exact Hid].
  - intros H. destruct (IH H) as (vd' & Hin & Hv & Hid).
    exists vd'. repeat split; [right; exact Hin | exact Hv | exact Hid].
Qed.

(** An item for which the loop builds a tuple has its tuple among the
    tuples. *)
Lemma tuples_of_accepted (e : env) (m : tafsir_meta)
    (items : list (pystr * json)) (k : pystr) (vd : json) (t : verse_values) :
  (k, vd) ∈ items -> verse_tuple e m k vd = Ret (Some t) ->
  t ∈ tuples e m items.
Proof.
  induction items as [|[k0 vd0] items IH]; intros Hin Hv; [inversion Hin |].
  simpl. apply elem_of_cons in Hin as [E | Hin].
  - injection E as <- <-. rewrite Hv. left.
  - specialize (IH Hin Hv).
    destruct (verse_tuple e m k0 vd0) as [[t0|]|ex]; [right | |]; exact IH.
Qed.

Lemma tuples_keys_in_items (e : env) (m : tafsir_meta)
    (items : list (pystr * json)) (k : pystr * Z) :
  k ∈ map row_key (tuples e m items) -> fst k ∈ map fst items.
Proof.
  intros Hk. apply list_elem_of_fmap in Hk as (t & -> & Ht).
  destruct (tuples_from_items e m items t Ht) as (vd & Hin & _).
  apply list_elem_of_fmap. exists (verse_key t, vd). split; [reflexivity | exact Hin].
Qed.

(** The items of a [dict] have distinct keys, hence so have the tuples. *)
Lemma tuples_keys_distinct (e : env) (m : tafsir_meta)
    (items : list (pystr * json)) :
  NoDup (map fst items) -> NoDup (map row_key (tuples e m items)).
Proof.
  induction items as [|[k vd] items IH]; simpl; intros Hnd; [constructor |].
  apply NoDup_cons in Hnd as [Hfresh Hnd].
  destruct (verse_tuple e m k vd) as [[t|]|ex] eqn:Ht; try (apply IH, Hnd).
  simpl. apply NoDup_cons. split; [| apply IH, Hnd].
  intros Hin. apply tuples_keys_in_items in Hin.
  destruct (verse_tuple_key e m k vd t Ht) as [Hk _].
  simpl in Hin. rewrite Hk in Hin. exact (Hfresh Hin).
Qed.

Lemma rejected_nonneg (e : env) (m : tafsir_meta) (items : list (pystr * json)) :
  0 <= rejected e m items.
Proof.
  induction items as [|item items IH]; simpl; [lia |].
  destruct (verse_tuple e m (fst item) (snd item)) as [[t|]|ex]; lia.
Qed.

(** Every item is a tuple or is rejected. *)
Lemma tuples_rejected_length (e : env) (m : tafsir_meta)
    (items : list (pystr * json)) :
  Z.of_nat (length (tuples e m items)) + rejected e m items =
  Z.of_nat (length items).
Proof.
  induction items as [|item items IH]; simpl; [reflexivity |].
  destruct (verse_tuple e m (fst item) (snd item)) as [[t|]|ex]; simpl; lia.
Qed.

Lemma zero_division_skips_nonneg (batch_size : Z) (ts : list verse_values) :
  0 <= zero_division_skips batch_size ts.
Proof. unfold zero_division_skips. destruct (batch_size =? 0); lia. Qed.

(** The outcome of [import_tafsir_verses] on a clean connection, for any
    store errors: the rows of the batches that are committed are counted
    as imported and are in the store; the rows of the batches that are
    rolled back are counted as skipped and leave the store as it was;
    the rows of a batch whose [commit] raised are counted as imported on
    top of that. *)
Lemma import_tafsir_verses_outcome (e : env) (batch_size : Z) (c : connection)
    (data : tafsir_data) :
  working c = committed c ->
  NoDup (map fst (vs data)) ->
  let ts := tuples e (meta data) (vs data) in
  let bs := batches batch_size ts in
  let kept := stored_rows c bs in
  let lost := lost_rows c bs in
  let r := import_tafsir_verses e batch_size c data in
  fst (snd r) =
    Z.of_nat (length kept) + Z.of_nat (length (uncommitted_rows c bs)) /\
  snd (snd r) =
    rejected e (meta data) (vs data) + Z.of_nat (length lost) +
    zero_division_skips batch_size ts /\
  working (fst r) = committed (fst r) /\
  supplied (committed (fst r)) = store_rows (supplied (committed c)) kept /\
  kept ++ lost ≡ₚ ts /\
  (forall t, t ∈ kept ->
     columns <$> stored (fst r) (verse_key t) (translation_id t) = Some t) /\
  (forall k, k ∉ map row_key kept ->
     quran_translations (committed (fst r)) !! k =
     quran_translations (committed c) !! k).
Proof.
  intros Hclean Hnd. cbv zeta.
  rewrite import_tafsir_verses_batches. cbv zeta. cbn [fst snd].
  set (ts := tuples e (meta data) (vs data)).
  set (bs := batches batch_size ts).
  destruct (run_batches_result bs c Hclean)
    as (Hw & _ & _ & _ & _ & _ & Hsup & Hother & Himp & Hskip).
  assert (Hperm : stored_rows c bs ++ lost_rows c bs ≡ₚ ts).
  { rewrite stored_lost_permutation. subst bs. unfold batches.
    rewrite batches_from_concat. reflexivity. }
  assert (Hkeys : NoDup (map row_key (stored_rows c bs))).
  { pose proof (tuples_keys_distinct e (meta data) (vs data) Hnd) as Hall.
    fold ts in Hall. rewrite <- Hperm, map_app in Hall.
    apply NoDup_app in Hall as [H _]. exact H. }
  split; [exact Himp |]. split; [rewrite Hskip; reflexivity |].
  split; [exact Hw |]. split; [exact Hsup |]. split; [exact Hperm |].
  split; [| exact Hother].
  intros t Ht. unfold stored. rewrite <- lookup_fmap.
  change (columns <$> quran_translations (committed (run_batches c bs).1))
    with (supplied (committed (run_batches c bs).1)).
  rewrite Hsup. apply (store_rows_lookup t); assumption.
Qed.

(** [import_tafsir_verses] leaves the other tables alone. *)
Lemma import_tafsir_verses_elsewhere (e : env) (batch_size : Z) (c : connection)
    (data : tafsir_data) :
  working c = committed c ->
  let r := import_tafsir_verses e batch_size c data in
  tafsir_metadata (committed (fst r)) = tafsir_metadata (committed c) /\
  import_log (committed (fst r)) = import_log (committed c) /\
  fault (fst r) = fault c /\
  clock (fst r) = clock c /\
  calls (fst r) =
    (calls c +
     length (batches batch_size (tuples e (meta data) (vs data))))%nat.
Proof.
  intros Hclean. cbv zeta.
  rewrite import_tafsir_verses_batches. cbv zeta. cbn [fst snd].
  destruct (run_batches_result
              (batches batch_size (tuples e (meta data) (vs data))) c Hclean)
    as (_ & Hcalls & Hf & Hcl & Hm & Hl & _).
  repeat split; assumption.
Qed.

End Store.

(** ** The loader: the properties of an import *)

Section Loader.
Import Py Importer.

(** C3 at a failing input. Five verses are imported in batches of two,
    and the [commit] of the second batch raises. The claim asks that the
    records of the failed batch be counted as skipped and none of them
    as imported. The code rolls the second batch back and counts its two
    records as skipped, the rows of the first and of the third batch are
    in the store, but it reports 5 verses imported where 3 rows were
    stored: [imported] is assigned before [commit] and is not reset by
    the handler. When it is [executemany] that raises on the second
    batch, the same import reports 3 imported and 2 skipped. *)
Theorem rolled_back_batch_is_counted_as_imported :
  let r := import_tafsir_verses Sample.env 2 Sample.second_commit_fails
                                Sample.five_verses in
  let r' := import_tafsir_verses Sample.env 2 Sample.second_batch_fails
                                 Sample.five_verses in
  map (map verse_key) Sample.five_batches =
    [[py "1:1"; py "1:2"]; [py "1:3"; py "1:4"]; [py "1:5"]] /\
  snd r = (5, 2) /\
  size (quran_translations (committed (fst r))) = 3%nat /\
  map (fun k => bool_decide (is_Some (stored (fst r) k 5000)))
      [py "1:1"; py "1:2"; py "1:3"; py "1:4"; py "1:5"] =
    [true; true; false; false; true] /\
  snd r' = (3, 2) /\
  size (quran_translations (committed (fst r'))) = 3%nat.
Proof.
  cbv zeta. repeat (split; [vm_compute; reflexivity |]).
  vm_compute. reflexivity.
Qed.

Lemma blank_text_rejected (e : env) (m : tafsir_meta) (k : pystr) (vd : json) :
  blank_text vd -> verse_tuple e m k vd = Ret None.
Proof.
  intros (s & Hs & Hblank). unfold verse_tuple. rewrite Hs. simpl.
  apply strip_nil_iff in Hblank. rewrite Hblank. reflexivity.
Qed.

Lemma items_key_unique (items : list (pystr * json)) (k : pystr) (v1 v2 : json) :
  NoDup (map fst items) -> (k, v1) ∈ items -> (k, v2) ∈ items -> v1 = v2.
Proof.
  induction items as [|[k0 v0] items IH]; intros Hnd H1 H2; [inversion H1 |].
  simpl in Hnd. apply NoDup_cons in Hnd as [Hfresh Hnd].
  assert (Hk : forall v, (k, v) ∈ items -> k0 <> k).
  { intros v Hv ->. apply Hfresh. apply list_elem_of_fmap.
    exists (k, v). split; [reflexivity | exact Hv]. }
  apply elem_of_cons in H1 as [E1 | H1]; apply elem_of_cons in H2 as [E2 | H2].
  - congruence.
  - injection E1 as -> ->. exfalso. exact (Hk v2 H2 eq_refl).
  - injection E2 as -> ->. exfalso. exact (Hk v1 H1 eq_refl).
  - apply IH; assumption.
Qed.

(** No tuple carries the key of an item for which the loop builds
    none. *)
Lemma no_tuple_for_rejected (e : env) (m : tafsir_meta)
    (items : list (pystr * json)) (k : pystr) (vd : json) :
  NoDup (map fst items) -> (k, vd) ∈ items ->
  accepts e m k vd = false ->
  forall t, t ∈ tuples e m items -> verse_key t <> k.
Proof.
  intros Hnd Hin Hrej t Ht Hk.
  destruct (tuples_from_items e m items t Ht) as (vd' & Hin' & Hv & _).
  rewrite Hk in Hin', Hv.
  rewrite (items_key_unique items k vd' vd Hnd Hin' Hin) in Hv.
  unfold accepts in Hrej. rewrite Hv in Hrej. discriminate.
Qed.

Lemma rejected_counts (e : env) (m : tafsir_meta)
    (items : list (pystr * json)) (k : pystr) (vd : json) :
  (k, vd) ∈ items -> accepts e m k vd = false -> 1 <= rejected e m items.
Proof.
  unfold accepts.
  induction items as [|item items IH]; intros Hin Hv; [inversion Hin |].
  simpl. pose proof (rejected_nonneg e m items) as Hge.
  apply elem_of_cons in Hin as [<- | Hin].
  - simpl. destruct (verse_tuple e m k vd) as [[t|]|ex]; [discriminate | lia | lia].
  - specialize (IH Hin Hv).
    destruct (verse_tuple e m (fst item) (snd item)) as [[t|]|ex]; lia.
Qed.

(** What the import does with an item for which the loop builds no
    tuple: it counts it, and leaves the store at its key alone. *)
Lemma rejected_item_outcome (e : env) (batch_size : Z) (c : connection)
    (data : tafsir_data) (key : pystr) (verse_data : json) :
  working c = committed c ->
  NoDup (map fst (vs data)) ->
  (key, verse_data) ∈ vs data ->
  accepts e (meta data) key verse_data = false ->
  let r := import_tafsir_verses e batch_size c data in
  (forall t, t ∈ tuples e (meta data) (vs data) -> verse_key t <> key) /\
  1 <= rejected e (meta data) (vs data) <= snd (snd r) /\
  (forall edition, stored (fst r) key edition = stored c key edition).
Proof.
  intros Hclean Hnd Hin Hrej. cbv zeta.
  pose proof (no_tuple_for_rejected e (meta data) (vs data) key verse_data
                Hnd Hin Hrej) as Hno.
  destruct (import_tafsir_verses_outcome e batch_size c data Hclean Hnd)
    as (_ & Hskip & _ & _ & Hperm & _ & Hother).
  split; [exact Hno |]. split.
  - rewrite Hskip.
    pose proof (rejected_counts e (meta data) (vs data) key verse_data Hin Hrej).
    pose proof (zero_division_skips_nonneg batch_size
                  (tuples e (meta data) (vs data))).
    lia.
  - intros edition. unfold stored. apply Hother.
    intros Hk. apply list_elem_of_fmap in Hk as (t & Hkey & Ht).
    apply (Hno t).
    + rewrite <- Hperm. apply elem_of_app. left. exact Ht.
    + unfold row_key in Hkey. congruence.
Qed.

(** C8. A verse record whose tafsir text is empty or whitespace only is
    counted as skipped by the loop, which leaves its batch and the store
    untouched; it is in none of the batches; it is part of the skipped
    count of the import; and, whatever store errors occur, the store
    holds for its key, for every edition, what it held before the
    import. *)
Theorem blank_text_is_skipped :
  forall (e : env) (batch_size : Z) (c : connection) (data : tafsir_data)
         (key : pystr) (verse_data : json),
    working c = committed c ->
    NoDup (map fst (vs data)) ->
    (key, verse_data) ∈ vs data ->
    blank_text verse_data ->
    let r := import_tafsir_verses e batch_size c data in
    (forall st : loop,
       verse_step e batch_size (meta data) st (key, verse_data) =
       Loop (l_conn st) (verses_batch st) (total_imported st)
            (total_skipped st + 1)) /\
    (forall b t, b ∈ batches batch_size (tuples e (meta data) (vs data)) ->
                 t ∈ b -> verse_key t <> key) /\
    1 <= rejected e (meta data) (vs data) <= snd (snd r) /\
    (forall edition, stored (fst r) key edition = stored c key edition).
Proof.
  intros e batch_size c data key verse_data Hclean Hnd Hin Hblank. cbv zeta.
  pose proof (blank_text_rejected e (meta data) key verse_data Hblank) as Hnone.
  assert (Hrej : accepts e (meta data) key verse_data = false).
  { unfold accepts. rewrite Hnone. reflexivity. }
  destruct (rejected_item_outcome e batch_size c data key verse_data
              Hclean Hnd Hin Hrej) as (Hno & Hcount & Hstore).
  split; [| split; [| split]].
  - intros st. unfold verse_step. cbn [fst snd]. rewrite Hnone. reflexivity.
  - intros b t Hb Ht. apply Hno.
    unfold batches in Hb.
    rewrite <- (app_nil_l (tuples e (meta data) (vs data))),
            <- (batches_from_concat batch_size).
    apply list_elem_of_In, in_concat. exists b.
    split; apply list_elem_of_In; assumption.
  - exact Hcount.
  - exact Hstore.
Qed.

(** The theorem on three verses whose second has a text of spaces. *)
Lemma blank_text_is_skipped_witness :
  let r := import_tafsir_verses Sample.env 1000 Sample.fresh_connection
                                Sample.with_blank in
  snd r = (2, 1) /\
  ((forall st : loop,
      verse_step Sample.env 1000 (meta Sample.with_blank) st
                 (py "1:2", Sample.entry (py "1:2") 1 2 (py "   ")) =
      Loop (l_conn st) (verses_batch st) (total_imported st)
           (total_skipped st + 1)) /\
   (forall b t,
      b ∈ batches 1000 (tuples Sample.env (meta Sample.with_blank)
                               (vs Sample.with_blank)) ->
      t ∈ b -> verse_key t <> py "1:2") /\
   1 <= rejected Sample.env (meta Sample.with_blank) (vs Sample.with_blank)
     <= snd (snd r) /\
   (forall edition,
      stored (fst r) (py "1:2") edition =
      stored Sample.fresh_connection (py "1:2") edition)).
Proof.
  cbv zeta. split; [vm_compute; reflexivity |].
  apply (blank_text_is_skipped Sample.env 1000 Sample.fresh_connection
           Sample.with_blank).
  - reflexivity.
  - apply (bool_decide_unpack _). vm_compute. exact I.
  - right. left.
  - exists (py "   "). split; [reflexivity |].
    repeat constructor.
Defined.

Lemma no_batch_lost_rows (bs : list (list verse_values)) :
  forall c : connection,
    any_batch_lost c bs = false ->
    stored_rows c bs = concat bs /\ lost_rows c bs = [] /\
    uncommitted_rows c bs = [].
Proof.
  induction bs as [|b bs IH]; intros c H;
    cbn [stored_rows lost_rows uncommitted_rows concat].
  - repeat split.
  - cbn [any_batch_lost] in H. apply orb_false_iff in H as [Hb Hrest].
    rewrite Hb. unfold commit_failed. unfold batch_lost in Hb.
    apply orb_false_iff in Hb as [_ ->]. rewrite andb_false_r.
    destruct (IH _ Hrest) as (-> & -> & ->). repeat split.
Qed.

Lemma tafsir_field_dict (vd x : json) :
  tafsir_field vd = Ret x -> exists fields, vd = JObj fields.
Proof.
  unfold tafsir_field. destruct vd; simpl; try discriminate. eauto.
Qed.

(** The loop builds a tuple for an item exactly when the tafsir text of
    the item is a string that is not blank and that can be encoded. *)
Lemma accepts_iff_text (e : env) (m : tafsir_meta) (k : pystr) (vd : json) :
  accepts e m k vd = true <->
  exists s, tafsir_field vd = Ret (JStr s) /\ strip s <> [] /\
            encodable s = true.
Proof.
  unfold accepts, verse_tuple, calculate_data_hash, bind. split.
  - destruct (tafsir_field vd) as [[| | |s| |]|] eqn:Hf; try discriminate.
    destruct (strip s) eqn:Hs; [simpl; discriminate |].
    destruct (encodable s) eqn:He; [| simpl; discriminate].
    intros _. exists s. rewrite Hs. repeat split; [discriminate | exact He].
  - intros (s & Hf & Hs & He). rewrite Hf.
    destruct (tafsir_field_dict vd _ Hf) as (fields & ->).
    destruct (strip s); [contradiction |]. rewrite He. reflexivity.
Qed.

(** Whether the loop builds a tuple for an item depends on the tafsir
    text of the item only. *)
Lemma accepts_by_text (e : env) (m : tafsir_meta) (k k' : pystr)
    (vd vd' : json) :
  tafsir_field vd = tafsir_field vd' ->
  accepts e m k vd = accepts e m k' vd'.
Proof.
  intros Hf.
  destruct (accepts e m k vd) eqn:H1; destruct (accepts e m k' vd') eqn:H2;
    try reflexivity.
  - apply accepts_iff_text in H1 as (s & Hs & Hrest).
    rewrite Hf in Hs.
    assert (H : accepts e m k' vd' = true)
      by (apply accepts_iff_text; exists s; split; assumption).
    congruence.
  - apply accepts_iff_text in H2 as (s & Hs & Hrest).
    rewrite <- Hf in Hs.
    assert (H : accepts e m k vd = true)
      by (apply accepts_iff_text; exists s; split; assumption).
    congruence.
Qed.

(** C4, as the code has it. The import neither parses nor validates a
    verse key: whether an entry is accepted does not depend on its key.
    An entry that is accepted reaches a batch under its key, whatever
    the key is, and is in the store when its batch is kept. An entry
    that is not accepted (its text is blank, or processing it raises) is
    skipped and counted, in no batch, and the store is left alone at its
    key, while the other entries are processed: when no batch is rolled
    back and the batch size is not 0, the accepted entries are the
    imported ones and the others the skipped ones. *)
Theorem import_takes_any_key :
  forall (e : env) (batch_size : Z) (c : connection) (data : tafsir_data)
         (key : pystr) (verse_data : json),
    working c = committed c ->
    NoDup (map fst (vs data)) ->
    (key, verse_data) ∈ vs data ->
    let ts := tuples e (meta data) (vs data) in
    let bs := batches batch_size ts in
    let r := import_tafsir_verses e batch_size c data in
    (forall key' : pystr,
       accepts e (meta data) key' verse_data =
       accepts e (meta data) key verse_data) /\
    (accepts e (meta data) key verse_data = true ->
       exists t,
         verse_tuple e (meta data) key verse_data = Ret (Some t) /\
         verse_key t = key /\
         t ∈ concat bs /\
         (t ∈ stored_rows c bs ->
          columns <$> stored (fst r) key (tid (meta data)) = Some t)) /\
    (accepts e (meta data) key verse_data = false ->
       (forall t, t ∈ concat bs -> verse_key t <> key) /\
       1 <= snd (snd r) /\
       (forall edition, stored (fst r) key edition = stored c key edition)) /\
    (any_batch_lost c bs = false -> batch_size <> 0 ->
       fst (snd r) = Z.of_nat (length ts) /\
       snd (snd r) = rejected e (meta data) (vs data) /\
       fst (snd r) + snd (snd r) = Z.of_nat (length (vs data))).
Proof.
  intros e batch_size c data key verse_data Hclean Hnd Hin. cbv zeta.
  destruct (import_tafsir_verses_outcome e batch_size c data Hclean Hnd)
    as (Himp & Hskip & _ & _ & _ & Hkept & _).
  assert (Hconcat : concat (batches batch_size (tuples e (meta data) (vs data)))
                    = tuples e (meta data) (vs data)).
  { unfold batches. rewrite batches_from_concat. reflexivity. }
  split; [| split; [| split]].
  - intros key'. apply accepts_by_text. reflexivity.
  - intros Hacc. unfold accepts in Hacc.
    destruct (verse_tuple e (meta data) key verse_data) as [[t|]|ex] eqn:Hv;
      try discriminate.
    destruct (verse_tuple_key e (meta data) key verse_data t Hv) as [Hk Hid].
    exists t. split; [reflexivity |]. split; [exact Hk |]. split.
    + rewrite Hconcat.
      apply (tuples_of_accepted e (meta data) (vs data) key verse_data);
        assumption.
    + intros Hstored. rewrite <- Hk, <- Hid. apply Hkept. exact Hstored.
  - intros Hrej.
    destruct (rejected_item_outcome e batch_size c data key verse_data
                Hclean Hnd Hin Hrej) as (Hno & Hcount & Hstore).
    split; [rewrite Hconcat; exact Hno |]. split; [lia | exact Hstore].
  - intros Hok Hsize.
    destruct (no_batch_lost_rows _ _ Hok) as (Hs & Hl & Hu).
    rewrite Hs, Hu, Hconcat in Himp. rewrite Hl in Hskip.
    unfold zero_division_skips in Hskip.
    destruct (Z.eqb_spec batch_size 0) as [E | _]; [contradiction |].
    cbn [length] in Himp, Hskip.
    pose proof (tuples_rejected_length e (meta data) (vs data)).
    repeat split; lia.
Qed.

(** The theorem on ten verses of chapter 2, an entry with the key
    [two-five] and an entry with a blank text, for the entry [two-five]:
    eleven rows are imported and one is skipped. *)
Lemma import_takes_any_key_witness :
  let data := Sample.ten_and_two in
  let key := py "two-five" in
  let verse_data := Sample.entry (py "two-five") 2 5 (py "Commentary") in
  let ts := tuples Sample.env (meta data) (vs data) in
  let bs := batches 1000 ts in
  let r := import_tafsir_verses Sample.env 1000 Sample.fresh_connection data in
  (length (vs data) = 12%nat /\ snd r = (11, 1) /\
   accepts Sample.env (meta data) key verse_data = true /\
   any_batch_lost Sample.fresh_connection bs = false) /\
  ((forall key' : pystr,
      accepts Sample.env (meta data) key' verse_data =
      accepts Sample.env (meta data) key verse_data) /\
   (accepts Sample.env (meta data) key verse_data = true ->
      exists t,
        verse_tuple Sample.env (meta data) key verse_data = Ret (Some t) /\
        verse_key t = key /\
        t ∈ concat bs /\
        (t ∈ stored_rows Sample.fresh_connection bs ->
         columns <$> stored (fst r) key (tid (meta data)) = Some t)) /\
   (accepts Sample.env (meta data) key verse_data = false ->
      (forall t, t ∈ concat bs -> verse_key t <> key) /\
      1 <= snd (snd r) /\
      (forall edition,
         stored (fst r) key edition =
         stored Sample.fresh_connection key edition)) /\
   (any_batch_lost Sample.fresh_connection bs = false -> 1000 <> 0 ->
      fst (snd r) = Z.of_nat (length ts) /\
      snd (snd r) = rejected Sample.env (meta data) (vs data) /\
      fst (snd r) + snd (snd r) = Z.of_nat (length (vs data)))).
Proof.
  cbv zeta. split; [repeat split; vm_compute; reflexivity |].
  apply (import_takes_any_key Sample.env 1000 Sample.fresh_connection
           Sample.ten_and_two).
  - reflexivity.
  - apply (bool_decide_unpack _). vm_compute. exact I.
  - apply list_elem_of_In. vm_compute. tauto.
Defined.

(** C4 as stated fails: the document with ten valid keys and the key
    [two-five], which does not parse as chapter:verse, imports eleven
    rows, not ten, and the row of [two-five] is in the store. *)
Lemma malformed_key_is_imported :
  let r := import_tafsir_verses Sample.env 1000 Sample.fresh_connection
                                Sample.ten_and_one in
  map fst (vs Sample.ten_and_one) =
    [py "2:1"; py "2:2"; py "2:3"; py "2:4"; py "two-five"; py "2:5";
     py "2:6"; py "2:7"; py "2:8"; py "2:9"; py "2:10"] /\
  fst (snd r) = 11 /\
  fst (snd r) <> 10 /\
  snd (snd r) = 0 /\
  bool_decide (is_Some (stored (fst r) (py "two-five") 5000)) = true.
Proof.
  cbv zeta. split; [vm_compute; reflexivity |].
  split; [vm_compute; reflexivity |].
  split; [vm_compute; discriminate |].
  split; vm_compute; reflexivity.
Qed.

(** C9, as the code has it. The crawl validates a reference with
    [AltafsirScraper.validate_verse_reference] before it builds a URL: an
    invalid reference is reported and nothing is requested.
    [config_utils.validate_verse_reference] is a second copy over its own
    table, and the two copies agree on every input. The import applies
    neither: whether a record is accepted depends on its tafsir text
    only, so neither on its key nor on the chapter and verse numbers
    that it holds. *)
Theorem validators_agree_import_unchecked :
  (forall chapter verse : Z,
     Scraper.validate_verse_reference chapter verse =
     Config.validate_verse_reference chapter verse) /\
  (forall (o : Scraper.origin) (t : Scraper.tafsir_info) (chapter verse : Z),
     Scraper.validate_verse_reference chapter verse = true \/
     Scraper.scrape_verse_tafsir o t chapter verse =
       (None, [Scraper.Log Scraper.WARNING
                 (Scraper.InvalidVerseReference chapter verse)])) /\
  (forall (e : env) (m : tafsir_meta) (key key' : pystr)
          (verse_data verse_data' : json),
     tafsir_field verse_data = tafsir_field verse_data' ->
     accepts e m key verse_data = accepts e m key' verse_data').
Proof.
  split; [exact validators_agree |]. split; [| exact accepts_by_text].
  intros o t chapter verse. unfold Scraper.scrape_verse_tafsir.
  destruct (Scraper.validate_verse_reference chapter verse);
    [left | right]; reflexivity.
Qed.

(** The theorem on two records with the same tafsir text: one under
    the key [1:1] with the numbers 1 and 1, one under the key [999:999]
    with the numbers 999 and 999. Both are accepted. *)
Lemma validators_agree_import_unchecked_witness :
  accepts Sample.env Sample.meta (py "1:1")
          (Sample.entry (py "1:1") 1 1 (py "Commentary")) = true /\
  accepts Sample.env Sample.meta (py "1:1")
          (Sample.entry (py "1:1") 1 1 (py "Commentary")) =
  accepts Sample.env Sample.meta (py "999:999")
          (Sample.entry (py "999:999") 999 999 (py "Commentary")).
Proof.
  split; [vm_compute; reflexivity |].
  apply (proj2 (proj2 validators_agree_import_unchecked)).
  reflexivity.
Defined.

(** C9 as stated fails: the crawl's validator rejects the reference
    115:1, and the import accepts a record under the key [115:1]. *)
Lemma import_accepts_invalid_reference :
  Scraper.validate_verse_reference 115 1 = false /\
  Config.validate_verse_reference 115 1 = false /\
  accepts Sample.env Sample.meta (Scraper.verse_key_of 115 1)
          (Sample.entry (Scraper.verse_key_of 115 1) 115 1 (py "Commentary"))
    = true.
Proof. repeat split; vm_compute; reflexivity. Qed.

(** A statement that writes and its [commit]: what they leave. *)
Lemma execute_and_commit_cases (c : connection) (params : res unit)
    (statement : timestamp -> tables -> tables) :
  let r := execute_and_commit c params statement in
  let w := statement (clock c (calls c) 0%nat) (working c) in
  calls (snd r) = S (calls c) /\
  fault (snd r) = fault c /\
  clock (snd r) = clock c /\
  ((fst r = Ret tt /\ params = Ret tt /\ working (snd r) = w /\
    committed (snd r) = w) \/
   (exists ex, fst r = Raise ex /\ committed (snd r) = committed c /\
               (working (snd r) = working c \/ working (snd r) = w))).
Proof.
  unfold execute_and_commit, commit_after. cbv zeta.
  destruct params as [[]|ex].
  - case_bool_decide.
    + repeat split. right. exists DatabaseError. repeat split. left. reflexivity.
    + destruct (commit_raises (fault c (calls c))).
      * repeat split. right. exists DatabaseError. repeat split. right.
        reflexivity.
      * repeat split. left. repeat split.
  - repeat split. right. exists ex. repeat split. left. reflexivity.
Qed.

Lemma bound_str (s : pystr) : bind_str s = Ret tt -> encodable s = true.
Proof. unfold bind_str. destruct (encodable s); [reflexivity | discriminate]. Qed.

Lemma bound_int (z : Z) : bind_int z = Ret tt -> fits64 z = true.
Proof. unfold bind_int. destruct (fits64 z); [reflexivity | discriminate]. Qed.

Lemma execute_and_commit_works (c : connection) (params : res unit)
    (statement : timestamp -> tables -> tables) :
  params = Ret tt ->
  fault c (calls c) = None ->
  execute_and_commit c params statement =
    (Ret tt,
     let w := statement (clock c (calls c) 0%nat) (working c) in
     Connection w w (S (calls c)) (fault c) (clock c)).
Proof.
  intros -> Hf. unfold execute_and_commit, commit_after. rewrite Hf.
  reflexivity.
Qed.

(** [log_import_result]: it touches the log only; the entry is there and
    committed when it returns; when it raises, nothing is committed, and
    the entry is in the open transaction if it is the [commit] that
    raised. *)
Lemma log_import_result_cases (c : connection) (file_path : pystr)
    (translation_id imported skipped : Z) (status : pystr)
    (error_message : option pystr) :
  let r := log_import_result c file_path translation_id imported skipped
                             status error_message in
  let entry := LogEntry file_path translation_id imported skipped status
                        error_message in
  calls (snd r) = S (calls c) /\
  fault (snd r) = fault c /\
  clock (snd r) = clock c /\
  quran_translations (working (snd r)) = quran_translations (working c) /\
  quran_translations_seq (working (snd r)) =
    quran_translations_seq (working c) /\
  tafsir_metadata (working (snd r)) = tafsir_metadata (working c) /\
  ((fst r = Ret tt /\
    import_log (working (snd r)) = import_log (working c) ++ [entry] /\
    committed (snd r) = working (snd r) /\
    encodable file_path = true /\ fits64 translation_id = true) \/
   (exists ex, fst r = Raise ex /\ committed (snd r) = committed c /\
      (import_log (working (snd r)) = import_log (working c) \/
       import_log (working (snd r)) = import_log (working c) ++ [entry]))).
Proof.
  cbv zeta. unfold log_import_result.
  match goal with
  | |- context [execute_and_commit c ?p ?s] =>
      destruct (execute_and_commit_cases c p s)
        as (Hcalls & Hfault & Hclock & Hcases);
      set (r := execute_and_commit c p s) in *
  end.
  cbv zeta in Hcases.
  split; [exact Hcalls |]. split; [exact Hfault |]. split; [exact Hclock |].
  destruct Hcases as [(Hret & Hp & Hw & Hc) | (ex & Hraise & Hc & [Hw | Hw])];
    rewrite Hw; cbn [quran_translations quran_translations_seq tafsir_metadata
                     import_log];
    (split; [reflexivity |]); (split; [reflexivity |]);
    (split; [reflexivity |]).
  - left. split; [exact Hret |]. split; [reflexivity |].
    split; [rewrite Hc; reflexivity |].
    unfold bind in Hp.
    destruct (bind_str file_path) as [[]|] eqn:H1; [| discriminate].
    destruct (bind_int translation_id) as [[]|] eqn:H2; [| discriminate].
    split; [apply bound_str, H1 | apply bound_int, H2].
  - right. exists ex. split; [exact Hraise |]. split; [exact Hc |].
    left. reflexivity.
  - right. exists ex. split; [exact Hraise |]. split; [exact Hc |].
    right. reflexivity.
Qed.

Lemma log_import_result_works (c : connection) (file_path : pystr)
    (translation_id imported skipped : Z) (status : pystr)
    (error_message : option pystr) :
  encodable file_path = true ->
  fits64 translation_id = true ->
  encodable status = true ->
  fault c (calls c) = None ->
  log_import_result c file_path translation_id imported skipped status
                    error_message =
    (Ret tt,
     let w := working c in
     let w' :=
       Tables (quran_translations w) (quran_translations_seq w)
              (tafsir_metadata w)
              (import_log w ++
               [LogEntry file_path translation_id imported skipped status
                         error_message]) in
     Connection w' w' (S (calls c)) (fault c) (clock c)).
Proof.
  intros Hpath Hid Hstatus Hf. unfold log_import_result.
  rewrite execute_and_commit_works; [reflexivity | | exact Hf].
  unfold bind, bind_str, bind_int. rewrite Hpath, Hid, Hstatus. reflexivity.
Qed.

(** [check_existing_tafsir] changes nothing in the store. *)
Lemma check_existing_tafsir_cases (c : connection) (translation_id : Z) :
  let r := check_existing_tafsir c translation_id in
  snd r = advance c (working c) /\
  ((fst r =
      Ret (bool_decide
             (is_Some (tafsir_metadata (working c) !! translation_id))) /\
    fits64 translation_id = true)
   \/ exists ex, fst r = Raise ex).
Proof.
  cbv zeta. unfold check_existing_tafsir.
  destruct (bind_int translation_id) as [[]|] eqn:Hb;
    [| split; [reflexivity | right; eauto]].
  case_bool_decide; split; try reflexivity; [right; eauto |].
  left. split; [reflexivity | apply bound_int, Hb].
Qed.

Lemma check_existing_tafsir_works (c : connection) (translation_id : Z) :
  fits64 translation_id = true ->
  fault c (calls c) = None ->
  check_existing_tafsir c translation_id =
    (Ret (bool_decide (is_Some (tafsir_metadata (working c) !! translation_id))),
     advance c (working c)).
Proof.
  intros Hid Hf. unfold check_existing_tafsir, bind_int. rewrite Hid, Hf.
  reflexivity.
Qed.

(** [import_tafsir_file] on a valid document whose edition has a
    metadata row, without [force_reimport]: the check, then the log
    entry. *)
Lemma import_tafsir_file_gate (e : env) (i : importer) (file_path : pystr)
    (data : tafsir_data) :
  validate_tafsir_file e file_path = Some data ->
  is_Some (tafsir_metadata (working (connection_ i)) !! tid (meta data)) ->
  let checked := check_existing_tafsir (connection_ i) (tid (meta data)) in
  import_tafsir_file e i file_path false =
    match fst checked with
    | Raise ex => (Raise ex, set_connection i (snd checked))
    | Ret _ =>
        let logged :=
          log_import_result (snd checked) file_path (tid (meta data)) 0 0
                            (py "skipped") (Some (py "Already imported")) in
        (match fst logged with
         | Ret _ => Ret true
         | Raise ex => Raise ex
         end,
         set_connection i (snd logged))
    end.
Proof.
  intros Hvalid Hrow. cbv zeta. unfold import_tafsir_file. rewrite Hvalid.
  unfold and_then, on_store, ret. cbn [fst snd].
  destruct (check_existing_tafsir_cases (connection_ i) (tid (meta data)))
    as [Hsnd [[Hret _] | (ex & Hraise)]].
  - rewrite Hret. rewrite bool_decide_eq_true_2 by exact Hrow.
    cbn [connection_ set_connection].
    destruct (fst (log_import_result _ _ _ _ _ _ _)); reflexivity.
  - rewrite Hraise. reflexivity.
Qed.

(** What the gate leaves, whatever the store does, and what it returns
    when the store works. *)
Lemma gate_skips (e : env) (i : importer) (file_path : pystr)
    (data : tafsir_data) :
  validate_tafsir_file e file_path = Some data ->
  is_Some (tafsir_metadata (working (connection_ i)) !! tid (meta data)) ->
  let r := import_tafsir_file e i file_path false in
  let before := working (connection_ i) in
  let after := working (connection_ (snd r)) in
  quran_translations after = quran_translations before /\
  tafsir_metadata after = tafsir_metadata before /\
  stats (snd r) = stats i /\
  fst r <> Ret false /\
  (fits64 (tid (meta data)) = true ->
   encodable file_path = true ->
   store_works (connection_ i) 2 ->
   fst r = Ret true /\
   import_log after =
     import_log before ++ [skipped_entry file_path (tid (meta data))] /\
   committed (connection_ (snd r)) = after).
Proof.
  intros Hvalid Hrow. cbv zeta.
  rewrite (import_tafsir_file_gate e i file_path data Hvalid Hrow). cbv zeta.
  destruct (check_existing_tafsir_cases (connection_ i) (tid (meta data)))
    as [Hsnd Hfst].
  split; [| split; [| split; [| split]]].
  - destruct (fst (check_existing_tafsir _ _)); cbn [snd connection_ set_connection].
    + destruct (log_import_result_cases
                  (snd (check_existing_tafsir (connection_ i) (tid (meta data))))
                  file_path (tid (meta data)) 0 0 (py "skipped")
                  (Some (py "Already imported"))) as (_ & _ & _ & Hq & _).
      rewrite Hq, Hsnd. reflexivity.
    + rewrite Hsnd. reflexivity.
  - destruct (fst (check_existing_tafsir _ _)); cbn [snd connection_ set_connection].
    + destruct (log_import_result_cases
                  (snd (check_existing_tafsir (connection_ i) (tid (meta data))))
                  file_path (tid (meta data)) 0 0 (py "skipped")
                  (Some (py "Already imported"))) as (_ & _ & _ & _ & _ & Hm & _).
      rewrite Hm, Hsnd. reflexivity.
    + rewrite Hsnd. reflexivity.
  - destruct (fst (check_existing_tafsir _ _)); reflexivity.
  - destruct (fst (check_existing_tafsir _ _)); cbn [fst]; [| discriminate].
    destruct (fst (log_import_result _ _ _ _ _ _ _)); discriminate.
  - intros Hid Hpath Hstore.
    assert (H0 : fault (connection_ i) (calls (connection_ i)) = None).
    { rewrite <- (Nat.add_0_r (calls (connection_ i))). apply Hstore. lia. }
    assert (H1 : fault (connection_ i) (S (calls (connection_ i))) = None).
    { rewrite <- Nat.add_1_r. apply Hstore. lia. }
    rewrite (check_existing_tafsir_works _ _ Hid H0). cbn [fst snd].
    rewrite log_import_result_works;
      [| exact Hpath | exact Hid | reflexivity | exact H1].
    cbn [fst snd connection_ set_connection working committed import_log].
    repeat split.
Qed.

(** C1, as the code has it. When the edition of a valid document
    already has a metadata row and [force_reimport] is false,
    [import_tafsir_file] skips the whole document: whatever the store
    does, the verse table, the metadata table and the statistics are
    unchanged and the call does not return [False]; and when the store
    works for the check and the log entry, whose parameters can be
    bound, the call returns [True] and the one outcome logged, and
    committed, has the status skipped with 0 verses imported and 0
    verses skipped. *)
Theorem existing_edition_is_skipped :
  forall (e : env) (i : importer) (file_path : pystr) (data : tafsir_data),
    validate_tafsir_file e file_path = Some data ->
    is_Some (tafsir_metadata (working (connection_ i)) !! tid (meta data)) ->
    let r := import_tafsir_file e i file_path false in
    let before := working (connection_ i) in
    let after := working (connection_ (snd r)) in
    quran_translations after = quran_translations before /\
    tafsir_metadata after = tafsir_metadata before /\
    stats (snd r) = stats i /\
    fst r <> Ret false /\
    (fits64 (tid (meta data)) = true ->
     encodable file_path = true ->
     store_works (connection_ i) 2 ->
     fst r = Ret true /\
     import_log after =
       import_log before ++
       [LogEntry file_path (tid (meta data)) 0 0 (py "skipped")
                 (Some (py "Already imported"))] /\
     committed (connection_ (snd r)) = after).
Proof.
  intros e i file_path data Hvalid Hrow.
  exact (gate_skips e i file_path data Hvalid Hrow).
Qed.

(** The theorem on the three-verse document imported a second time: the
    first run reports 3 imported and 0 skipped, the second run logs
    status skipped with 0 and 0, and the store still holds 3 rows. *)
Lemma existing_edition_is_skipped_witness :
  let r := Sample.second_run in
  let before := working (connection_ (snd Sample.first_run)) in
  let after := working (connection_ (snd r)) in
  (import_log before =
     [LogEntry Sample.path 5000 3 0 (py "completed") None] /\
   size (quran_translations before) = 3%nat /\
   size (quran_translations after) = 3%nat) /\
  (fst r = Ret true /\
   quran_translations after = quran_translations before /\
   tafsir_metadata after = tafsir_metadata before /\
   import_log after =
     import_log before ++
     [LogEntry Sample.path 5000 0 0 (py "skipped")
               (Some (py "Already imported"))] /\
   committed (connection_ (snd r)) = after /\
   stats (snd r) = stats (snd Sample.first_run)).
Proof.
  cbv zeta. split; [repeat split; vm_compute; reflexivity |].
  destruct (existing_edition_is_skipped Sample.env (snd Sample.first_run)
              Sample.path (TafsirData Sample.meta Sample.three_verses))
    as (Hq & Hm & Hs & _ & Hworks).
  - vm_compute. reflexivity.
  - apply (bool_decide_unpack _). vm_compute. exact I.
  - destruct Hworks as (Hr & Hl & Hc).
    + reflexivity.
    + reflexivity.
    + intros k Hk. reflexivity.
    + split; [exact Hr |]. split; [exact Hq |]. split; [exact Hm |].
      split; [exact Hl |]. split; [exact Hc | exact Hs].
Defined.

(** C1 as stated fails: in the three-verse scenario the second run
    reports 0 skipped verses, not 3. *)
Lemma second_run_reports_no_skipped_verse :
  fst Sample.first_run = Ret true /\
  fst Sample.second_run = Ret true /\
  map (fun l => (verses_imported l, verses_skipped l, status l))
      (import_log (committed (connection_ (snd Sample.second_run)))) =
    [(3, 0, py "completed"); (0, 0, py "skipped")] /\
  last (map verses_skipped
            (import_log (committed (connection_ (snd Sample.second_run)))))
    <> Some 3 /\
  skipped_verses (stats (snd Sample.second_run)) = 0 /\
  size (quran_translations (committed (connection_ (snd Sample.second_run))))
    = 3%nat.
Proof.
  split; [vm_compute; reflexivity |].
  split; [vm_compute; reflexivity |].
  split; [vm_compute; reflexivity |].
  split; [vm_compute; discriminate |].
  split; vm_compute; reflexivity.
Qed.

End Loader.
(** * Further properties *)

(** ** The fetcher: bounds, delays, backoff *)

Section FetcherMore.
Import Py Scraper.

Lemma backoffs_app (tr1 tr2 : list event) :
  backoffs (tr1 ++ tr2) = backoffs tr1 ++ backoffs tr2.
Proof.
  induction tr1 as [|ev tr1 IH]; simpl; [reflexivity |].
  destruct ev; simpl; rewrite IH; reflexivity.
Qed.

Lemma fetch_attempts_bounded (o : origin) (u : target) (m : Z) (n : nat) :
  forall a : Z,
    0 <= gets (snd (fetch_attempts o u m a n)) <= Z.of_nat n /\
    polite (snd (fetch_attempts o u m a n)) = true.
Proof.
  induction n as [|n IH]; intros a.
  - simpl. split; [lia | reflexivity].
  - destruct (IH (a + 1)) as [Hg Hp].
    assert (Hstep : forall (l : level) (msg : message),
              let tr := [Sleep; Get u; Log l msg] ++
                        (if a <? m - 1 then [Backoff (2 ^ a)] else []) ++
                        snd (fetch_attempts o u m (a + 1) n) in
              0 <= gets tr <= Z.of_nat (S n) /\ polite tr = true).
    { intros l msg. cbv zeta. rewrite !gets_app. cbn [app polite].
      destruct (a <? m - 1); cbn [app polite gets is_get];
        (split; [lia | exact Hp]). }
    cbn [fetch_attempts].
    destruct (respond o u a) as [status text| |]; cbn [fst snd].
    + destruct (status =? 200); [destruct text |].
      * cbn. split; [lia | reflexivity].
      * apply Hstep.
      * destruct (status =? 404).
        -- cbn. split; [lia | reflexivity].
        -- apply Hstep.
    + apply Hstep.
    + apply Hstep.
Qed.

(** X1. Whatever the origin answers, [fetch_with_retry] makes at most
    [max_retries] requests (none when [max_retries <= 0]), and every
    request comes right after the rate-limit sleep, retries included. *)
Theorem fetch_requests_bounded_and_polite :
  forall (o : origin) (u : target) (max_retries : Z),
    let tr := snd (fetch_with_retry o u max_retries) in
    0 <= gets tr <= Z.max 0 max_retries /\ polite tr = true.
Proof.
  intros o u max_retries. cbv zeta. unfold fetch_with_retry.
  destruct (fetch_attempts_bounded o u max_retries (Z.to_nat max_retries) 0)
    as [Hg Hp].
  split; [lia | exact Hp].
Qed.

Lemma not_transient_outcome (o : origin) (u : target) (m a : Z) (n : nat) :
  transient (respond o u a) = false ->
  fst (fetch_attempts o u m a (S n)) = readable (respond o u a) /\
  gets (snd (fetch_attempts o u m a (S n))) = 1 /\
  backoffs (snd (fetch_attempts o u m a (S n))) = [].
Proof.
  intros Ht. cbn [fetch_attempts]. unfold transient, readable in *.
  destruct (respond o u a) as [status text| |]; try discriminate.
  destruct (status =? 200).
  - destruct text; [| discriminate]. repeat split.
  - destruct (status =? 404); [| discriminate].
    destruct text; repeat split.
Qed.

Lemma fetch_attempts_retry (o : origin) (u : target) (m a : Z) (n : nat) :
  transient (respond o u a) = true ->
  exists (l : level) (msg : message),
    fetch_attempts o u m a (S n) =
      (fst (fetch_attempts o u m (a + 1) n),
       [Sleep; Get u; Log l msg] ++
       (if a <? m - 1 then [Backoff (2 ^ a)] else []) ++
       snd (fetch_attempts o u m (a + 1) n)).
Proof.
  intros Ht. cbn [fetch_attempts]. unfold transient in Ht.
  destruct (respond o u a) as [status text| |].
  - destruct (status =? 200).
    + destruct text; [discriminate |]. eauto.
    + destruct (status =? 404); [discriminate |]. eauto.
  - eauto.
  - eauto.
Qed.

Lemma fetch_attempts_schedule (o : origin) (u : target) (m : Z) (k : nat) :
  forall (a : Z) (n : nat),
    a + Z.of_nat n = m ->
    (k <= n)%nat ->
    (forall j, a <= j < a + Z.of_nat k -> transient (respond o u j) = true) ->
    ((k < n)%nat -> transient (respond o u (a + Z.of_nat k)) = false) ->
    let r := fetch_attempts o u m a n in
    fst r =
      (if bool_decide (k < n)%nat then readable (respond o u (a + Z.of_nat k))
       else None) /\
    gets (snd r) = Z.min (Z.of_nat k + 1) (Z.of_nat n) /\
    backoffs (snd r) =
      map (Z.pow 2) (seqZ a (Z.min (Z.of_nat k) (Z.of_nat n - 1))).
Proof.
  induction k as [|k IH]; intros a n Ham Hkn Htr Hend.
  - destruct n as [|n].
    + simpl. repeat split.
    + assert (Hnt : transient (respond o u a) = false).
      { rewrite <- (Z.add_0_r a). apply Hend. lia. }
      destruct (not_transient_outcome o u m a n Hnt) as (Hr & Hg & Hb).
      cbv zeta. rewrite Hr, Hg, Hb, Z.add_0_r.
      rewrite bool_decide_eq_true_2 by lia.
      replace (Z.min (Z.of_nat 0) (Z.of_nat (S n) - 1)) with 0 by lia.
      repeat split. lia.
  - destruct n as [|n]; [lia |].
    destruct (fetch_attempts_retry o u m a n) as (l & msg & Heq).
    { apply Htr. lia. }
    specialize (IH (a + 1) n).
    destruct IH as (Hres & Hgets & Hbk).
    { lia. }
    { lia. }
    { intros j Hj. apply Htr. lia. }
    { intros Hlt. replace (a + 1 + Z.of_nat k) with (a + Z.of_nat (S k)) by lia.
      apply Hend. lia. }
    cbv zeta. rewrite Heq. cbn [fst snd].
    split; [| split].
    + rewrite Hres.
      replace (a + 1 + Z.of_nat k) with (a + Z.of_nat (S k)) by lia.
      repeat case_bool_decide; try reflexivity; lia.
    + rewrite !gets_app, Hgets.
      destruct (a <? m - 1); cbn [gets is_get]; lia.
    + rewrite !backoffs_app, Hbk.
      destruct (Z.ltb_spec a (m - 1)) as [Hlt | Hge]; cbn [backoffs app].
      * replace (Z.min (Z.of_nat (S k)) (Z.of_nat (S n) - 1))
          with (Z.succ (Z.min (Z.of_nat k) (Z.of_nat n - 1))) by lia.
        rewrite (seqZ_cons a) by lia. cbn [map].
        rewrite Z.pred_succ. reflexivity.
      * assert (n = 0%nat) by lia. subst n.
        assert (k = 0%nat) by lia. subst k. reflexivity.
Qed.

(** X2. When the attempts before attempt [k] fail transiently and
    attempt [k] does not (a readable 200 or a 404), [fetch_with_retry]
    makes [k + 1] requests and returns the body of the 200, or [None]
    for the 404; when all [max_retries] attempts fail transiently it
    returns [None]. The waits between attempts are 1, 2, 4, ... seconds,
    one after each failed attempt except the last possible one. *)
Theorem fetch_outcome_and_backoff :
  forall (o : origin) (u : target) (max_retries k : Z),
    0 <= k <= max_retries ->
    (forall j, 0 <= j < k -> transient (respond o u j) = true) ->
    (k < max_retries -> transient (respond o u k) = false) ->
    let r := fetch_with_retry o u max_retries in
    fst r = (if k <? max_retries then readable (respond o u k) else None) /\
    gets (snd r) = Z.min (k + 1) max_retries /\
    backoffs (snd r) = map (Z.pow 2) (seqZ 0 (Z.min k (max_retries - 1))).
Proof.
  intros o u max_retries k Hk Htr Hend.
  pose proof (fetch_attempts_schedule o u max_retries (Z.to_nat k) 0
                (Z.to_nat max_retries)) as H.
  rewrite !Z2Nat.id in H by lia.
  destruct H as (Hres & Hgets & Hbk).
  - lia.
  - lia.
  - intros j Hj. apply Htr. lia.
  - intros Hlt. apply Hend. lia.
  - unfold fetch_with_retry. cbv zeta. rewrite Hres, Hgets, Hbk.
    cbn [Z.add]. split; [| split; reflexivity].
    case_bool_decide; destruct (Z.ltb_spec k max_retries); try reflexivity; lia.
Qed.

(** The theorem on an origin that answers 500 twice, then 200: three
    requests, waits of 1 and 2 seconds, the page returned. *)
Lemma fetch_outcome_and_backoff_witness :
  let r := fetch_with_retry Cases.flaky Sample.some_url 3 in
  fst r = Some (py "page") /\
  gets (snd r) = 3 /\
  backoffs (snd r) = [1; 2].
Proof.
  apply (fetch_outcome_and_backoff Cases.flaky Sample.some_url 3 2).
  - lia.
  - intros j Hj. simpl. destruct (Z.ltb_spec j 2); [reflexivity | lia].
  - intros _. reflexivity.
Defined.

End FetcherMore.

(** ** The crawl: what a document holds, what the progress records *)

Section Crawl.
Import Py Scraper.

Lemma dict_set_items {V} (d : list (pystr * V)) (key : pystr) (value : V)
    (k : pystr) (v : V) :
  (k, v) ∈ dict_set d key value -> (k, v) ∈ d \/ (k = key /\ v = value).
Proof.
  induction d as [|[k0 v0] d IH]; simpl.
  - intros H. apply list_elem_of_singleton in H. injection H as -> ->.
    right. split; reflexivity.
  - case_decide as Hk.
    + intros H. apply elem_of_cons in H as [E | H].
      * injection E as -> ->. right. split; [exact Hk | reflexivity].
      * left. right. exact H.
    + intros H. apply elem_of_cons in H as [E | H].
      * left. rewrite E. left.
      * destruct (IH H) as [Hin | Heq]; [left; right; exact Hin | right; exact Heq].
Qed.

Lemma dict_update_items {V} (other : list (pystr * V)) :
  forall (d : list (pystr * V)) (k : pystr) (v : V),
    (k, v) ∈ dict_update d other -> (k, v) ∈ d \/ (k, v) ∈ other.
Proof.
  unfold dict_update.
  induction other as [|[k0 v0] other IH]; intros d k v; simpl.
  - intros H. left. exact H.
  - intros H. apply IH in H as [H | H].
    + apply dict_set_items in H as [H | [-> ->]].
      * left. exact H.
      * right. left.
    + right. right. exact H.
Qed.

Lemma scrape_verse_result (o : origin) (t : tafsir_info) (chapter verse : Z)
    (d : json) :
  fst (scrape_verse_tafsir o t chapter verse) = Some d ->
  exists text,
    d = verse_dict t chapter verse text /\
    validate_verse_reference chapter verse = true /\
    text <> [].
Proof.
  unfold scrape_verse_tafsir.
  destruct (validate_verse_reference chapter verse); [| discriminate].
  cbn [negb].
  destruct (fst (fetch_with_retry o (VerseUrl (ti_url t) chapter verse) 3))
    as [content|]; [| discriminate].
  destruct (negb (truthy content)); [discriminate |].
  destruct (tafsir_div_text o content) as [text|e]; [| discriminate].
  destruct text as [|ch text]; [discriminate |].
  cbn [truthy fst]. intros H. injection H as <-.
  exists (ch :: text). repeat split. discriminate.
Qed.

Lemma scrape_chapter_items (o : origin) (t : tafsir_info) (chapter : Z)
    (item : pystr * json) :
  item ∈ fst (scrape_chapter o t chapter) ->
  scraped_item t chapter chapter item.
Proof.
  unfold scrape_chapter.
  destruct (QURAN_CHAPTERS !! chapter) as [[name verse_count]|];
    [| intros H; inversion H].
  cbn [fst]. generalize (seqZ 1 verse_count). intros verses.
  assert (Hacc : forall it : pystr * json,
            it ∈ @nil (pystr * json) -> scraped_item t chapter chapter it).
  { intros it Hit. inversion Hit. }
  revert Hacc. generalize (@nil (pystr * json)).
  induction verses as [|verse verses IH]; intros acc Hacc; simpl.
  - apply Hacc.
  - apply IH. intros [k v] Hin.
    destruct (fst (scrape_verse_tafsir o t chapter verse)) as [d|] eqn:Hd;
      [| apply Hacc; exact Hin].
    apply dict_set_items in Hin as [Hin | [-> ->]]; [apply Hacc; exact Hin |].
    destruct (scrape_verse_result o t chapter verse d Hd) as (text & -> & Hv & Ht).
    exists chapter, verse, text. repeat split; try assumption; lia.
Qed.

Lemma save_progress_keeps (s : scraper) :
  progress_data (snd (save_progress s)) = progress_data s /\
  saved (snd (save_progress s)) = saved s /\
  on_write (progress_file (snd (save_progress s))) = on_write (progress_file s) /\
  (on_write (progress_file s) = Writes -> synced (snd (save_progress s))).
Proof.
  unfold save_progress, synced, load_progress, read_if_exists, write_json.
  destruct (on_write (progress_file s)) eqn:Hw; cbn; rewrite ?Hw;
    repeat split; try reflexivity; discriminate.
Qed.

(** What one iteration of the chapter loop does to the verses gathered
    and to the scraper. *)
Lemma scrape_chapter_step_keeps (o : origin) (t : tafsir_info) (chapter : Z)
    (s : scraper) (all_verses : list (pystr * json)) :
  let r := scrape_chapter_step o t (s, all_verses) chapter in
  (forall it, it ∈ snd r -> it ∈ all_verses \/ scraped_item t chapter chapter it) /\
  completed_tafasir (progress_data (fst r)) = completed_tafasir (progress_data s) /\
  current_tafsir (progress_data (fst r)) = current_tafsir (progress_data s) /\
  chapter ∈ default [] (completed_chapters (progress_data (fst r))) /\
  (forall c, c ∈ default [] (completed_chapters (progress_data s)) ->
             c ∈ default [] (completed_chapters (progress_data (fst r)))) /\
  saved (fst r) = saved s /\
  on_write (progress_file (fst r)) = on_write (progress_file s) /\
  (on_write (progress_file s) = Writes -> synced s -> synced (fst r)).
Proof.
  cbv zeta. unfold scrape_chapter_step. cbn [fst snd].
  case_bool_decide as Hin.
  - cbn [fst snd emit progress_data saved progress_file].
    repeat split; try reflexivity; try assumption.
    + intros it Hit. left. exact Hit.
    + intros c Hc. exact Hc.
    + intros _ Hs. exact Hs.
  - set (s1 := set_progress s _).
    destruct (save_progress_keeps s1) as (Hp1 & Hs1 & Hw1 & _).
    set (s2 := snd (save_progress s1)) in *.
    set (s3 := emit s2 (snd (scrape_chapter o t chapter))).
    set (s4 := set_progress s3 _).
    destruct (save_progress_keeps s4) as (Hp4 & Hs4 & Hw4 & Hsync4).
    cbn [fst snd].
    assert (Hp3 : progress_data s3 = progress_data s1) by exact Hp1.
    repeat split.
    + intros [k v] Hit. apply dict_update_items in Hit as [Hit | Hit].
      * left. exact Hit.
      * right. apply scrape_chapter_items in Hit. exact Hit.
    + rewrite Hp4. subst s4. cbn [progress_data set_progress completed_tafasir].
      rewrite Hp3. reflexivity.
    + rewrite Hp4. subst s4. cbn [progress_data set_progress current_tafsir].
      rewrite Hp3. reflexivity.
    + rewrite Hp4. subst s4.
      cbn [progress_data set_progress completed_chapters default].
      apply elem_of_app. right. left.
    + intros c Hc. rewrite Hp4. subst s4.
      cbn [progress_data set_progress completed_chapters default].
      rewrite Hp3. apply elem_of_app. left. exact Hc.
    + rewrite Hs4. subst s4 s3. cbn [saved set_progress emit]. exact Hs1.
    + rewrite Hw4. subst s4 s3. cbn [progress_file set_progress emit].
      exact Hw1.
    + intros Hw _. apply Hsync4. subst s4 s3.
      cbn [progress_file set_progress emit]. rewrite Hw1. exact Hw.
Qed.

Lemma scrape_chapters_keep (o : origin) (t : tafsir_info) (chapters : list Z) :
  forall (s : scraper) (all_verses : list (pystr * json)),
    let r := fold_left (scrape_chapter_step o t) chapters (s, all_verses) in
    (forall it, it ∈ snd r ->
       it ∈ all_verses \/
       exists c, c ∈ chapters /\ scraped_item t c c it) /\
    completed_tafasir (progress_data (fst r)) = completed_tafasir (progress_data s) /\
    current_tafsir (progress_data (fst r)) = current_tafsir (progress_data s) /\
    (forall c, c ∈ chapters \/ c ∈ default [] (completed_chapters (progress_data s)) ->
               c ∈ default [] (completed_chapters (progress_data (fst r)))) /\
    saved (fst r) = saved s /\
    on_write (progress_file (fst r)) = on_write (progress_file s) /\
    (on_write (progress_file s) = Writes -> synced s -> synced (fst r)).
Proof.
  induction chapters as [|chapter chapters IH]; intros s all_verses.
  - cbn [fold_left fst snd]. repeat split; try reflexivity.
    + intros it Hit. left. exact Hit.
    + intros c [Hc | Hc]; [inversion Hc | exact Hc].
    + intros _ Hs. exact Hs.
  - cbn [fold_left].
    pose proof (scrape_chapter_step_keeps o t chapter s all_verses) as Hstep.
    cbv zeta in Hstep.
    destruct (scrape_chapter_step o t (s, all_verses) chapter) as [s1 vs1].
    cbn [fst snd] in Hstep.
    destruct Hstep as (Hi1 & Ht1 & Hc1 & Hch1 & Hk1 & Hs1 & Hw1 & Hy1).
    specialize (IH s1 vs1). cbv zeta in IH |- *.
    destruct IH as (Hi & Ht & Hc & Hk & Hs & Hw & Hy).
    repeat split.
    + intros it Hit. destruct (Hi it Hit) as [Hin | (c & Hcin & Hit')].
      * destruct (Hi1 it Hin) as [Hin' | Hit']; [left; exact Hin' |].
        right. exists chapter. split; [left | exact Hit'].
      * right. exists c. split; [right; exact Hcin | exact Hit'].
    + rewrite Ht. exact Ht1.
    + rewrite Hc. exact Hc1.
    + intros c [Hcin | Hcin]; apply Hk.
      * apply elem_of_cons in Hcin as [-> | Hcin]; [right; exact Hch1 | left; exact Hcin].
      * right. apply Hk1. exact Hcin.
    + rewrite Hs. exact Hs1.
    + rewrite Hw. exact Hw1.
    + intros Hwr Hsy. apply Hy; [rewrite Hw1; exact Hwr | apply Hy1; assumption].
Qed.

(** X3. Every item of the document that [scrape_complete_tafsir]
    returns has a key [chapter:verse] that the validator accepts, for a
    chapter of the range asked for, and holds the verse dict of that
    reference with a non-empty text; the coverage recorded in the
    metadata is the number of items, and the chapter table has its 114
    entries however many chapters were scraped. *)
Theorem scraped_document_is_well_formed :
  forall (o : origin) (s : scraper) (t : tafsir_info)
         (start_chapter end_chapter : Z),
    let doc := fst (scrape_complete_tafsir o s t start_chapter end_chapter) in
    (forall item, item ∈ doc_vs doc ->
       scraped_item t start_chapter end_chapter item) /\
    coverage_verses (doc_meta doc) = Z.of_nat (length (doc_vs doc)) /\
    tid (doc_meta doc) = ti_id t /\
    length (doc_chs doc) = 114%nat.
Proof.
  intros o s t start_chapter end_chapter. cbv zeta.
  unfold scrape_complete_tafsir. cbn [fst doc_vs doc_meta doc_chs coverage_verses tid].
  repeat split.
  intros item Hitem.
  destruct (scrape_chapters_keep o t
              (seqZ start_chapter (end_chapter + 1 - start_chapter)) s [])
    as (Hi & _).
  destruct (Hi item Hitem) as [Hnil | (c & Hc & Hit)]; [inversion Hnil |].
  apply elem_of_seqZ in Hc.
  destruct Hit as (chapter & verse & text & Hk & Hv & Hval & Htext & Hrange).
  exists chapter, verse, text. repeat split; try assumption; lia.
Qed.

(** X4. After [scrape_complete_tafsir], every chapter of the range asked
    for is recorded as completed, the chapters recorded before are still
    recorded, and the list of completed editions and the current edition
    are untouched. *)
Theorem scrape_records_every_chapter :
  forall (o : origin) (s : scraper) (t : tafsir_info)
         (start_chapter end_chapter : Z),
    let s' := snd (scrape_complete_tafsir o s t start_chapter end_chapter) in
    (forall c, start_chapter <= c <= end_chapter ->
       c ∈ default [] (completed_chapters (progress_data s'))) /\
    (forall c, c ∈ default [] (completed_chapters (progress_data s)) ->
       c ∈ default [] (completed_chapters (progress_data s'))) /\
    completed_tafasir (progress_data s') = completed_tafasir (progress_data s) /\
    current_tafsir (progress_data s') = current_tafsir (progress_data s).
Proof.
  intros o s t start_chapter end_chapter. cbv zeta.
  unfold scrape_complete_tafsir. cbn [snd].
  destruct (scrape_chapters_keep o t
              (seqZ start_chapter (end_chapter + 1 - start_chapter)) s [])
    as (_ & Ht & Hc & Hk & _).
  repeat split; try assumption.
  - intros c Hc'. apply Hk. left. apply elem_of_seqZ. lia.
  - intros c Hc'. apply Hk. right. exact Hc'.
Qed.

Lemma init_synced (d : disk progress) :
  synced (init d) /\
  progress_file (init d) = d /\
  saved (init d) = [] /\
  Forall (fun ev => verse_request ev = false) (trace (init d)).
Proof.
  unfold synced, init, load_progress, read_if_exists.
  destruct (file d) eqn:Hf; cbn; rewrite ?Hf; cbn;
    (split; [reflexivity |]); (split; [reflexivity |]);
    (split; [reflexivity |]); repeat constructor.
Qed.

(** One iteration of the edition loop: the edition ends up completed,
    completed editions stay so, and a document is saved exactly when the
    edition was not completed before. *)
Lemma run_tafsir_keeps (o : origin) (s : scraper) (t : tafsir_info) :
  let s' := run_tafsir o s t in
  ti_id t ∈ default [] (completed_tafasir (progress_data s')) /\
  (forall i, i ∈ default [] (completed_tafasir (progress_data s)) ->
             i ∈ default [] (completed_tafasir (progress_data s'))) /\
  on_write (progress_file s') = on_write (progress_file s) /\
  (on_write (progress_file s) = Writes -> synced s -> synced s') /\
  (if bool_decide (ti_id t ∈ default [] (completed_tafasir (progress_data s)))
   then s' = emit s [Log INFO (SkippingCompletedTafsir (ti_name t))]
   else exists doc, saved s' = saved s ++ [doc] /\
                    tid (doc_meta doc) = ti_id t /\
                    lang (doc_meta doc) = ti_language t).
Proof.
  cbv zeta. unfold run_tafsir.
  case_bool_decide as Hin.
  - cbn [emit progress_data progress_file]. repeat split; try assumption.
    + intros i Hi. exact Hi.
    + intros _ Hs. exact Hs.
  - set (s1 := set_progress s _).
    destruct (save_progress_keeps s1) as (Hp1 & Hs1 & Hw1 & _).
    set (s2 := snd (save_progress s1)) in *.
    pose proof (scrape_chapters_keep o t (seqZ 1 (114 + 1 - 1)) s2 []) as Hk.
    cbv zeta in Hk. destruct Hk as (_ & Ht3 & _ & _ & Hs3 & Hw3 & _).
    unfold scrape_complete_tafsir. cbn [fst snd].
    set (s3 := fst (fold_left (scrape_chapter_step o t) (seqZ 1 (114 + 1 - 1))
                              (s2, []))) in *.
    set (s4 := ScraperState (progress_data s3) (progress_file s3) (trace s3) _).
    set (s5 := set_progress s4 _).
    destruct (save_progress_keeps s5) as (Hp5 & Hs5 & Hw5 & Hy5).
    assert (Hc3 : completed_tafasir (progress_data s3) =
                  completed_tafasir (progress_data s)).
    { rewrite Ht3, Hp1. reflexivity. }
    repeat split.
    + rewrite Hp5. subst s5 s4.
      cbn [progress_data set_progress completed_tafasir default].
      apply elem_of_app. right. left.
    + intros i Hi. rewrite Hp5. subst s5 s4.
      cbn [progress_data set_progress completed_tafasir default].
      rewrite Hc3. apply elem_of_app. left. exact Hi.
    + rewrite Hw5. subst s5 s4. cbn [progress_file set_progress].
      rewrite Hw3. exact Hw1.
    + intros Hw _. apply Hy5. subst s5 s4. cbn [progress_file set_progress].
      rewrite Hw3, Hw1. exact Hw.
    + eexists. split; [| split].
      * rewrite Hs5. subst s5 s4. cbn [saved set_progress].
        rewrite Hs3, Hs1. reflexivity.
      * reflexivity.
      * reflexivity.
Qed.

Lemma run_editions_keep (o : origin) (available : list tafsir_info) :
  forall s : scraper,
    let s' := fold_left (run_tafsir o) available s in
    (forall i, (exists t, t ∈ available /\ ti_id t = i) \/
               i ∈ default [] (completed_tafasir (progress_data s)) ->
               i ∈ default [] (completed_tafasir (progress_data s'))) /\
    on_write (progress_file s') = on_write (progress_file s) /\
    (on_write (progress_file s) = Writes -> synced s -> synced s') /\
    exists docs,
      saved s' = saved s ++ docs /\
      forall doc, doc ∈ docs ->
        exists t, t ∈ available /\
                  tid (doc_meta doc) = ti_id t /\
                  lang (doc_meta doc) = ti_language t /\
                  ti_id t ∉ default [] (completed_tafasir (progress_data s)).
Proof.
  induction available as [|t available IH]; intros s.
  - cbn [fold_left]. repeat split.
    + intros i [(t & Ht & _) | Hi]; [inversion Ht | exact Hi].
    + intros _ Hs. exact Hs.
    + exists []. rewrite app_nil_r. split; [reflexivity |].
      intros doc Hdoc. inversion Hdoc.
  - cbn [fold_left].
    pose proof (run_tafsir_keeps o s t) as Hstep. cbv zeta in Hstep.
    destruct Hstep as (Hid & Hkeep & Hw1 & Hy1 & Hdoc1).
    specialize (IH (run_tafsir o s t)). cbv zeta in IH |- *.
    destruct IH as (Hall & Hw & Hy & docs & Hsaved & Hdocs).
    repeat split.
    + intros i [(t' & Ht' & Hi) | Hi]; apply Hall.
      * apply elem_of_cons in Ht' as [-> | Ht'].
        -- right. rewrite <- Hi. exact Hid.
        -- left. exists t'. split; assumption.
      * right. apply Hkeep. exact Hi.
    + rewrite Hw. exact Hw1.
    + intros Hwr Hsy. apply Hy; [rewrite Hw1; exact Hwr | apply Hy1; assumption].
    + assert (Hlater : forall doc, doc ∈ docs ->
                exists t', t' ∈ t :: available /\
                  tid (doc_meta doc) = ti_id t' /\
                  lang (doc_meta doc) = ti_language t' /\
                  ti_id t' ∉ default [] (completed_tafasir (progress_data s))).
      { intros doc Hdoc. destruct (Hdocs doc Hdoc) as (t' & Ht' & Hti & Hla & Hno).
        exists t'. repeat split; [right; exact Ht' | exact Hti | exact Hla |].
        intros Hin. apply Hno, Hkeep, Hin. }
      case_bool_decide as Hdone.
      * exists docs. split; [| exact Hlater].
        rewrite Hsaved, Hdoc1. reflexivity.
      * destruct Hdoc1 as (doc1 & Hs1 & Hti1 & Hla1).
        exists (doc1 :: docs). split.
        -- rewrite Hsaved, Hs1, <- app_assoc. reflexivity.
        -- intros doc Hdoc. apply elem_of_cons in Hdoc as [-> | Hdoc].
           ++ exists t. repeat split; [left | exact Hti1 | exact Hla1 | exact Hdone].
           ++ apply Hlater. exact Hdoc.
Qed.

Lemma fetch_main_page_events (o : origin) (base : pystr) (m : Z) (n : nat) :
  forall a : Z,
    Forall (fun ev => verse_request ev = false)
           (snd (fetch_attempts o (MainPage base) m a n)).
Proof.
  induction n as [|n IH]; intros a; cbn [fetch_attempts].
  - repeat constructor.
  - assert (Hb : Forall (fun ev => verse_request ev = false)
                   (if a <? m - 1 then [Backoff (2 ^ a)] else [])).
    { destruct (a <? m - 1); repeat constructor. }
    specialize (IH (a + 1)).
    assert (Hagain : forall (l : level) (msg : message),
              Forall (fun ev => verse_request ev = false)
                ([Sleep; Get (MainPage base); Log l msg] ++
                 (if a <? m - 1 then [Backoff (2 ^ a)] else []) ++
                 snd (fetch_attempts o (MainPage base) m (a + 1) n))).
    { intros l msg. repeat (constructor; [reflexivity |]).
      apply Forall_app. split; assumption. }
    destruct (respond o (MainPage base) a) as [status text| |]; cbn [snd].
    + destruct (status =? 200); [destruct text |].
      * repeat constructor.
      * apply Hagain.
      * destruct (status =? 404); [repeat constructor | apply Hagain].
    + apply Hagain.
    + apply Hagain.
Qed.

Lemma get_available_events (o : origin) (base : pystr) :
  Forall (fun ev => verse_request ev = false) (snd (get_available_tafasir o base)).
Proof.
  unfold get_available_tafasir, fetch_with_retry.
  pose proof (fetch_main_page_events o base 3 (Z.to_nat 3) 0) as Hf.
  destruct (fst (fetch_attempts o (MainPage base) 3 0 (Z.to_nat 3)))
    as [content|]; cbn [snd].
  - destruct (truthy content); cbn [snd]; [exact Hf |].
    apply Forall_app. split; [exact Hf | repeat constructor].
  - apply Forall_app. split; [exact Hf | repeat constructor].
Qed.

(** [run_scraper] is the edition loop over the selected editions, after
    the discovery. *)
Lemma run_scraper_selected (o : origin) (s : scraper) (base : pystr)
    (tafsir_ids : list Z) (languages : list pystr) :
  run_scraper o s base tafsir_ids languages =
  fold_left (run_tafsir o) (selected o base tafsir_ids languages)
            (emit s (discovery o base)).
Proof.
  unfold run_scraper, selected, discovery.
  destruct (fst (get_available_tafasir o base)) as [|t0 found].
  - destruct tafsir_ids, languages; cbn [fold_left]; unfold emit;
      cbn [progress_data progress_file trace saved];
      rewrite <- app_assoc; reflexivity.
  - rewrite app_nil_r. reflexivity.
Qed.

Lemma selected_spec (o : origin) (base : pystr) (tafsir_ids : list Z)
    (languages : list pystr) (t : tafsir_info) :
  t ∈ selected o base tafsir_ids languages ->
  t ∈ fst (get_available_tafasir o base) /\
  (tafsir_ids <> [] -> ti_id t ∈ tafsir_ids) /\
  (languages <> [] -> ti_language t ∈ languages).
Proof.
  unfold selected. intros Ht.
  destruct languages as [|l0 languages]; destruct tafsir_ids as [|i0 tafsir_ids];
    repeat match type of Ht with
           | _ ∈ filter _ _ => apply list_elem_of_filter in Ht as [? Ht]
           end;
    (split; [exact Ht |]); split; intros Hne; try contradiction; assumption.
Qed.

Lemma discovery_events (o : origin) (base : pystr) :
  Forall (fun ev => verse_request ev = false) (discovery o base).
Proof.
  unfold discovery. apply Forall_app. split; [apply get_available_events |].
  destruct (fst (get_available_tafasir o base)); repeat constructor.
Qed.

(** X5. On a disk where writing the progress file succeeds, if a restart
    would load the progress that the scraper holds, it still would after
    [scrape_complete_tafsir] and after [run_scraper]; and a scraper just
    created from a progress file is in that state. *)
Theorem progress_file_follows_progress :
  forall (o : origin) (s : scraper) (t : tafsir_info)
         (start_chapter end_chapter : Z) (base : pystr) (tafsir_ids : list Z)
         (languages : list pystr),
    on_write (progress_file s) = Writes ->
    synced s ->
    synced (snd (scrape_complete_tafsir o s t start_chapter end_chapter)) /\
    synced (run_scraper o s base tafsir_ids languages) /\
    forall d : disk progress, synced (init d).
Proof.
  intros o s t start_chapter end_chapter base tafsir_ids languages Hw Hs.
  split; [| split].
  - unfold scrape_complete_tafsir. cbn [snd].
    destruct (scrape_chapters_keep o t
                (seqZ start_chapter (end_chapter + 1 - start_chapter)) s [])
      as (_ & _ & _ & _ & _ & _ & Hy).
    apply Hy; assumption.
  - rewrite run_scraper_selected.
    destruct (run_editions_keep o (selected o base tafsir_ids languages)
                (emit s (discovery o base))) as (_ & _ & Hy & _).
    apply Hy; assumption.
  - intros d. apply init_synced.
Qed.

(** The theorem on a fresh scraper with a writable disk and the small
    site, for the editions X and Y. *)
Lemma progress_file_follows_progress_witness :
  let s := init (Disk Absent Writes) in
  synced (snd (scrape_complete_tafsir Sample.small_site s Sample.edition_y 1 114)) /\
  synced (run_scraper Sample.small_site s (py "https://www.altafsir.com") [5001] []) /\
  forall d : disk progress, synced (init d).
Proof.
  apply (progress_file_follows_progress Sample.small_site
           (init (Disk Absent Writes)) Sample.edition_y 1 114
           (py "https://www.altafsir.com") [5001] []).
  - reflexivity.
  - reflexivity.
Defined.

Lemma skip_completed_editions (o : origin) (available : list tafsir_info) :
  forall s : scraper,
    (forall t, t ∈ available ->
       ti_id t ∈ default [] (completed_tafasir (progress_data s))) ->
    exists logged,
      fold_left (run_tafsir o) available s = emit s logged /\
      Forall (fun ev => verse_request ev = false) logged.
Proof.
  induction available as [|t available IH]; intros s Hall; cbn [fold_left].
  - exists []. split; [| constructor].
    unfold emit. rewrite app_nil_r. destruct s; reflexivity.
  - pose proof (run_tafsir_keeps o s t) as Hstep. cbv zeta in Hstep.
    destruct Hstep as (_ & _ & _ & _ & Hskip).
    rewrite bool_decide_eq_true_2 in Hskip by (apply Hall; left).
    rewrite Hskip.
    destruct (IH (emit s [Log INFO (SkippingCompletedTafsir (ti_name t))]))
      as (logged & -> & Hl).
    { intros t' Ht'. cbn [emit progress_data]. apply Hall. right. exact Ht'. }
    exists (Log INFO (SkippingCompletedTafsir (ti_name t)) :: logged).
    split; [| constructor; [reflexivity | exact Hl]].
    unfold emit. cbn [progress_data progress_file trace saved].
    rewrite <- app_assoc. reflexivity.
Qed.

(** X6. On a disk where writing the progress file succeeds, a crawl that
    ran to its end is not repeated: a second process started on the
    progress file that the first one left, with the same arguments and
    the same origin, requests no verse page, saves no document and ends
    with the same progress. *)
Theorem second_run_requests_no_verse :
  forall (o : origin) (d : disk progress) (base : pystr) (tafsir_ids : list Z)
         (languages : list pystr),
    on_write d = Writes ->
    let first := run_scraper o (init d) base tafsir_ids languages in
    let second := run_scraper o (init (progress_file first)) base tafsir_ids
                              languages in
    Forall (fun ev => verse_request ev = false) (trace second) /\
    saved second = [] /\
    progress_data second = progress_data first.
Proof.
  intros o d base tafsir_ids languages Hw. cbv zeta.
  destruct (init_synced d) as (Hsy0 & Hpf0 & _ & _).
  set (first := run_scraper o (init d) base tafsir_ids languages).
  assert (Hfirst : first =
            fold_left (run_tafsir o) (selected o base tafsir_ids languages)
                      (emit (init d) (discovery o base))).
  { apply run_scraper_selected. }
  destruct (run_editions_keep o (selected o base tafsir_ids languages)
              (emit (init d) (discovery o base)))
    as (Hdone & _ & Hsy & _).
  rewrite <- Hfirst in Hdone, Hsy.
  assert (Hsynced : synced first).
  { apply Hsy; [cbn [emit progress_file]; rewrite Hpf0; exact Hw | exact Hsy0]. }
  destruct (init_synced (progress_file first)) as (_ & _ & Hsaved & Htrace).
  assert (Hdata : progress_data (init (progress_file first)) = progress_data first).
  { unfold init. cbn [progress_data]. unfold synced in Hsynced.
    rewrite Hsynced. reflexivity. }
  rewrite run_scraper_selected.
  destruct (skip_completed_editions o (selected o base tafsir_ids languages)
              (emit (init (progress_file first)) (discovery o base)))
    as (logged & -> & Hlogged).
  { intros t Ht. cbn [emit progress_data]. rewrite Hdata.
    apply Hdone. left. exists t. split; [exact Ht | reflexivity]. }
  cbn [emit trace saved progress_data]. split; [| split].
  - rewrite !Forall_app. repeat split;
      [exact Htrace | apply discovery_events | exact Hlogged].
  - exact Hsaved.
  - exact Hdata.
Qed.

(** The theorem on the small site, crawled for edition Y from an empty
    progress file. *)
Lemma second_run_requests_no_verse_witness :
  let first :=
    run_scraper Sample.small_site (init (Disk Absent Writes))
                (py "https://www.altafsir.com") [5001] [] in
  let second :=
    run_scraper Sample.small_site (init (progress_file first))
                (py "https://www.altafsir.com") [5001] [] in
  Forall (fun ev => verse_request ev = false) (trace second) /\
  saved second = [] /\
  progress_data second = progress_data first.
Proof.
  apply (second_run_requests_no_verse Sample.small_site (Disk Absent Writes)
           (py "https://www.altafsir.com") [5001] []).
  reflexivity.
Defined.

(** X7. The documents that [run_scraper] saves are those of editions
    found on the main page that pass the filters given and were not
    recorded as completed when the run started; what was saved before is
    kept. *)
Theorem run_scraper_saves_requested_editions :
  forall (o : origin) (s : scraper) (base : pystr) (tafsir_ids : list Z)
         (languages : list pystr),
    exists docs,
      saved (run_scraper o s base tafsir_ids languages) = saved s ++ docs /\
      forall doc, doc ∈ docs ->
        exists t,
          t ∈ fst (get_available_tafasir o base) /\
          tid (doc_meta doc) = ti_id t /\
          lang (doc_meta doc) = ti_language t /\
          (tafsir_ids <> [] -> ti_id t ∈ tafsir_ids) /\
          (languages <> [] -> ti_language t ∈ languages) /\
          ti_id t ∉ default [] (completed_tafasir (progress_data s)).
Proof.
  intros o s base tafsir_ids languages. rewrite run_scraper_selected.
  destruct (run_editions_keep o (selected o base tafsir_ids languages)
              (emit s (discovery o base))) as (_ & _ & _ & docs & Hsaved & Hdocs).
  exists docs. split; [exact Hsaved |].
  intros doc Hdoc. destruct (Hdocs doc Hdoc) as (t & Ht & Hti & Hla & Hno).
  destruct (selected_spec o base tafsir_ids languages t Ht) as (Hf & Hi & Hl).
  exists t. repeat split; assumption.
Qed.

End Crawl.

(** ** The loader: accounting, batches, idempotence *)

Section LoaderMore.
Import Py Importer.

(** [import_verses_batch] keeps the store errors and the clock of the
    connection, and is one store operation. *)
Lemma import_verses_batch_connection (c : connection) (b : list verse_values) :
  let c' := fst (import_verses_batch c b) in
  calls c' = S (calls c) /\ fault c' = fault c /\ clock c' = clock c /\
  working c' = committed c'.
Proof.
  cbv zeta. destruct (batch_lost c b) eqn:Hlost.
  - rewrite (import_verses_batch_lost c b Hlost). repeat split.
  - destruct (import_verses_batch_kept c b Hlost) as [_ ->]. repeat split.
Qed.

Lemma uncommitted_none (bs : list (list verse_values)) :
  forall c : connection,
    (forall n, commit_raises (fault c n) = false) ->
    uncommitted_rows c bs = [].
Proof.
  induction bs as [|b bs IH]; intros c Hf; cbn [uncommitted_rows];
    [reflexivity |].
  unfold commit_failed, commit_fails. rewrite Hf, andb_false_r.
  rewrite IH; [reflexivity |].
  destruct (import_verses_batch_connection c b) as (_ & -> & _). exact Hf.
Qed.

(** X8. On a clean connection, [import_tafsir_verses] counts every entry
    of the document: imported plus skipped is the number of entries,
    plus the rows of the batches whose [commit] raised, which are counted
    twice, plus, when the batch size is 0, every accepted entry once
    more, for the [ZeroDivisionError] of the progress check. When no
    [commit] raises and the batch size is not 0, every entry is counted
    exactly once. Both counts are non-negative. *)
Theorem every_entry_is_counted :
  forall (e : env) (batch_size : Z) (c : connection) (data : tafsir_data),
    working c = committed c ->
    let ts := tuples e (meta data) (vs data) in
    let r := import_tafsir_verses e batch_size c data in
    let twice := uncommitted_rows c (batches batch_size ts) in
    fst (snd r) + snd (snd r) =
      Z.of_nat (length (vs data)) + Z.of_nat (length twice) +
      zero_division_skips batch_size ts /\
    0 <= fst (snd r) /\ 0 <= snd (snd r) /\
    ((forall n, commit_raises (fault c n) = false) -> twice = []) /\
    (batch_size <> 0 -> zero_division_skips batch_size ts = 0).
Proof.
  intros e batch_size c data Hclean. cbv zeta.
  rewrite import_tafsir_verses_batches. cbv zeta. cbn [fst snd].
  set (ts := tuples e (meta data) (vs data)).
  set (bs := batches batch_size ts).
  destruct (run_batches_result bs c Hclean)
    as (_ & _ & _ & _ & _ & _ & _ & _ & Himp & Hskip).
  pose proof (tuples_rejected_length e (meta data) (vs data)) as Hlen.
  pose proof (rejected_nonneg e (meta data) (vs data)) as Hrej.
  pose proof (zero_division_skips_nonneg batch_size ts) as Hzero.
  fold ts in Hlen.
  assert (Hperm : (length (stored_rows c bs) + length (lost_rows c bs) =
                   length ts)%nat).
  { rewrite <- length_app, stored_lost_permutation. subst bs. unfold batches.
    rewrite batches_from_concat. reflexivity. }
  rewrite Himp, Hskip.
  split; [lia |]. split; [lia |]. split; [lia |]. split.
  - apply uncommitted_none.
  - intros Hsize. unfold zero_division_skips.
    destruct (Z.eqb_spec batch_size 0); [contradiction | reflexivity].
Qed.

(** The theorem on five verses in batches of two when the [commit] of
    the second batch raises: 5 imported and 2 skipped; and on three
    verses with a batch size of 0: 3 imported and 3 skipped. *)
Lemma every_entry_is_counted_witness :
  let r := import_tafsir_verses Sample.env 2 Sample.second_commit_fails
                                Sample.five_verses in
  let r0 := import_tafsir_verses Sample.env 0 Sample.fresh_connection
              (TafsirData Sample.meta Sample.three_verses) in
  (snd r = (5, 2) /\ snd r0 = (3, 3)) /\
  fst (snd r) + snd (snd r) =
    Z.of_nat (length (vs Sample.five_verses)) +
    Z.of_nat (length (uncommitted_rows Sample.second_commit_fails
                        Sample.five_batches)) +
    zero_division_skips 2 (tuples Sample.env Sample.meta (vs Sample.five_verses)) /\
  fst (snd r0) + snd (snd r0) =
    Z.of_nat (length Sample.three_verses) +
    Z.of_nat (length (uncommitted_rows Sample.fresh_connection
                        (batches 0 (tuples Sample.env Sample.meta
                                           Sample.three_verses)))) +
    zero_division_skips 0 (tuples Sample.env Sample.meta Sample.three_verses).
Proof.
  cbv zeta. split; [split; vm_compute; reflexivity |]. split.
  - apply (every_entry_is_counted Sample.env 2 Sample.second_commit_fails
             Sample.five_verses). reflexivity.
  - apply (every_entry_is_counted Sample.env 0 Sample.fresh_connection
             (TafsirData Sample.meta Sample.three_verses)). reflexivity.
Defined.

Lemma batches_from_shape (batch_size : Z) (ts : list verse_values) :
  forall (acc : list verse_values) (i : nat) (b : list verse_values),
    Z.of_nat (length acc) < Z.max 1 batch_size ->
    batches_from batch_size acc ts !! i = Some b ->
    1 <= Z.of_nat (length b) <= Z.max 1 batch_size /\
    ((S i < length (batches_from batch_size acc ts))%nat ->
     Z.of_nat (length b) = Z.max 1 batch_size).
Proof.
  induction ts as [|t ts IH]; intros acc i b Hacc Hb; cbn [batches_from] in *.
  - destruct acc as [|r acc]; [discriminate |].
    destruct i as [|i]; [| discriminate]. injection Hb as <-.
    cbn [length] in *. split; [lia |]. intros Hlt. lia.
  - assert (Hlen : Z.of_nat (length (acc ++ [t])) = Z.of_nat (length acc) + 1).
    { rewrite length_app. cbn [length]. lia. }
    destruct (Z.geb_spec (Z.of_nat (length (acc ++ [t]))) batch_size) as [Hge | Hlt].
    + destruct i as [|i].
      * injection Hb as <-. split; [lia |]. intros _. lia.
      * cbn [lookup list_lookup] in Hb.
        destruct (IH [] i b) as [Hr Hfull]; [cbn [length]; lia | exact Hb |].
        split; [exact Hr |]. intros Hlt. apply Hfull. cbn [length] in Hlt. lia.
    + apply IH; [lia | exact Hb].
Qed.

(** X9. [import_tafsir_verses] hands the accepted records to
    [import_verses_batch] in their order, in batches of exactly
    [batch_size] rows ([1] when [batch_size <= 0]); only the last batch
    may be shorter, and no batch is empty. Its counts are those of the
    batches, with the records that are not accepted added to the
    skipped, and every accepted record once more when the batch size
    is 0. *)
Theorem records_are_batched_by_size :
  forall (e : env) (batch_size : Z) (c : connection) (data : tafsir_data),
    let ts := tuples e (meta data) (vs data) in
    let bs := batches batch_size ts in
    let r := run_batches c bs in
    import_tafsir_verses e batch_size c data =
      (fst r,
       (fst (snd r),
        rejected e (meta data) (vs data) + snd (snd r) +
        zero_division_skips batch_size ts)) /\
    concat bs = ts /\
    forall (i : nat) (b : list verse_values),
      bs !! i = Some b ->
      1 <= Z.of_nat (length b) <= Z.max 1 batch_size /\
      ((S i < length bs)%nat -> Z.of_nat (length b) = Z.max 1 batch_size).
Proof.
  intros e batch_size c data. cbv zeta. split; [| split].
  - apply import_tafsir_verses_batches.
  - unfold batches. rewrite batches_from_concat. reflexivity.
  - intros i b Hb. unfold batches in *.
    apply (batches_from_shape batch_size _ [] i b); [cbn [length]; lia | exact Hb].
Qed.

Lemma stored_rows_app (bs1 bs2 : list (list verse_values)) :
  forall c : connection,
    stored_rows c (bs1 ++ bs2) =
      stored_rows c bs1 ++ stored_rows (fst (run_batches c bs1)) bs2 /\
    lost_rows c (bs1 ++ bs2) =
      lost_rows c bs1 ++ lost_rows (fst (run_batches c bs1)) bs2 /\
    uncommitted_rows c (bs1 ++ bs2) =
      uncommitted_rows c bs1 ++ uncommitted_rows (fst (run_batches c bs1)) bs2.
Proof.
  induction bs1 as [|b bs1 IH]; intros c.
  - repeat split.
  - cbn [app stored_rows lost_rows uncommitted_rows run_batches fst].
    destruct (IH (fst (import_verses_batch c b))) as (-> & -> & ->).
    rewrite !app_assoc. repeat split.
Qed.

(** X21. On a clean connection, let [executemany] raise on one batch of
    the document, and let no other batch be rolled back. Then only that
    batch is lost: its records are counted as skipped and none of them
    as imported, the store is unchanged at their keys, the rows of the
    batches before and after it are in the store and are the imported
    ones. *)
Theorem executemany_failure_is_isolated :
  forall (e : env) (batch_size : Z) (c : connection) (data : tafsir_data)
         (before after : list (list verse_values)) (failed : list verse_values),
    working c = committed c ->
    NoDup (map fst (vs data)) ->
    batches batch_size (tuples e (meta data) (vs data)) =
      before ++ failed :: after ->
    any_batch_lost c before = false ->
    batch_fails (fst (run_batches c before)) failed = true ->
    any_batch_lost (fst (run_batches c (before ++ [failed]))) after = false ->
    let r := import_tafsir_verses e batch_size c data in
    fst (snd r) = Z.of_nat (length (concat before ++ concat after)) /\
    snd (snd r) =
      rejected e (meta data) (vs data) + Z.of_nat (length failed) +
      zero_division_skips batch_size (tuples e (meta data) (vs data)) /\
    (forall t, t ∈ concat before ++ concat after ->
       columns <$> stored (fst r) (verse_key t) (translation_id t) = Some t) /\
    (forall t, t ∈ failed ->
       stored (fst r) (verse_key t) (translation_id t) =
       stored c (verse_key t) (translation_id t)).
Proof.
  intros e batch_size c data before after failed Hclean Hnd Hbs Hbefore Hfail
    Hafter.
  destruct (import_tafsir_verses_outcome e batch_size c data Hclean Hnd)
    as (Himp & Hskip & _ & _ & Hperm & Hkept & Hother).
  cbv zeta. rewrite Hbs in Himp, Hskip, Hperm, Hkept, Hother.
  assert (Happ : before ++ failed :: after = (before ++ [failed]) ++ after)
    by (rewrite <- app_assoc; reflexivity).
  rewrite Happ in Himp, Hskip, Hperm, Hkept, Hother.
  destruct (stored_rows_app (before ++ [failed]) after c) as (Hs & Hl & Hu).
  destruct (stored_rows_app before [failed] c) as (Hs1 & Hl1 & Hu1).
  destruct (no_batch_lost_rows _ _ Hbefore) as (Hsb & Hlb & Hub).
  destruct (no_batch_lost_rows _ _ Hafter) as (Hsa & Hla & Hua).
  cbn [stored_rows lost_rows uncommitted_rows] in Hs1, Hl1, Hu1.
  unfold commit_failed, batch_lost in Hs1, Hl1, Hu1.
  rewrite Hfail in Hs1, Hl1, Hu1. cbn [orb negb andb] in Hs1, Hl1, Hu1.
  rewrite Hsb in Hs1. rewrite Hlb in Hl1. rewrite Hub in Hu1.
  rewrite !app_nil_r in Hs1. cbn [app] in Hl1, Hu1. rewrite app_nil_r in Hl1.
  rewrite Hs1, Hsa in Hs. rewrite Hl1, Hla, app_nil_r in Hl.
  rewrite Hu1, Hua in Hu. cbn [app] in Hu.
  rewrite Hs in Himp, Hperm, Hkept, Hother. rewrite Hl in Hskip, Hperm.
  rewrite Hu in Himp. cbn [length] in Himp. rewrite Z.add_0_r in Himp.
  split; [exact Himp |]. split; [exact Hskip |]. split; [exact Hkept |].
  intros t Ht. unfold stored. apply Hother.
  pose proof (tuples_keys_distinct e (meta data) (vs data) Hnd) as Hall.
  rewrite <- Hperm, map_app in Hall.
  apply NoDup_app in Hall as (_ & Hdisj & _).
  intros Hin. apply (Hdisj _ Hin).
  apply list_elem_of_fmap. exists t. split; [reflexivity | exact Ht].
Qed.

(** The theorem on five verses in batches of two, [executemany] failing
    on the second batch: three rows imported, two skipped. *)
Lemma executemany_failure_is_isolated_witness :
  let before := take 1 Sample.five_batches in
  let failed := default [] (Sample.five_batches !! 1%nat) in
  let after := drop 2 Sample.five_batches in
  let r := import_tafsir_verses Sample.env 2 Sample.second_batch_fails
                                Sample.five_verses in
  (length before = 1%nat /\ length failed = 2%nat /\ length after = 1%nat /\
   snd r = (3, 2)) /\
  (fst (snd r) = Z.of_nat (length (concat before ++ concat after)) /\
   snd (snd r) =
     rejected Sample.env (meta Sample.five_verses) (vs Sample.five_verses) +
     Z.of_nat (length failed) +
     zero_division_skips 2
       (tuples Sample.env (meta Sample.five_verses) (vs Sample.five_verses)) /\
   (forall t, t ∈ concat before ++ concat after ->
      columns <$> stored (fst r) (verse_key t) (translation_id t) = Some t) /\
   (forall t, t ∈ failed ->
      stored (fst r) (verse_key t) (translation_id t) =
      stored Sample.second_batch_fails (verse_key t) (translation_id t))).
Proof.
  cbv zeta. split; [repeat split; vm_compute; reflexivity |].
  apply (executemany_failure_is_isolated Sample.env 2 Sample.second_batch_fails
           Sample.five_verses).
  - reflexivity.
  - apply (bool_decide_unpack _). vm_compute. exact I.
  - vm_compute. reflexivity.
  - vm_compute. reflexivity.
  - vm_compute. reflexivity.
  - vm_compute. reflexivity.
Defined.

(** [import_tafsir_metadata]: it touches the metadata row of the edition
    only; the row is there and committed when it returns, and then the
    edition id and the path could be bound. *)
Lemma import_tafsir_metadata_cases (e : env) (c : connection)
    (data : tafsir_data) (file_path : pystr) :
  let r := import_tafsir_metadata e c data file_path in
  calls (snd r) = S (calls c) /\
  fault (snd r) = fault c /\
  clock (snd r) = clock c /\
  quran_translations (working (snd r)) = quran_translations (working c) /\
  quran_translations_seq (working (snd r)) =
    quran_translations_seq (working c) /\
  import_log (working (snd r)) = import_log (working c) /\
  (forall k, k <> tid (meta data) ->
     tafsir_metadata (working (snd r)) !! k = tafsir_metadata (working c) !! k) /\
  ((fst r = Ret tt /\
    is_Some (tafsir_metadata (working (snd r)) !! tid (meta data)) /\
    committed (snd r) = working (snd r) /\
    fits64 (tid (meta data)) = true /\ encodable file_path = true) \/
   (exists ex, fst r = Raise ex /\ committed (snd r) = committed c)).
Proof.
  cbv zeta. unfold import_tafsir_metadata.
  match goal with
  | |- context [execute_and_commit c ?p ?s] =>
      destruct (execute_and_commit_cases c p s)
        as (Hcalls & Hfault & Hclock & Hcases);
      set (r := execute_and_commit c p s) in *
  end.
  cbv zeta in Hcases.
  split; [exact Hcalls |]. split; [exact Hfault |]. split; [exact Hclock |].
  destruct Hcases as [(Hret & Hp & Hw & Hc) | (ex & Hraise & Hc & [Hw | Hw])];
    rewrite Hw; cbn [quran_translations quran_translations_seq tafsir_metadata
                     import_log];
    (split; [reflexivity |]); (split; [reflexivity |]);
    (split; [reflexivity |]).
  - split; [intros k Hk; apply lookup_insert_ne; congruence |].
    left. split; [exact Hret |].
    split; [rewrite lookup_insert_eq; eauto |].
    split; [rewrite Hc; reflexivity |].
    unfold bind in Hp.
    destruct (bind_int (tid (meta data))) as [[]|] eqn:H1; [| discriminate].
    destruct (bind_str (tn (meta data))) as [[]|]; [| discriminate].
    destruct (bind_str (default (py "Unknown") (au (meta data)))) as [[]|];
      [| discriminate].
    destruct (bind_str (lang (meta data))) as [[]|]; [| discriminate].
    destruct (bind_str (py "Imported from altafsir.com - " ++ tn (meta data)))
      as [[]|]; [| discriminate].
    destruct (bind_str (default (py "https://www.altafsir.com")
                                (source_url (meta data)))) as [[]|];
      [| discriminate].
    split; [apply bound_int, H1 | apply bound_str, Hp].
  - split; [reflexivity |]. right. exists ex. split; assumption.
  - split; [intros k Hk; apply lookup_insert_ne; congruence |].
    right. exists ex. split; assumption.
Qed.

(** The body of the [try], step by step. *)
Lemma import_document_steps (e : env) (data : tafsir_data) (file_path : pystr)
    (i : importer) :
  import_document e data file_path i =
    let md := import_tafsir_metadata e (connection_ i) data file_path in
    match fst md with
    | Raise ex => (Raise ex, set_connection i (snd md))
    | Ret _ =>
        let vr := import_tafsir_verses e (batch_size i) (snd md) data in
        let st :=
          ImportStats
            (total_verses (stats i) + Z.of_nat (length (vs data)))
            (imported_verses (stats i) + fst (snd vr))
            (skipped_verses (stats i) + snd (snd vr))
            (errors (stats i)) in
        let lg :=
          log_import_result (fst vr) file_path (tid (meta data))
                            (fst (snd vr)) (snd (snd vr)) (py "completed")
                            None in
        (match fst lg with
         | Ret _ => Ret true
         | Raise ex => Raise ex
         end,
         ImporterState (snd lg) (batch_size i) st (progress_data i)
                       (progress_file i) (warnings i))
    end.
Proof.
  unfold import_document, and_then, on_store, add_to_stats, ret.
  cbv zeta. cbn [fst snd].
  destruct (fst (import_tafsir_metadata e (connection_ i) data file_path));
    [| reflexivity].
  cbn [fst snd connection_ set_connection set_stats batch_size stats
       progress_data progress_file warnings].
  destruct (fst (log_import_result _ _ _ _ _ _ _)); reflexivity.
Qed.

(** The handler of the [try], step by step. *)
Lemma log_failure_steps (e : env) (file_path : pystr) (translation_id : Z)
    (ex : exn) (i : importer) :
  log_failure e file_path translation_id ex i =
    let lf :=
      log_import_result (connection_ i) file_path translation_id 0 0
                        (py "failed") (Some (exn_text e ex)) in
    match fst lf with
    | Ret _ =>
        (Ret false,
         ImporterState (snd lf) (batch_size i)
                       (ImportStats (total_verses (stats i))
                                    (imported_verses (stats i))
                                    (skipped_verses (stats i))
                                    (errors (stats i) + 1))
                       (progress_data i) (progress_file i) (warnings i))
    | Raise ex' => (Raise ex', set_connection i (snd lf))
    end.
Proof.
  unfold log_failure, and_then, on_store, count_error, ret.
  cbv zeta. cbn [fst snd].
  destruct (fst (log_import_result _ _ _ _ _ _ _)); reflexivity.
Qed.

(** [import_tafsir_file] on a file that fails validation. *)
Lemma import_tafsir_file_invalid (e : env) (i : importer) (file_path : pystr)
    (force : bool) :
  validate_tafsir_file e file_path = None ->
  import_tafsir_file e i file_path force =
    let lg :=
      log_import_result (connection_ i) file_path 0 0 0 (py "failed")
                        (Some (py "File validation failed")) in
    (match fst lg with
     | Ret _ => Ret false
     | Raise ex => Raise ex
     end,
     set_connection i (snd lg)).
Proof.
  intros Hinvalid. unfold import_tafsir_file. rewrite Hinvalid.
  unfold and_then, on_store, ret. cbv zeta. cbn [fst snd].
  destruct (fst (log_import_result _ _ _ _ _ _ _)); reflexivity.
Qed.

(** [import_tafsir_file] on a valid document: first the check of an
    existing edition, unless the import is forced. *)
Lemma import_tafsir_file_valid (e : env) (i : importer) (file_path : pystr)
    (force : bool) (data : tafsir_data) :
  validate_tafsir_file e file_path = Some data ->
  import_tafsir_file e i file_path force =
    let checked :=
      if force then (Ret false, connection_ i)
      else check_existing_tafsir (connection_ i) (tid (meta data)) in
    match fst checked with
    | Raise ex => (Raise ex, set_connection i (snd checked))
    | Ret true =>
        let lg :=
          log_import_result (snd checked) file_path (tid (meta data)) 0 0
                            (py "skipped") (Some (py "Already imported")) in
        (match fst lg with
         | Ret _ => Ret true
         | Raise ex => Raise ex
         end,
         set_connection i (snd lg))
    | Ret false =>
        let started :=
          import_document e data file_path (set_connection i (snd checked)) in
        match fst started with
        | Ret b => (Ret b, snd started)
        | Raise ex =>
            log_failure e file_path (tid (meta data)) ex (snd started)
        end
    end.
Proof.
  intros Hvalid. unfold import_tafsir_file. rewrite Hvalid.
  unfold and_then, on_store, ret, attempt. cbv zeta.
  destruct force; cbn [fst snd].
  - destruct i; reflexivity.
  - destruct (fst (check_existing_tafsir (connection_ i) (tid (meta data))))
      as [[|]|ex]; cbn [connection_ set_connection]; try reflexivity.
    destruct (fst (log_import_result _ _ _ _ _ _ _)); reflexivity.
Qed.

Lemma validate_none_iff (e : env) (file_path : pystr) :
  validate_tafsir_file e file_path = None <-> defective (files e file_path).
Proof.
  unfold validate_tafsir_file, defective.
  destruct (files e file_path) as [|ex|data]; [tauto | tauto |].
  destruct (j_meta data) as [m|]; [| tauto].
  destruct (j_chs data) as [chs|]; [| tauto].
  destruct (j_vs data) as [[| | | | |items]|];
    destruct (m_tid m) as [mt|] eqn:Ht; destruct (m_tn m) as [mn|] eqn:Hn;
    destruct (m_lang m) as [ml|] eqn:Hl;
    split; intros H; try reflexivity; try discriminate;
    try (right; right; right; exact I);
    try (right; right; left; exists m; split; [reflexivity |];
         rewrite ?Ht, ?Hn, ?Hl; tauto).
  destruct H as [H | [H | [(m' & Hm & H) | H]]]; try discriminate;
    [| contradiction].
  injection Hm as <-. rewrite Ht, Hn, Hl in H.
  destruct H as [H | [H | H]]; discriminate.
Qed.

(** X10. A file that [validate_tafsir_file] cannot accept (missing or
    unreadable, without [meta], [chs] or [vs], without [tid], [tn] or
    [lang] in [meta], or with a [vs] that is not an object) is rejected
    as a whole, forced or not: whatever the store does, the verse table,
    the metadata table and the statistics are left as they were and the
    call does not return [True]; and when the store works for the log
    entry and the path can be bound, the call returns [False] and one
    entry with the status failed, edition 0 and zero counts is logged
    and committed. *)
Theorem defective_file_is_rejected :
  forall (e : env) (i : importer) (file_path : pystr) (force : bool),
    defective (files e file_path) ->
    let r := import_tafsir_file e i file_path force in
    let before := working (connection_ i) in
    let after := working (connection_ (snd r)) in
    quran_translations after = quran_translations before /\
    tafsir_metadata after = tafsir_metadata before /\
    stats (snd r) = stats i /\
    fst r <> Ret true /\
    (encodable file_path = true ->
     store_works (connection_ i) 1 ->
     fst r = Ret false /\
     import_log after =
       import_log before ++
       [LogEntry file_path 0 0 0 (py "failed")
                 (Some (py "File validation failed"))] /\
     committed (connection_ (snd r)) = after).
Proof.
  intros e i file_path force Hdef. cbv zeta.
  apply validate_none_iff in Hdef.
  rewrite (import_tafsir_file_invalid e i file_path force Hdef). cbv zeta.
  destruct (log_import_result_cases (connection_ i) file_path 0 0 0
              (py "failed") (Some (py "File validation failed")))
    as (_ & _ & _ & Hq & _ & Hm & _).
  cbn [fst snd connection_ set_connection stats].
  split; [exact Hq |]. split; [exact Hm |]. split; [reflexivity |]. split.
  - destruct (fst (log_import_result _ _ _ _ _ _ _)); discriminate.
  - intros Hpath Hstore.
    assert (H0 : fault (connection_ i) (calls (connection_ i)) = None).
    { rewrite <- (Nat.add_0_r (calls (connection_ i))). apply Hstore. lia. }
    rewrite log_import_result_works;
      [| exact Hpath | reflexivity | reflexivity | exact H0].
    cbn [fst snd working committed import_log]. repeat split.
Qed.

(** The theorem on a file without [vs]. *)
Lemma defective_file_is_rejected_witness :
  let r := import_tafsir_file Cases.env_no_verses Sample.fresh_importer
                              Sample.path true in
  fst r = Ret false /\
  import_log (working (connection_ (snd r))) =
    [LogEntry Sample.path 0 0 0 (py "failed")
              (Some (py "File validation failed"))] /\
  size (quran_translations (working (connection_ (snd r)))) = 0%nat /\
  stats (snd r) = stats Sample.fresh_importer.
Proof.
  cbv zeta.
  destruct (defective_file_is_rejected Cases.env_no_verses Sample.fresh_importer
              Sample.path true) as (Hq & _ & Hs & _ & Hworks).
  - right. right. right. exact I.
  - destruct Hworks as (Hr & Hl & _).
    + reflexivity.
    + intros k Hk. reflexivity.
    + split; [exact Hr |]. split; [exact Hl |]. split; [| exact Hs].
      rewrite Hq. reflexivity.
Defined.

Lemma same_edition_refl (edition : Z) (t : tables) : same_edition edition t t.
Proof. split; reflexivity. Qed.

Lemma same_edition_trans (edition : Z) (t1 t2 t3 : tables) :
  same_edition edition t1 t2 -> same_edition edition t2 t3 ->
  same_edition edition t1 t3.
Proof.
  intros [Hq Hm] [Hq' Hm']. split.
  - intros key. rewrite Hq'. apply Hq.
  - rewrite Hm'. exact Hm.
Qed.

Lemma log_import_result_same_edition (edition : Z) (c : connection)
    (file_path : pystr) (translation_id imported skipped : Z) (status : pystr)
    (error_message : option pystr) :
  same_edition edition (working c)
    (working (snd (log_import_result c file_path translation_id imported
                                     skipped status error_message))).
Proof.
  destruct (log_import_result_cases c file_path translation_id imported skipped
              status error_message) as (_ & _ & _ & Hq & _ & Hm & _).
  split; [intros key; rewrite Hq | rewrite Hm]; reflexivity.
Qed.

Lemma import_tafsir_metadata_same_edition (edition : Z) (e : env)
    (c : connection) (data : tafsir_data) (file_path : pystr) :
  edition <> tid (meta data) ->
  same_edition edition (working c)
    (working (snd (import_tafsir_metadata e c data file_path))).
Proof.
  intros Hne.
  destruct (import_tafsir_metadata_cases e c data file_path)
    as (_ & _ & _ & Hq & _ & _ & Hm & _).
  split; [intros key; rewrite Hq; reflexivity | apply Hm, Hne].
Qed.

(** The rows that [import_tafsir_verses] stores are rows of the edition
    of the document. *)
Lemma import_tafsir_verses_same_edition (edition : Z) (e : env)
    (batch_size : Z) (c : connection) (data : tafsir_data) :
  working c = committed c ->
  edition <> tid (meta data) ->
  same_edition edition (working c)
    (working (fst (import_tafsir_verses e batch_size c data))).
Proof.
  intros Hclean Hne.
  rewrite import_tafsir_verses_batches. cbv zeta. cbn [fst].
  set (ts := tuples e (meta data) (vs data)).
  set (bs := batches batch_size ts).
  destruct (run_batches_result bs c Hclean)
    as (Hw & _ & _ & _ & Hm & _ & _ & Hother & _).
  rewrite Hw, Hclean. split; [| rewrite Hm; reflexivity].
  intros key. apply Hother.
  intros Hin. apply list_elem_of_fmap in Hin as (t & Hkey & Ht).
  assert (Hts : t ∈ ts).
  { assert (Hperm : stored_rows c bs ++ lost_rows c bs ≡ₚ ts).
    { rewrite stored_lost_permutation. subst bs. unfold batches.
      rewrite batches_from_concat. reflexivity. }
    rewrite <- Hperm. apply elem_of_app. left. exact Ht. }
  destruct (tuples_from_items e (meta data) (vs data) t Hts) as (_ & _ & _ & Hid).
  unfold row_key in Hkey. injection Hkey as _ Hed. congruence.
Qed.

Lemma log_failure_same_edition (edition : Z) (e : env) (file_path : pystr)
    (translation_id : Z) (ex : exn) (i : importer) :
  same_edition edition (working (connection_ i))
    (working (connection_
                (snd (log_failure e file_path translation_id ex i)))).
Proof.
  rewrite log_failure_steps. cbv zeta.
  pose proof (log_import_result_same_edition edition (connection_ i) file_path
                translation_id 0 0 (py "failed") (Some (exn_text e ex))) as H.
  destruct (fst (log_import_result _ _ _ _ _ _ _)); exact H.
Qed.

Lemma import_document_same_edition (edition : Z) (e : env)
    (data : tafsir_data) (file_path : pystr) (i : importer) :
  edition <> tid (meta data) ->
  same_edition edition (working (connection_ i))
    (working (connection_ (snd (import_document e data file_path i)))).
Proof.
  intros Hne. rewrite import_document_steps. cbv zeta.
  pose proof (import_tafsir_metadata_same_edition edition e (connection_ i)
                data file_path Hne) as Hmd.
  destruct (import_tafsir_metadata_cases e (connection_ i) data file_path)
    as (_ & _ & _ & _ & _ & _ & _ & [(Hret & _ & Hc & _) | (ex & Hraise & _)]).
  - rewrite Hret. cbn [snd connection_].
    eapply same_edition_trans; [exact Hmd |].
    eapply same_edition_trans;
      [apply (import_tafsir_verses_same_edition edition e (batch_size i));
       [symmetry; exact Hc | exact Hne] |].
    apply log_import_result_same_edition.
  - rewrite Hraise. exact Hmd.
Qed.

(** [import_tafsir_file] leaves the other editions alone. *)
Lemma import_tafsir_file_same_edition (edition : Z) (e : env) (i : importer)
    (file_path : pystr) (force : bool) :
  (forall data, validate_tafsir_file e file_path = Some data ->
                edition <> tid (meta data)) ->
  same_edition edition (working (connection_ i))
    (working (connection_ (snd (import_tafsir_file e i file_path force)))).
Proof.
  intros Hne.
  destruct (validate_tafsir_file e file_path) as [data|] eqn:Hvalid.
  - specialize (Hne data eq_refl).
    rewrite (import_tafsir_file_valid e i file_path force data Hvalid).
    cbv zeta.
    assert (Hchecked :
              working (snd (if force then (Ret false, connection_ i)
                            else check_existing_tafsir (connection_ i)
                                                       (tid (meta data)))) =
              working (connection_ i)).
    { destruct force; [reflexivity |].
      destruct (check_existing_tafsir_cases (connection_ i) (tid (meta data)))
        as [-> _]. reflexivity. }
    set (checked := if force then (Ret false, connection_ i)
                    else check_existing_tafsir (connection_ i)
                                               (tid (meta data))) in *.
    destruct (fst checked) as [[|]|ex].
    + cbn [snd connection_ set_connection]. rewrite <- Hchecked.
      apply log_import_result_same_edition.
    + pose proof (import_document_same_edition edition e data file_path
                    (set_connection i (snd checked)) Hne) as Hdoc.
      cbn [connection_ set_connection] in Hdoc. rewrite Hchecked in Hdoc.
      destruct (fst (import_document e data file_path
                       (set_connection i (snd checked)))).
      * exact Hdoc.
      * eapply same_edition_trans; [exact Hdoc |].
        apply log_failure_same_edition.
    + cbn [snd connection_ set_connection]. rewrite Hchecked.
      apply same_edition_refl.
  - rewrite (import_tafsir_file_invalid e i file_path force Hvalid).
    cbv zeta. cbn [snd connection_ set_connection].
    apply log_import_result_same_edition.
Qed.

(** X12. [import_tafsir_file] touches the rows of one edition only: for
    every edition other than the one of the file, the verse rows and the
    metadata row are after the call what they were before, ids and
    timestamps included, whether the call returns or raises and whatever
    store errors occur. *)
Theorem other_editions_are_untouched :
  forall (e : env) (i : importer) (file_path : pystr) (force : bool)
         (key : pystr) (edition : Z),
    (forall data, validate_tafsir_file e file_path = Some data ->
                  edition <> tid (meta data)) ->
    let r := import_tafsir_file e i file_path force in
    quran_translations (working (connection_ (snd r))) !! (key, edition) =
      quran_translations (working (connection_ i)) !! (key, edition) /\
    tafsir_metadata (working (connection_ (snd r))) !! edition =
      tafsir_metadata (working (connection_ i)) !! edition.
Proof.
  intros e i file_path force key edition Hne. cbv zeta.
  destruct (import_tafsir_file_same_edition edition e i file_path force Hne)
    as [Hq Hm].
  split; [apply Hq | exact Hm].
Qed.

(** The theorem on a database that holds the three verses of edition
    5000, when the document of edition 5001 is imported: the row of
    verse 1:1 of edition 5000 and the metadata row of 5000 are what
    they were, and edition 5001 has its two rows. *)
Lemma other_editions_are_untouched_witness :
  let i := Cases.after_first_import in
  let r := import_tafsir_file Cases.env_two i Cases.other_path true in
  (fst r = Ret true /\
   size (quran_translations (working (connection_ i))) = 3%nat /\
   size (quran_translations (working (connection_ (snd r)))) = 5%nat /\
   id <$> quran_translations (working (connection_ i)) !! (py "1:1", 5000) =
     Some 1) /\
  quran_translations (working (connection_ (snd r))) !! (py "1:1", 5000) =
    quran_translations (working (connection_ i)) !! (py "1:1", 5000) /\
  tafsir_metadata (working (connection_ (snd r))) !! 5000 =
    tafsir_metadata (working (connection_ i)) !! 5000.
Proof.
  cbv zeta. split; [repeat split; vm_compute; reflexivity |].
  apply (other_editions_are_untouched Cases.env_two Cases.after_first_import
           Cases.other_path true (py "1:1") 5000).
  intros data H. vm_compute in H. injection H as <-. discriminate.
Defined.

End LoaderMore.

Section Texts.
Import Py Text.

Lemma split_from_words (s : pystr) :
  forall cur : pystr,
    Forall (fun c => is_space c = false) cur ->
    Forall word (split_from cur s).
Proof.
  induction s as [|c s IH]; intros cur Hcur; cbn [split_from].
  - destruct cur as [|c0 cur]; [constructor |].
    constructor; [| constructor]. split; [discriminate | exact Hcur].
  - destruct (is_space c) eqn:Hc.
    + destruct cur as [|c0 cur]; [apply IH; constructor |].
      constructor; [split; [discriminate | exact Hcur] | apply IH; constructor].
    + apply IH. apply Forall_app. split; [exact Hcur |].
      constructor; [exact Hc | constructor].
Qed.

Lemma split_from_word (w : pystr) :
  Forall (fun c => is_space c = false) w ->
  forall cur s : pystr, split_from cur (w ++ s) = split_from (cur ++ w) s.
Proof.
  induction w as [|c w IH]; intros Hw cur s.
  - rewrite app_nil_r. reflexivity.
  - inversion Hw as [|? ? Hc Hw']; subst. cbn [app split_from]. rewrite Hc.
    rewrite IH by exact Hw'. rewrite <- app_assoc. reflexivity.
Qed.

Lemma split_join (ws : list pystr) :
  Forall word ws -> split (join (py " ") ws) = ws.
Proof.
  unfold split. induction ws as [|w ws IH]; intros Hws; [reflexivity |].
  inversion Hws as [|? ? [Hne Hw] Hws']; subst.
  destruct ws as [|w2 ws].
  - cbn [join]. rewrite <- (app_nil_r w) at 1.
    rewrite split_from_word by exact Hw. cbn [app split_from].
    destruct w; [contradiction | reflexivity].
  - change (join (py " ") (w :: w2 :: ws))
      with (w ++ py " " ++ join (py " ") (w2 :: ws)).
    rewrite split_from_word by exact Hw. cbn [app].
    change (py " " ++ join (py " ") (w2 :: ws))
      with (32%N :: join (py " ") (w2 :: ws)).
    cbn [split_from]. change (is_space 32) with true. cbn iota.
    destruct w as [|c w]; [contradiction |].
    rewrite IH by exact Hws'. reflexivity.
Qed.

Lemma split_from_nil (s : pystr) :
  forall cur : pystr,
    split_from cur s = [] <->
    cur = [] /\ Forall (fun c => is_space c = true) s.
Proof.
  induction s as [|c s IH]; intros cur; cbn [split_from].
  - destruct cur; split.
    + intros _. split; [reflexivity | constructor].
    + reflexivity.
    + discriminate.
    + intros [H _]. discriminate.
  - destruct (is_space c) eqn:Hc.
    + destruct cur as [|c0 cur].
      * rewrite IH. split.
        -- intros [_ H]. split; [reflexivity | constructor; assumption].
        -- intros [_ H]. inversion H; subst. split; [reflexivity | assumption].
      * split; [discriminate | intros [H _]; discriminate].
    + rewrite IH. split.
      * intros [H _]. destruct cur; discriminate.
      * intros [_ H]. inversion H; congruence.
Qed.

Lemma join_ends (ws : list pystr) :
  Forall word ws -> ws <> [] ->
  (exists c rest, join (py " ") ws = c :: rest /\ is_space c = false) /\
  (exists init c, join (py " ") ws = init ++ [c] /\ is_space c = false).
Proof.
  induction ws as [|w ws IH]; intros Hws Hne; [contradiction |].
  inversion Hws as [|? ? [Hw Hchars] Hws']; subst.
  assert (Hfirst : exists c rest, w = c :: rest /\ is_space c = false).
  { destruct w as [|c rest]; [contradiction |].
    inversion Hchars; subst. eauto. }
  assert (Hlast : exists init c, w = init ++ [c] /\ is_space c = false).
  { destruct (exists_last Hw) as (init & c & ->).
    apply Forall_app in Hchars as [_ Hc]. inversion Hc; subst. eauto. }
  destruct ws as [|w2 ws].
  - cbn [join]. split; assumption.
  - change (join (py " ") (w :: w2 :: ws))
      with (w ++ py " " ++ join (py " ") (w2 :: ws)).
    split.
    + destruct Hfirst as (c & rest & -> & Hc). cbn [app]. eauto.
    + destruct (IH Hws' ltac:(discriminate)) as [_ (init & c & -> & Hc)].
      exists (w ++ py " " ++ init), c. rewrite <- !app_assoc. split; [reflexivity | exact Hc].
Qed.

Lemma strip_join (ws : list pystr) :
  Forall word ws -> strip (join (py " ") ws) = join (py " ") ws.
Proof.
  intros Hws. destruct ws as [|w ws]; [reflexivity |].
  destruct (join_ends (w :: ws) Hws ltac:(discriminate))
    as [(c & rest & Hj & Hc) (init & c' & Hj' & Hc')].
  unfold strip, rstrip.
  assert (Hl : lstrip (join (py " ") (w :: ws)) = join (py " ") (w :: ws)).
  { rewrite Hj. cbn [lstrip]. rewrite Hc. reflexivity. }
  rewrite Hl, Hj', rev_app_distr. cbn [rev app lstrip]. rewrite Hc'.
  cbn [rev]. rewrite rev_involutive. reflexivity.
Qed.

Lemma clean_text_plain (t : pystr) :
  clean_text (Some t) None = join (py " ") (split t).
Proof. destruct t; reflexivity. Qed.

Lemma single_spaced_word (w rest : pystr) (previous : bool) :
  w <> [] -> Forall (fun c => is_space c = false) w ->
  single_spaced_after previous (w ++ rest) =
  match rest with
  | [] => true
  | _ :: _ => single_spaced_after false rest
  end.
Proof.
  revert previous. induction w as [|c w IH]; intros previous Hne Hw;
    [contradiction |].
  inversion Hw as [|? ? Hc Hw']; subst. cbn [app single_spaced_after].
  rewrite Hc. destruct w as [|c' w].
  - cbn [app]. destruct rest; reflexivity.
  - apply IH; [discriminate | exact Hw'].
Qed.

(** The words joined by one space are single-spaced. *)
Lemma single_spaced_join (ws : list pystr) :
  Forall word ws -> single_spaced (join (py " ") ws) = true.
Proof.
  induction ws as [|w ws IH]; intros Hws; [reflexivity |].
  inversion Hws as [|? ? [Hne Hw] Hws']; subst.
  destruct ws as [|w2 ws].
  - cbn [join]. unfold single_spaced. destruct w as [|c w]; [contradiction |].
    rewrite <- (app_nil_r (c :: w)).
    apply (single_spaced_word (c :: w) [] true); assumption.
  - change (join (py " ") (w :: w2 :: ws))
      with (w ++ 32%N :: join (py " ") (w2 :: ws)).
    specialize (IH Hws').
    destruct (join_ends (w2 :: ws) Hws' ltac:(discriminate))
      as [(c2 & rest2 & Hj & Hc2) _].
    unfold single_spaced in *. destruct w as [|c w]; [contradiction |].
    change ((c :: w) ++ 32%N :: join (py " ") (w2 :: ws))
      with (((c :: w) ++ 32%N :: join (py " ") (w2 :: ws))).
    rewrite (single_spaced_word (c :: w) _ true) by assumption.
    rewrite Hj in IH |- *. cbn [single_spaced_after] in IH |- *.
    change (is_space 32) with true. cbn iota.
    rewrite Hc2 in IH |- *. exact IH.
Qed.

(** X18. Without a maximal length, [clean_text] returns the words of
    the text, in order, separated by single spaces: the words of the
    result are those of the text, every whitespace character of the
    result is one space U+0020 between two other characters, the result
    has no whitespace at its ends, cleaning twice is cleaning once, and
    the result is empty exactly when the text is empty or whitespace
    only; a missing text gives the empty string. *)
Theorem clean_text_normalises :
  forall t : pystr,
    let r := clean_text (Some t) None in
    split r = split t /\
    single_spaced r = true /\
    clean_text (Some r) None = r /\
    strip r = r /\
    (r = [] <-> Forall (fun c => is_space c = true) t) /\
    clean_text None None = [].
Proof.
  intros t. cbv zeta. rewrite !clean_text_plain.
  assert (Hwords : Forall word (split t)).
  { apply split_from_words. constructor. }
  split; [apply split_join; exact Hwords |].
  split; [apply single_spaced_join; exact Hwords |].
  split; [rewrite split_join by exact Hwords; reflexivity |].
  split; [apply strip_join; exact Hwords |].
  split; [| reflexivity].
  unfold split in *. split.
  - intros Hnil. apply (split_from_nil t []).
    destruct (split_from [] t) as [|w ws] eqn:Hs; [reflexivity |].
    exfalso.
    destruct (join_ends (w :: ws) Hwords ltac:(discriminate))
      as [(c & rest & Hj & _) _].
    rewrite Hnil in Hj. discriminate.
  - intros Hblank.
    assert (Hs : split_from [] t = []).
    { apply split_from_nil. split; [reflexivity | exact Hblank]. }
    rewrite Hs. reflexivity.
Qed.

Lemma before_last_space_rev_spec (l r : pystr) :
  before_last_space_rev l = Some r -> exists a, l = a ++ 32%N :: r.
Proof.
  revert r. induction l as [|c l IH]; intros r; cbn [before_last_space_rev];
    [discriminate |].
  destruct (N.eqb_spec c 32) as [-> | Hc].
  - intros H. injection H as <-. exists []. reflexivity.
  - intros H. destruct (IH r H) as (a & ->). exists (c :: a). reflexivity.
Qed.

Lemma before_last_space_prefix (s : pystr) :
  before_last_space s `prefix_of` s.
Proof.
  unfold before_last_space.
  destruct (before_last_space_rev (rev s)) as [r|] eqn:Hr; [| reflexivity].
  destruct (before_last_space_rev_spec _ _ Hr) as (a & Ha).
  exists (32%N :: rev a).
  rewrite <- (rev_involutive s), Ha, rev_app_distr. cbn [rev].
  rewrite <- app_assoc. reflexivity.
Qed.

Lemma slice_to_prefix (s : pystr) (n : Z) :
  slice_to s n `prefix_of` s /\
  (0 <= n -> Z.of_nat (length (slice_to s n)) <= n).
Proof.
  unfold slice_to. destruct (Z.ltb_spec n 0) as [Hn | Hn].
  - split; [apply prefix_take | lia].
  - split; [apply prefix_take |]. intros _. rewrite length_take. lia.
Qed.

(** X19. With a maximal length [n > 0], [clean_text] returns the cleaned
    text when it has at most [n] characters; otherwise it returns a
    beginning of the cleaned text of at most [n] characters, cut before
    its last space when it has one, followed by three dots: never more
    than [n + 3] characters. *)
Theorem clean_text_truncates :
  forall (t : pystr) (n : Z),
    0 < n ->
    let cleaned := clean_text (Some t) None in
    let r := clean_text (Some t) (Some n) in
    (Z.of_nat (length cleaned) <= n -> r = cleaned) /\
    (n < Z.of_nat (length cleaned) ->
     exists kept,
       r = kept ++ py "..." /\
       kept `prefix_of` cleaned /\
       kept = before_last_space (take (Z.to_nat n) cleaned)) /\
    Z.of_nat (length r) <= n + 3.
Proof.
  intros t n Hn. cbv zeta.
  destruct t as [|c t]; [cbn; repeat split; try lia; intros H; cbn in H; lia |].
  change (clean_text (Some (c :: t)) None) with (join (py " ") (split (c :: t))).
  set (cleaned := join (py " ") (split (c :: t))).
  unfold clean_text. fold cleaned.
  destruct (Z.eqb_spec n 0) as [Hz | _]; [lia |]. cbn [negb andb].
  destruct (slice_to_prefix cleaned n) as [Hpre Hlen].
  pose proof (before_last_space_prefix (slice_to cleaned n)) as Hcut.
  assert (Hkept : Z.of_nat (length (before_last_space (slice_to cleaned n))) <= n).
  { apply prefix_length in Hcut. specialize (Hlen ltac:(lia)). lia. }
  destruct (Z.gtb_spec (Z.of_nat (length cleaned)) n) as [Hlong | Hshort].
  - split; [intros H; lia |]. split.
    + intros _. exists (before_last_space (slice_to cleaned n)).
      split; [reflexivity |]. split; [etransitivity; eassumption |].
      unfold slice_to. destruct (Z.ltb_spec n 0); [lia | reflexivity].
    + rewrite length_app. change (length (py "...")) with 3%nat. lia.
  - split; [reflexivity |]. split; [intros H; lia | lia].
Qed.

(** The theorem on a text of four words cut at 12 characters. *)
Lemma clean_text_truncates_witness :
  let t := py "  one   two three  four " in
  let cleaned := clean_text (Some t) None in
  let r := clean_text (Some t) (Some 12) in
  (cleaned = py "one two three four" /\ r = py "one two...") /\
  ((Z.of_nat (length cleaned) <= 12 -> r = cleaned) /\
   (12 < Z.of_nat (length cleaned) ->
    exists kept,
      r = kept ++ py "..." /\
      kept `prefix_of` cleaned /\
      kept = before_last_space (take (Z.to_nat 12) cleaned)) /\
   Z.of_nat (length r) <= 12 + 3).
Proof.
  cbv zeta. split; [split; vm_compute; reflexivity |].
  apply (clean_text_truncates (py "  one   two three  four ") 12). lia.
Defined.

(** X20. The scraper's [detect_language] and [detect_language_simple]
    of [config_utils.py] give the same answer, except that the scraper
    answers unknown where the other answers bengali or russian. For
    both, a missing, empty or whitespace-only text is unknown, and a
    text is arabic as soon as a character of the Arabic ranges is among
    the first 500 characters of the stripped text, whatever else it
    holds. *)
Theorem language_detectors_agree :
  forall text : option pystr,
    (detect_language text = detect_language_simple text \/
     (detect_language text = py "unknown" /\
      (detect_language_simple text = py "bengali" \/
       detect_language_simple text = py "russian"))) /\
    (detect_language text = py "unknown" \/
     detect_language text = py "arabic" \/
     detect_language text = py "english") /\
    (forall t, text = Some t -> strip t = [] ->
       detect_language text = py "unknown" /\
       detect_language_simple text = py "unknown") /\
    (forall t, text = Some t -> strip t <> [] ->
       existsb arabic_char (take 500 (strip t)) = true ->
       detect_language text = py "arabic" /\
       detect_language_simple text = py "arabic").
Proof.
  intros [t|]; unfold detect_language, detect_language_simple.
  - split; [| split; [| split]].
    + destruct (negb (truthy t) || negb (truthy (strip t))); [left; reflexivity |].
      destruct (search arabic_char (text_sample t)); [left; reflexivity |].
      destruct (match_all english_char (text_sample t)); [left; reflexivity |].
      destruct (search bengali_char (text_sample t));
        [right; split; [reflexivity | left; reflexivity] |].
      destruct (search russian_char (text_sample t));
        [right; split; [reflexivity | right; reflexivity] |].
      left. reflexivity.
    + destruct (negb (truthy t) || negb (truthy (strip t))); [left; reflexivity |].
      destruct (search arabic_char (text_sample t)); [right; left; reflexivity |].
      destruct (match_all english_char (text_sample t));
        [right; right; reflexivity | left; reflexivity].
    + intros t' Ht Hblank. injection Ht as <-. rewrite Hblank.
      cbn [truthy negb]. rewrite orb_true_r. split; reflexivity.
    + intros t' Ht Hne Har. injection Ht as <-.
      assert (Htext : negb (truthy t) || negb (truthy (strip t)) = false).
      { destruct (strip t) eqn:Hs; [contradiction |].
        destruct t; [discriminate | reflexivity]. }
      rewrite Htext. unfold search, text_sample. rewrite Har.
      split; reflexivity.
  - split; [left; reflexivity |]. split; [left; reflexivity |].
    split; intros t Ht; discriminate.
Qed.

Lemma language_detectors_agree_witness :
  let t := py " see verse " ++ [0x0627%N] ++ py " (1:2) " in
  detect_language (Some t) = py "arabic" /\
  detect_language_simple (Some t) = py "arabic".
Proof.
  intro t.
  apply (proj2 (proj2 (proj2 (language_detectors_agree (Some t)))) t eq_refl).
  - vm_compute. discriminate.
  - vm_compute. reflexivity.
Defined.

End Texts.
